(** * Diet-log tracker backend: target calculator, water ledger, aggregators

    A shallow embedding of [backend/server.py] and the properties of its
    computational core: profile-driven calorie and macro targets, the per-day
    water ledger with undo, the dashboard with its streak, and the weekly
    statistics.

    Conventions of the embedding:
    - a Python [float] is an IEEE binary64 number, taken from the Standard
      Library's [SpecFloat] with precision 53 and exponent bound 1024, so
      every arithmetic step rounds exactly as the interpreter does;
    - a Python [int] is a [Z];
    - a document used as a dictionary is a [gmap string value];
    - a raised exception is the [Err] branch of [result];
    - the clock, fresh uuids and timestamps are arguments of the handlers. *)

From Stdlib Require Import ZArith QArith Qpower String Ascii List Bool Lia.
From Stdlib Require Import Floats.SpecFloat Sorting.Sorted Sorting.Permutation.
From stdpp Require Import gmap strings list fin_maps.

Open Scope Z_scope.

(** ** Exceptions and the result monad *)

Inductive exn :=
| TypeError
| ValueError
| OverflowError
| ZeroDivisionError
| KeyError (key : string)
| HTTPException (status_code : Z) (detail : string).

Inductive result (A : Type) :=
| Ok (a : A)
| Err (e : exn).
Arguments Ok {A} a.
Arguments Err {A} e.

#[global] Instance result_ret : MRet result := fun _ a => Ok a.
#[global] Instance result_bind : MBind result := fun _ _ f m =>
  match m with
  | Ok a => f a
  | Err e => Err e
  end.
#[global] Instance result_fmap : FMap result := fun _ _ f m =>
  match m with
  | Ok a => Ok (f a)
  | Err e => Err e
  end.

Definition is_Ok {A} (r : result A) : bool :=
  match r with
  | Ok _ => true
  | Err _ => false
  end.

Definition from_Ok {A} (dflt : A) (r : result A) : A :=
  match r with
  | Ok a => a
  | Err _ => dflt
  end.

(** ** Binary64 floating point *)

Module Float.

Definition prec : Z := 53.
Definition emax : Z := 1024.

Definition of_Z (n : Z) : spec_float := binary_normalize prec emax n 0 false.
Definition add : spec_float -> spec_float -> spec_float := SFadd prec emax.
Definition sub : spec_float -> spec_float -> spec_float := SFsub prec emax.
Definition mul : spec_float -> spec_float -> spec_float := SFmul prec emax.
Definition div : spec_float -> spec_float -> spec_float := SFdiv prec emax.

(** The double nearest to the decimal literal [num/den]: both integers are
    exact doubles and division is correctly rounded, which is how a float
    literal of the source text is read. *)
Definition lit (num den : Z) : spec_float := div (of_Z num) (of_Z den).

Definition is_finite (f : spec_float) : bool :=
  match f with
  | S754_zero _ | S754_finite _ _ _ => true
  | S754_infinity _ | S754_nan => false
  end.

Definition is_zero (f : spec_float) : bool :=
  match f with
  | S754_zero _ => true
  | _ => false
  end.

(** [float(n)] for an int: nearest double, OverflowError beyond the range. *)
Definition of_int (n : Z) : result spec_float :=
  let f := of_Z n in
  if is_finite f then Ok f else Err OverflowError.

(** [int(f)]: truncation toward zero; ValueError on nan, OverflowError on
    an infinity. *)
Definition to_int (f : spec_float) : result Z :=
  match f with
  | S754_zero _ => Ok 0
  | S754_finite s m e =>
      Ok (cond_Zopp s (if 0 <=? e then Z.pos m * 2 ^ e else Z.pos m / 2 ^ (- e)))
  | S754_infinity _ => Err OverflowError
  | S754_nan => Err ValueError
  end.

(** Nearest integer to [a/b] for [b > 0], ties to even. *)
Definition div_half_even (a b : Z) : Z :=
  let q := a / b in
  match 2 * (a mod b) ?= b with
  | Lt => q
  | Gt => q + 1
  | Eq => if Z.even q then q else q + 1
  end.

(** The double nearest to the quotient of two positive integers. *)
Definition of_ratio (s : bool) (a b : positive) : spec_float :=
  let '(mz, ez, lz) := SFdiv_core_binary prec emax (Z.pos a) 0 (Z.pos b) 0 in
  binary_round_aux prec emax s mz ez lz.

(** [round(f, 1)]: the exact value is rounded to the nearest tenth (ties
    to even) and the decimal result is read back as a double. *)
Definition round1 (f : spec_float) : spec_float :=
  match f with
  | S754_finite s m e =>
      let n := if 0 <=? e then 10 * Z.pos m * 2 ^ e
               else div_half_even (10 * Z.pos m) (2 ^ (- e)) in
      match n with
      | Z.pos p => of_ratio s p 10
      | _ => S754_zero s
      end
  | _ => f
  end.

End Float.

(** ** Python values *)

Inductive num :=
| NInt (n : Z)
| NFloat (f : spec_float).

Inductive value :=
| VNone
| VBool (b : bool)
| VNum (x : num)
| VStr (s : string).

Abbreviation VInt n := (VNum (NInt n)).
Abbreviation VFloat f := (VNum (NFloat f)).

#[global] Instance spec_float_eq_dec : EqDecision spec_float.
Proof. solve_decision. Defined.
#[global] Instance num_eq_dec : EqDecision num.
Proof. solve_decision. Defined.
#[global] Instance value_eq_dec : EqDecision value.
Proof. solve_decision. Defined.

(** Truth value testing: None, False, numeric zero and the empty string are
    false; everything else, nan included, is true. *)
Definition truthy (v : value) : bool :=
  match v with
  | VNone => false
  | VBool b => b
  | VInt n => negb (n =? 0)
  | VFloat f => negb (Float.is_zero f)
  | VStr s => negb (String.eqb s "")
  end.

(** Arithmetic is modelled on numbers (bool counts as int); any other
    operand raises TypeError. (Python repeats a str under [*], but the sum
    it then enters raises TypeError all the same.) *)
Definition as_num (v : value) : result num :=
  match v with
  | VBool b => Ok (NInt (Z.b2z b))
  | VNum x => Ok x
  | _ => Err TypeError
  end.

Definition to_float (x : num) : result spec_float :=
  match x with
  | NInt n => Float.of_int n
  | NFloat f => Ok f
  end.

Definition num_binop (iop : Z -> Z -> Z)
    (fop : spec_float -> spec_float -> spec_float) (x y : num) : result num :=
  match x, y with
  | NInt a, NInt b => Ok (NInt (iop a b))
  | _, _ => fx ← to_float x; fy ← to_float y; Ok (NFloat (fop fx fy))
  end.

Definition num_add := num_binop Z.add Float.add.
Definition num_sub := num_binop Z.sub Float.sub.
Definition num_mul := num_binop Z.mul Float.mul.

(** True division [x / y]: int/int is correctly rounded, a float operand
    converts the other one. *)
Definition num_truediv (x y : num) : result spec_float :=
  match x, y with
  | NInt a, NInt b =>
      if b =? 0 then Err ZeroDivisionError
      else if a =? 0 then Ok (S754_zero (b <? 0))
      else
        let f := Float.of_ratio (xorb (a <? 0) (b <? 0))
                   (Z.to_pos (Z.abs a)) (Z.to_pos (Z.abs b)) in
        if Float.is_finite f then Ok f else Err OverflowError
  | _, _ =>
      fx ← to_float x; fy ← to_float y;
      if Float.is_zero fy then Err ZeroDivisionError else Ok (Float.div fx fy)
  end.

Definition py_binop (op : num -> num -> result num) (a b : value) : result value :=
  x ← as_num a; y ← as_num b; VNum <$> op x y.

Definition py_add := py_binop num_add.
Definition py_sub := py_binop num_sub.
Definition py_mul := py_binop num_mul.

(** [int(x)] on a number. *)
Definition num_int (x : num) : result Z :=
  match x with
  | NInt n => Ok n
  | NFloat f => Float.to_int f
  end.

(** [round(x, 1)]: an int is returned as it is. *)
Definition num_round1 (x : num) : num :=
  match x with
  | NInt n => NInt n
  | NFloat f => NFloat (Float.round1 f)
  end.

(** [sum(xs)]: starts from the int 0 and adds from left to right. (CPython
    3.12 and later add floats with a compensated sum; the two agree whenever
    the additions are exact, as they are in every example below.) *)
Definition py_sum (xs : list num) : result num :=
  foldl (fun acc x => a ← acc; num_add a x) (Ok (NInt 0)) xs.

(** [int(v)] where [v] is the result of arithmetic. *)
Definition py_int (v : value) : result Z :=
  x ← as_num v; num_int x.

(** ** Documents *)

(** [d.get(k, dflt)] and [d[k]]. *)
Definition dict_get (d : gmap string value) (k : string) (dflt : value) : value :=
  default dflt (d !! k).

Definition dict_item (d : gmap string value) (k : string) : result value :=
  match d !! k with
  | Some v => Ok v
  | None => Err (KeyError k)
  end.

(** The request model of [PUT /profile]; every field is optional and typed. *)
Module ProfileUpdate.
Record t := {
  name : option string;
  age : option Z;
  gender : option string;
  height_cm : option spec_float;
  current_weight : option spec_float;
  goal_weight : option spec_float;
  activity_level : option string;
  weight_loss_rate : option spec_float;
  units : option string;
  calorie_target : option Z;
  protein_target : option Z;
  carbs_target : option Z;
  fat_target : option Z;
  water_goal : option Z;
  onboarding_completed : option bool
}.

Definition field {A} (inj : A -> value) (o : option A) : value :=
  match o with
  | Some a => inj a
  | None => VNone
  end.

Definition model_dump (u : t) : list (string * value) :=
  [ ("name", field VStr (name u));
    ("age", field (fun n => VInt n) (age u));
    ("gender", field VStr (gender u));
    ("height_cm", field (fun f => VFloat f) (height_cm u));
    ("current_weight", field (fun f => VFloat f) (current_weight u));
    ("goal_weight", field (fun f => VFloat f) (goal_weight u));
    ("activity_level", field VStr (activity_level u));
    ("weight_loss_rate", field (fun f => VFloat f) (weight_loss_rate u));
    ("units", field VStr (units u));
    ("calorie_target", field (fun n => VInt n) (calorie_target u));
    ("protein_target", field (fun n => VInt n) (protein_target u));
    ("carbs_target", field (fun n => VInt n) (carbs_target u));
    ("fat_target", field (fun n => VInt n) (fat_target u));
    ("water_goal", field (fun n => VInt n) (water_goal u));
    ("onboarding_completed", field VBool (onboarding_completed u)) ].
End ProfileUpdate.

(** The user document that [register] inserts. *)
Definition register_user_doc (user_id name email password created_at : string)
    : gmap string value :=
  list_to_map
    [ ("id", VStr user_id); ("name", VStr name); ("email", VStr email);
      ("password", VStr password);
      ("age", VNone); ("gender", VNone); ("height_cm", VNone);
      ("current_weight", VNone); ("goal_weight", VNone);
      ("activity_level", VStr "moderate");
      ("weight_loss_rate", VFloat (Float.lit 10 10));
      ("units", VStr "imperial");
      ("calorie_target", VInt 2000); ("protein_target", VInt 150);
      ("carbs_target", VInt 200); ("fat_target", VInt 67);
      ("water_goal", VInt 2000);
      ("onboarding_completed", VBool false);
      ("created_at", VStr created_at) ].

(** ** Target calculator *)

(** Mifflin-St Jeor equation *)
Definition calculate_bmr (gender weight_kg height_cm age : value) : result value :=
  if decide (gender = VStr "male") then
    a ← py_mul (VInt 10) weight_kg;
    b ← py_mul (VFloat (Float.lit 625 100)) height_cm;
    c ← py_add a b;
    d ← py_mul (VInt 5) age;
    e ← py_sub c d;
    py_add e (VInt 5)
  else
    a ← py_mul (VInt 10) weight_kg;
    b ← py_mul (VFloat (Float.lit 625 100)) height_cm;
    c ← py_add a b;
    d ← py_mul (VInt 5) age;
    e ← py_sub c d;
    py_sub e (VInt 161).

Definition activity_multipliers : gmap string spec_float :=
  list_to_map
    [ ("sedentary", Float.lit 12 10); ("light", Float.lit 1375 1000);
      ("moderate", Float.lit 155 100); ("active", Float.lit 1725 1000);
      ("very_active", Float.lit 19 10) ].

(** [activity_multipliers.get(v, 1.55)] *)
Definition activity_multiplier (v : value) : spec_float :=
  match v with
  | VStr s => default (Float.lit 155 100) (activity_multipliers !! s)
  | _ => Float.lit 155 100
  end.

Definition required_fields : list string :=
  ["age"; "gender"; "height_cm"; "current_weight"].

(** The dict comprehension over [update.model_dump()]. *)
Definition update_data_of (update : ProfileUpdate.t) : gmap string value :=
  list_to_map (filter (fun kv => kv.2 ≠ VNone) (ProfileUpdate.model_dump update)).

(** [all(merged.get(f) for f in [...])] *)
Definition enough_data (merged : gmap string value) : bool :=
  forallb (fun f => truthy (dict_get merged f VNone)) required_fields.

(** The macro split of a calorie target. *)
Definition macro_target (calorie_target : Z) (share : spec_float) (kcal_per_g : Z)
    : result Z :=
  x ← num_mul (NInt calorie_target) (NFloat share);
  y ← num_truediv x (NInt kcal_per_g);
  Float.to_int y.

(** The body of the [if all(...)] branch: the entries added to
    [update_data]. *)
Definition recompute_targets (merged update_data : gmap string value)
    : result (gmap string value) :=
  gender ← dict_item merged "gender";
  current_weight ← dict_item merged "current_weight";
  height_cm ← dict_item merged "height_cm";
  age ← dict_item merged "age";
  bmr ← calculate_bmr gender current_weight height_cm age;
  tdee ← py_mul bmr
    (VFloat (activity_multiplier (dict_get merged "activity_level" (VStr "moderate"))));
  let weight_loss_rate := dict_get merged "weight_loss_rate" (VFloat (Float.lit 10 10)) in
  deficit ← py_mul weight_loss_rate (VInt 500);
  diff ← py_sub tdee deficit;
  n ← py_int diff;
  let calorie_target := Z.max 1200 n in
  protein_target ← macro_target calorie_target (Float.lit 30 100) 4;
  carbs_target ← macro_target calorie_target (Float.lit 40 100) 4;
  fat_target ← macro_target calorie_target (Float.lit 30 100) 9;
  bmr_int ← py_int bmr;
  tdee_int ← py_int tdee;
  Ok (<["tdee" := VInt tdee_int]>
      (<["bmr" := VInt bmr_int]>
      (<["fat_target" := VInt fat_target]>
      (<["carbs_target" := VInt carbs_target]>
      (<["protein_target" := VInt protein_target]>
      (<["calorie_target" := VInt calorie_target]> update_data)))))).

(** [PUT /profile]: [user] is the stored document of the caller; the result
    is the stored document after [$set]. *)
Definition update_profile (update : ProfileUpdate.t) (user : gmap string value)
    : result (gmap string value) :=
  let update_data := update_data_of update in
  let merged := update_data ∪ user in
  update_data ←
    (if enough_data merged then recompute_targets merged update_data
     else Ok update_data);
  Ok (update_data ∪ user).

(** *** The target formula as the specification words it *)

Module Spec.

(** [round(f)]: the nearest integer, ties to even. *)
Definition round (f : spec_float) : result Z :=
  match f with
  | S754_zero _ => Ok 0
  | S754_finite s m e =>
      Ok (cond_Zopp s (if 0 <=? e then Z.pos m * 2 ^ e
                       else Float.div_half_even (Z.pos m) (2 ^ (- e))))
  | S754_infinity _ => Err OverflowError
  | S754_nan => Err ValueError
  end.

(** male: 10 W + 6.25 H - 5 A + 5; any other gender: ... - 161. *)
Definition bmr (gender : string) (w h : spec_float) (a : Z) : result spec_float :=
  fa ← Float.of_int (5 * a);
  let base :=
    Float.sub (Float.add (Float.mul (Float.of_Z 10) w)
                         (Float.mul (Float.lit 625 100) h)) fa in
  Ok (if String.eqb gender "male" then Float.add base (Float.of_Z 5)
      else Float.sub base (Float.of_Z 161)).

(** The fixed table, 1.55 for anything else. *)
Definition multiplier (activity : value) : spec_float :=
  if decide (activity = VStr "sedentary") then Float.lit 12 10
  else if decide (activity = VStr "light") then Float.lit 1375 1000
  else if decide (activity = VStr "moderate") then Float.lit 155 100
  else if decide (activity = VStr "active") then Float.lit 1725 1000
  else if decide (activity = VStr "very_active") then Float.lit 19 10
  else Float.lit 155 100.

(** max(1200, to_integer(TDEE - rate * 500)), for a choice of the
    conversion to an integer. *)
Definition calorie_target (to_integer : spec_float -> result Z)
    (gender : string) (w h : spec_float) (a : Z) (activity : value)
    (rate : spec_float) : result Z :=
  b ← bmr gender w h a;
  let tdee := Float.mul b (multiplier activity) in
  n ← to_integer (Float.sub tdee (Float.mul rate (Float.of_Z 500)));
  Ok (Z.max 1200 n).

End Spec.

(** ** Ordering of numbers *)

(** The exact value of a number: [XFin m e] is [m * 2^e]. *)
Inductive xval :=
| XNaN
| XInf (negative : bool)
| XFin (m e : Z).

Definition num_xval (x : num) : xval :=
  match x with
  | NInt n => XFin n 0
  | NFloat (S754_zero _) => XFin 0 0
  | NFloat (S754_finite s m e) => XFin (cond_Zopp s (Z.pos m)) e
  | NFloat (S754_infinity s) => XInf s
  | NFloat S754_nan => XNaN
  end.

(** Python compares an int and a float by value, without converting the int;
    [None] when a nan makes the pair unordered. *)
Definition xval_compare (x y : xval) : option comparison :=
  match x, y with
  | XNaN, _ | _, XNaN => None
  | XInf s1, XInf s2 =>
      Some (match s1, s2 with
            | true, false => Lt
            | false, true => Gt
            | _, _ => Eq
            end)
  | XInf s, XFin _ _ => Some (if s then Lt else Gt)
  | XFin _ _, XInf s => Some (if s then Gt else Lt)
  | XFin a ea, XFin b eb =>
      let e := Z.min ea eb in
      Some (a * 2 ^ (ea - e) ?= b * 2 ^ (eb - e))
  end.

Definition num_compare (x y : num) : option comparison :=
  xval_compare (num_xval x) (num_xval y).

Definition num_gt (x y : num) : bool :=
  match num_compare x y with
  | Some Gt => true
  | _ => false
  end.

Definition num_le (x y : num) : bool :=
  match num_compare x y with
  | Some Lt | Some Eq => true
  | _ => false
  end.

(** ** Calendar days *)

(** A [date] is its proleptic Gregorian ordinal (day 1 is 0001-01-01), as
    [date.toordinal()] gives it; subtracting a [timedelta(days=k)] subtracts
    [k]. The conversion to year, month and day follows [datetime]'s. *)
Module Date.

Definition days_in_month (month : Z) : Z :=
  match month with
  | 2 => 28
  | 4 | 6 | 9 | 11 => 30
  | _ => 31
  end.

Definition days_before_month (month : Z) : Z :=
  match month with
  | 1 => 0 | 2 => 31 | 3 => 59 | 4 => 90 | 5 => 120 | 6 => 151
  | 7 => 181 | 8 => 212 | 9 => 243 | 10 => 273 | 11 => 304 | _ => 334
  end.

Definition ord2ymd (ordinal : Z) : Z * Z * Z :=
  let n := ordinal - 1 in
  let n400 := n / 146097 in
  let n := n mod 146097 in
  let n100 := n / 36524 in
  let n := n mod 36524 in
  let n4 := n / 1461 in
  let n := n mod 1461 in
  let n1 := n / 365 in
  let n := n mod 365 in
  let year := n400 * 400 + 1 + n100 * 100 + n4 * 4 + n1 in
  if (n1 =? 4) || (n100 =? 4) then (year - 1, 12, 31)
  else
    let leapyear := (n1 =? 3) && (negb (n4 =? 24) || (n100 =? 3)) in
    let month := Z.shiftr (n + 50) 5 in
    let preceding :=
      days_before_month month + Z.b2z ((2 <? month) && leapyear) in
    if n <? preceding then
      let month := month - 1 in
      let preceding :=
        preceding - (days_in_month month + Z.b2z ((month =? 2) && leapyear)) in
      (year, month, n - preceding + 1)
    else (year, month, n - preceding + 1).

Definition digit (d : Z) : string :=
  String (Ascii.ascii_of_nat (48 + Z.to_nat (d mod 10))) EmptyString.

Definition pad2 (n : Z) : string := digit (n / 10) +:+ digit n.
Definition pad4 (n : Z) : string := pad2 (n / 100) +:+ pad2 n.

(** [d.strftime("%Y-%m-%d")], for the four-digit years a clock gives. *)
Definition strftime_ymd (ordinal : Z) : string :=
  let '(y, m, d) := ord2ymd ordinal in
  pad4 y +:+ "-" +:+ pad2 m +:+ "-" +:+ pad2 d.

(** [d.strftime("%a")] in the C locale; Monday is weekday 0. *)
Definition strftime_a (ordinal : Z) : string :=
  match (ordinal + 6) mod 7 with
  | 0 => "Mon" | 1 => "Tue" | 2 => "Wed" | 3 => "Thu"
  | 4 => "Fri" | 5 => "Sat" | _ => "Sun"
  end.

End Date.

(** What a request reads from outside: the UTC day of the clock, its
    successive ISO timestamps, and the successive [uuid4()] strings. *)
Record env := {
  today : Z;
  now_iso : nat -> string;
  uuid4 : nat -> string
}.

Definition today_str (E : env) : string := Date.strftime_ymd (today E).

(** [date or datetime.now(timezone.utc).strftime("%Y-%m-%d")] for an
    optional string: None and the empty string are both false. *)
Definition date_or_today (E : env) (date : option string) : string :=
  match date with
  | Some s => if String.eqb s "" then today_str E else s
  | None => today_str E
  end.

(** ** Water ledger *)

(** A document of [water_logs] and one of its [entries]. The handlers below
    are the only writers of the collection, so every stored document has
    the keys read here and the [.get] fallbacks of the source are never
    taken. *)
Record water_entry := {
  we_id : string;
  we_amount_ml : Z;
  we_time : string
}.

Record water_log := {
  wl_id : string;
  wl_user_id : value;
  wl_date : string;
  wl_total_ml : Z;
  wl_entries : list water_entry;
  wl_created_at : string
}.

(** The request model of [POST /water-logs]. *)
Module WaterLogAdd.
Record t := {
  amount_ml : Z;
  date : option string
}.
End WaterLogAdd.

#[global] Instance water_entry_eq_dec : EqDecision water_entry.
Proof. solve_decision. Defined.

Definition water_matches (user_id : value) (date : string) (w : water_log) : bool :=
  bool_decide (wl_user_id w = user_id) && String.eqb (wl_date w) date.

(** [db.water_logs.find_one({"user_id": ..., "date": ...})] *)
Definition water_find_one (db : list water_log) (user_id : value) (date : string)
    : option water_log :=
  List.find (water_matches user_id date) db.

(** [{"$set": {"total_ml": .., "entries": ..}}] on one document. *)
Definition water_set (w : water_log) (total_ml : Z) (entries : list water_entry)
    : water_log :=
  {| wl_id := wl_id w; wl_user_id := wl_user_id w; wl_date := wl_date w;
     wl_total_ml := total_ml; wl_entries := entries;
     wl_created_at := wl_created_at w |}.

(** [db.water_logs.update_one(filter, {"$set": ..})]: the first matching
    document is rewritten. *)
Fixpoint water_update_one (db : list water_log) (user_id : value) (date : string)
    (total_ml : Z) (entries : list water_entry) : list water_log :=
  match db with
  | [] => []
  | w :: rest =>
      if water_matches user_id date w then water_set w total_ml entries :: rest
      else w :: water_update_one rest user_id date total_ml entries
  end.

Record water_view := {
  wv_date : string;
  wv_total_ml : Z;
  wv_goal_ml : value;
  wv_removed_entry : option water_entry;
  wv_entries : list water_entry
}.

(** [POST /water-logs] *)
Definition add_water (E : env) (entry : WaterLogAdd.t) (user : gmap string value)
    (db : list water_log) : result (list water_log * water_view) :=
  let date := date_or_today E (WaterLogAdd.date entry) in
  user_id ← dict_item user "id";
  match water_find_one db user_id date with
  | Some existing =>
      let new_amount := wl_total_ml existing + WaterLogAdd.amount_ml entry in
      let new_entries :=
        wl_entries existing ++
        [{| we_id := uuid4 E 0; we_amount_ml := WaterLogAdd.amount_ml entry;
            we_time := now_iso E 1 |}] in
      Ok (water_update_one db user_id date new_amount new_entries,
          {| wv_date := date; wv_total_ml := new_amount;
             wv_goal_ml := dict_get user "water_goal" (VInt 2000);
             wv_removed_entry := None; wv_entries := new_entries |})
  | None =>
      let log_doc :=
        {| wl_id := uuid4 E 0; wl_user_id := user_id; wl_date := date;
           wl_total_ml := WaterLogAdd.amount_ml entry;
           wl_entries :=
             [{| we_id := uuid4 E 1; we_amount_ml := WaterLogAdd.amount_ml entry;
                 we_time := now_iso E 1 |}];
           wl_created_at := now_iso E 2 |} in
      Ok (db ++ [log_doc],
          {| wv_date := date; wv_total_ml := WaterLogAdd.amount_ml entry;
             wv_goal_ml := dict_get user "water_goal" (VInt 2000);
             wv_removed_entry := None; wv_entries := wl_entries log_doc |})
  end.

(** [entries[-1]] and [entries[:-1]] of a non-empty list. *)
Definition py_last {A} (l : list A) : option A := last l.
Definition py_init {A} (l : list A) : list A := removelast l.

(** [DELETE /water-logs/last] *)
Definition remove_last_water_entry (E : env) (date : option string)
    (user : gmap string value) (db : list water_log)
    : result (list water_log * water_view) :=
  let date := date_or_today E date in
  user_id ← dict_item user "id";
  match water_find_one db user_id date with
  | None => Err (HTTPException 404 "No water entry found to remove")
  | Some log =>
      let entries := wl_entries log in
      match py_last entries with
      | None => Err (HTTPException 404 "No water entry found to remove")
      | Some removed =>
          let remaining_entries := py_init entries in
          let amount_removed := we_amount_ml removed in
          let new_total := Z.max 0 (wl_total_ml log - amount_removed) in
          Ok (water_update_one db user_id date new_total remaining_entries,
              {| wv_date := date; wv_total_ml := new_total;
                 wv_goal_ml := dict_get user "water_goal" (VInt 2000);
                 wv_removed_entry := Some removed;
                 wv_entries := remaining_entries |})
      end
  end.

(** [GET /water-logs] *)
Definition get_water_log (E : env) (date : option string)
    (user : gmap string value) (db : list water_log) : result water_view :=
  let date := date_or_today E date in
  user_id ← dict_item user "id";
  match water_find_one db user_id date with
  | None =>
      Ok {| wv_date := date; wv_total_ml := 0;
            wv_goal_ml := dict_get user "water_goal" (VInt 2000);
            wv_removed_entry := None; wv_entries := [] |}
  | Some log =>
      Ok {| wv_date := wl_date log; wv_total_ml := wl_total_ml log;
            wv_goal_ml := dict_get user "water_goal" (VInt 2000);
            wv_removed_entry := None; wv_entries := wl_entries log |}
  end.

(** The operations of the ledger on one (user, day), as a trace. *)
Inductive water_op :=
| WAdd (amount : Z)
| WUndo.

Definition water_step (E : env) (date : option string) (user : gmap string value)
    (db : list water_log) (op : water_op) : list water_log :=
  match op with
  | WAdd amount =>
      match add_water E {| WaterLogAdd.amount_ml := amount; WaterLogAdd.date := date |} user db with
      | Ok (db', _) => db'
      | Err _ => db
      end
  | WUndo =>
      match remove_last_water_entry E date user db with
      | Ok (db', _) => db'
      | Err _ => db
      end
  end.

Definition water_run (E : env) (date : option string) (user : gmap string value)
    (ops : list water_op) (db : list water_log) : list water_log :=
  foldl (water_step E date user) db ops.

(** The ledger invariant: the total of every document is the sum of its
    entries' amounts. *)
Definition entries_sum (entries : list water_entry) : Z :=
  foldr Z.add 0 (we_amount_ml <$> entries).

Definition water_total_ok (w : water_log) : Prop :=
  wl_total_ml w = entries_sum (wl_entries w).

Definition water_inv (db : list water_log) : Prop := Forall water_total_ok db.

(** The same with every amount non-negative, which is what adds of
    non-negative amounts maintain. *)
Definition water_nonneg_ok (w : water_log) : Prop :=
  water_total_ok w /\ Forall (fun e => 0 <= we_amount_ml e) (wl_entries w).

Definition water_op_nonneg (op : water_op) : Prop :=
  match op with
  | WAdd amount => 0 <= amount
  | WUndo => True
  end.

(** ** Food logs and weight logs *)

(** A document of [food_logs]; the macro values are the quantity-scaled
    floats stored by [create_food_log]. *)
Record food_log := {
  fl_id : string;
  fl_user_id : value;
  fl_food_name : string;
  fl_calories : spec_float;
  fl_protein : spec_float;
  fl_carbs : spec_float;
  fl_fat : spec_float;
  fl_fiber : spec_float;
  fl_serving : string;
  fl_quantity : spec_float;
  fl_meal_type : string;
  fl_logged_at : string;
  fl_date : string;
  fl_created_at : string
}.

Record weight_log := {
  wg_id : string;
  wg_user_id : value;
  wg_weight : spec_float;
  wg_note : string;
  wg_logged_at : string;
  wg_date : string;
  wg_created_at : string
}.

Definition food_matches (user_id : value) (date : string) (f : food_log) : bool :=
  bool_decide (fl_user_id f = user_id) && String.eqb (fl_date f) date.

(** [cursor.sort(key, direction)]: insertion sort. Documents with equal
    keys keep their stored order; the store itself leaves their order
    open. *)
Fixpoint insert_by {A} (le : A -> A -> bool) (x : A) (l : list A) : list A :=
  match l with
  | [] => [x]
  | y :: rest => if le x y then x :: l else y :: insert_by le x rest
  end.

Definition sort_by {A} (le : A -> A -> bool) (l : list A) : list A :=
  foldr (insert_by le) [] l.

Definition logged_at_asc (a b : food_log) : bool :=
  String.leb (fl_logged_at a) (fl_logged_at b).

Definition logged_at_desc (a b : weight_log) : bool :=
  String.leb (wg_logged_at b) (wg_logged_at a).

(** [db.food_logs.find({..}).sort("logged_at", 1).to_list(100)] *)
Definition food_find_sorted (db : list food_log) (user_id : value) (date : string)
    : list food_log :=
  take 100 (sort_by logged_at_asc (List.filter (food_matches user_id date) db)).

(** [db.food_logs.find({..}).to_list(100)] *)
Definition food_find (db : list food_log) (user_id : value) (date : string)
    : list food_log :=
  take 100 (List.filter (food_matches user_id date) db).

(** [db.food_logs.count_documents({..})] *)
Definition food_count_documents (db : list food_log) (user_id : value)
    (date : string) : Z :=
  Z.of_nat (length (List.filter (food_matches user_id date) db)).

(** ** Dashboard *)

(** The [for _ in range(365)] loop of [calculate_streak], with what is left
    of the range as the recursion argument. *)
Fixpoint streak_loop (db : list food_log) (user_id : value) (remaining : nat)
    (check_date : Z) (streak : Z) : Z :=
  match remaining with
  | O => streak
  | S remaining' =>
      let date_str := Date.strftime_ymd check_date in
      let count := food_count_documents db user_id date_str in
      if 0 <? count then
        streak_loop db user_id remaining' (check_date - 1) (streak + 1)
      else streak
  end.

Definition calculate_streak (E : env) (db : list food_log) (user_id : value) : Z :=
  streak_loop db user_id 365 (today E) 0.

Record consumed_target := {
  consumed : num;
  target : value
}.

Record meals := {
  breakfast : list food_log;
  lunch : list food_log;
  dinner : list food_log;
  snack : list food_log
}.

Record dashboard := {
  dash_date : string;
  dash_calories : consumed_target;
  dash_protein : consumed_target;
  dash_carbs : consumed_target;
  dash_fat : consumed_target;
  dash_water_consumed_ml : Z;
  dash_water_goal_ml : value;
  dash_food_logs : list food_log;
  dash_streak : Z;
  dash_meals : meals
}.

Definition meal_bucket (food_logs : list food_log) (meal_type : string)
    : list food_log :=
  List.filter (fun f => String.eqb (fl_meal_type f) meal_type) food_logs.

(** [GET /dashboard] *)
Definition get_dashboard (E : env) (date : option string)
    (user : gmap string value) (foods : list food_log) (waters : list water_log)
    : result dashboard :=
  let date := date_or_today E date in
  user_id ← dict_item user "id";
  let food_logs := food_find_sorted foods user_id date in
  total_calories ← py_sum ((fun f => NFloat (fl_calories f)) <$> food_logs);
  total_protein ← py_sum ((fun f => NFloat (fl_protein f)) <$> food_logs);
  total_carbs ← py_sum ((fun f => NFloat (fl_carbs f)) <$> food_logs);
  total_fat ← py_sum ((fun f => NFloat (fl_fat f)) <$> food_logs);
  let water_log := water_find_one waters user_id date in
  let water_total :=
    match water_log with
    | Some w => wl_total_ml w
    | None => 0
    end in
  let streak := calculate_streak E foods user_id in
  Ok {| dash_date := date;
        dash_calories :=
          {| consumed := num_round1 total_calories;
             target := dict_get user "calorie_target" (VInt 2000) |};
        dash_protein :=
          {| consumed := num_round1 total_protein;
             target := dict_get user "protein_target" (VInt 150) |};
        dash_carbs :=
          {| consumed := num_round1 total_carbs;
             target := dict_get user "carbs_target" (VInt 200) |};
        dash_fat :=
          {| consumed := num_round1 total_fat;
             target := dict_get user "fat_target" (VInt 67) |};
        dash_water_consumed_ml := water_total;
        dash_water_goal_ml := dict_get user "water_goal" (VInt 2000);
        dash_food_logs := food_logs;
        dash_streak := streak;
        dash_meals :=
          {| breakfast := meal_bucket food_logs "breakfast";
             lunch := meal_bucket food_logs "lunch";
             dinner := meal_bucket food_logs "dinner";
             snack := meal_bucket food_logs "snack" |} |}.

(** ** Weekly statistics *)

Record daily_stat := {
  ds_date : string;
  ds_day : string;
  ds_calories : num;
  ds_water_ml : Z
}.

Record weekly_acc := {
  acc_daily_stats : list daily_stat;
  acc_total_cals : num;
  acc_days_on_track : Z
}.

Record weekly_stats := {
  daily_stats : list daily_stat;
  avg_daily_calories : spec_float;
  days_on_track : Z;
  weight_change : num;
  total_calories : num
}.

(** [day_cals > 0 and day_cals <= user.get("calorie_target", 2000)] *)
Definition on_track (day_cals : num) (user : gmap string value) : result bool :=
  if num_gt day_cals (NInt 0) then
    t ← as_num (dict_get user "calorie_target" (VInt 2000));
    Ok (num_le day_cals t)
  else Ok false.

(** One pass of the [for i in range(7)] loop, for the day [d]. *)
Definition weekly_day (user : gmap string value) (user_id : value)
    (foods : list food_log) (waters : list water_log)
    (acc : weekly_acc) (d : Z) : result weekly_acc :=
  let date_str := Date.strftime_ymd d in
  let food_logs := food_find foods user_id date_str in
  day_cals ← py_sum ((fun f => NFloat (fl_calories f)) <$> food_logs);
  total_cals ← num_add (acc_total_cals acc) day_cals;
  ok ← on_track day_cals user;
  let days_on_track :=
    if (ok : bool) then acc_days_on_track acc + 1 else acc_days_on_track acc in
  let water := water_find_one waters user_id date_str in
  Ok {| acc_daily_stats :=
          acc_daily_stats acc ++
          [{| ds_date := date_str; ds_day := Date.strftime_a d;
              ds_calories := num_round1 day_cals;
              ds_water_ml := match water with
                             | Some w => wl_total_ml w
                             | None => 0
                             end |}];
        acc_total_cals := total_cals;
        acc_days_on_track := days_on_track |}.

(** The seven days [week_start + timedelta(days=i)], oldest first. *)
Definition week_days (E : env) : list Z :=
  let week_start := today E - 6 in
  (fun i => week_start + Z.of_nat i) <$> seq 0 7.

(** [db.weight_logs.find({..}).sort("logged_at", -1).limit(30).to_list(30)] *)
Definition weight_find_recent (db : list weight_log) (user_id : value)
    : list weight_log :=
  take 30 (take 30 (sort_by logged_at_desc
    (List.filter (fun w => bool_decide (wg_user_id w = user_id)) db))).

(** [GET /stats/weekly] *)
Definition get_weekly_stats (E : env) (user : gmap string value)
    (foods : list food_log) (waters : list water_log) (weights : list weight_log)
    : result weekly_stats :=
  user_id ← dict_item user "id";
  acc ← foldl (fun acc d => a ← acc; weekly_day user user_id foods waters a d)
        (Ok {| acc_daily_stats := []; acc_total_cals := NInt 0;
               acc_days_on_track := 0 |})
        (week_days E);
  avg ← num_truediv (acc_total_cals acc) (NInt 7);
  let avg_cals := Float.round1 avg in
  let weight_logs := weight_find_recent weights user_id in
  let weight_change :=
    match weight_logs, py_last weight_logs with
    | first :: _ :: _, Some oldest =>
        NFloat (Float.round1 (Float.sub (wg_weight first) (wg_weight oldest)))
    | _, _ => NInt 0
    end in
  Ok {| daily_stats := acc_daily_stats acc;
        avg_daily_calories := avg_cals;
        days_on_track := acc_days_on_track acc;
        weight_change := weight_change;
        total_calories := num_round1 (acc_total_cals acc) |}.

(** ** Sample data *)

Module Sample.

Definition user : gmap string value :=
  register_user_doc "u1" "Ann" "ann@example.org" "bcrypt-hash"
                    "2026-11-04T08:00:00+00:00".

Definition user_id : value := VStr "u1".

(** age 30, female, 180 cm, 80 kg; everything else as registered. *)
Definition biometrics : ProfileUpdate.t :=
  {| ProfileUpdate.name := None; ProfileUpdate.age := Some 30;
     ProfileUpdate.gender := Some "female"%string;
     ProfileUpdate.height_cm := Some (Float.of_Z 180);
     ProfileUpdate.current_weight := Some (Float.of_Z 80);
     ProfileUpdate.goal_weight := None; ProfileUpdate.activity_level := None;
     ProfileUpdate.weight_loss_rate := None; ProfileUpdate.units := None;
     ProfileUpdate.calorie_target := None; ProfileUpdate.protein_target := None;
     ProfileUpdate.carbs_target := None; ProfileUpdate.fat_target := None;
     ProfileUpdate.water_goal := None;
     ProfileUpdate.onboarding_completed := None |}.

(** The same biometrics with age 0. *)
Definition newborn : ProfileUpdate.t :=
  {| ProfileUpdate.name := None; ProfileUpdate.age := Some 0;
     ProfileUpdate.gender := Some "female"%string;
     ProfileUpdate.height_cm := Some (Float.of_Z 180);
     ProfileUpdate.current_weight := Some (Float.of_Z 80);
     ProfileUpdate.goal_weight := None; ProfileUpdate.activity_level := None;
     ProfileUpdate.weight_loss_rate := None; ProfileUpdate.units := None;
     ProfileUpdate.calorie_target := None; ProfileUpdate.protein_target := None;
     ProfileUpdate.carbs_target := None; ProfileUpdate.fat_target := None;
     ProfileUpdate.water_goal := None;
     ProfileUpdate.onboarding_completed := None |}.

(** Only a calorie target of 1500, no biometrics. *)
Definition manual_target : ProfileUpdate.t :=
  {| ProfileUpdate.name := None; ProfileUpdate.age := None;
     ProfileUpdate.gender := None; ProfileUpdate.height_cm := None;
     ProfileUpdate.current_weight := None;
     ProfileUpdate.goal_weight := None; ProfileUpdate.activity_level := None;
     ProfileUpdate.weight_loss_rate := None; ProfileUpdate.units := None;
     ProfileUpdate.calorie_target := Some 1500;
     ProfileUpdate.protein_target := None;
     ProfileUpdate.carbs_target := None; ProfileUpdate.fat_target := None;
     ProfileUpdate.water_goal := None;
     ProfileUpdate.onboarding_completed := None |}.

(** The stored document after [biometrics] is applied to [user]. *)
Definition updated : gmap string value :=
  from_Ok ∅ (update_profile biometrics user).

(** 4 November 2026, a Wednesday. Every request of a sample trace reads
    the same clock and the same uuid stream; ids and timestamps play no part
    in the properties below. *)
Definition clock : env :=
  {| today := 739924;
     now_iso := fun _ => "2026-11-04T08:00:00+00:00"%string;
     uuid4 := fun n => ("uuid-" +:+ Date.digit (Z.of_nat n))%string |}.

(** add(-500) then add(300) on an empty day. *)
Definition ledger_minus : list water_log :=
  water_run clock None user [WAdd (-500); WAdd 300] [].

(** add(500) then add(300) on an empty day, then one and two undos. *)
Definition ledger_800 : list water_log :=
  water_run clock None user [WAdd 500; WAdd 300] [].
Definition ledger_500 : list water_log :=
  water_run clock None user [WAdd 500; WAdd 300; WUndo] [].
Definition ledger_0 : list water_log :=
  water_run clock None user [WAdd 500; WAdd 300; WUndo; WUndo] [].

(** What the views of a response show: total and number of entries. *)
Definition view_summary (r : result (list water_log * water_view))
    : result (Z * nat) :=
  (fun dv => (wv_total_ml dv.2, length (wv_entries dv.2))) <$> r.
Definition log_summary (w : option water_log) : option (Z * nat) :=
  (fun w => (wl_total_ml w, length (wl_entries w))) <$> w.

(** A food log of [user] with the given calories, meal type, day and
    timestamp. *)
Definition food (calories : Z) (meal_type date logged_at : string) : food_log :=
  {| fl_id := "food-" +:+ logged_at; fl_user_id := user_id;
     fl_food_name := "Oatmeal with Milk";
     fl_calories := Float.of_Z calories; fl_protein := Float.of_Z 9;
     fl_carbs := Float.of_Z 38; fl_fat := Float.of_Z 4;
     fl_fiber := Float.of_Z 4; fl_serving := "1 cup cooked";
     fl_quantity := Float.of_Z 1; fl_meal_type := meal_type;
     fl_logged_at := logged_at; fl_date := date;
     fl_created_at := logged_at |}.

(** Entries today (4 Nov) and yesterday, none on 2 Nov, one on 1 Nov. *)
Definition two_day_log : list food_log :=
  [ food 300 "lunch" "2026-11-04" "2026-11-04T12:00:00+00:00";
    food 250 "brunch" "2026-11-03" "2026-11-03T11:00:00+00:00";
    food 400 "dinner" "2026-11-01" "2026-11-01T19:00:00+00:00" ].

(** 101 one-calorie entries on 4 November. *)
Definition busy_day : list food_log :=
  repeat (food 1 "snack" "2026-11-04" "2026-11-04T12:00:00+00:00") 101.

End Sample.
(** A value that is a numeric zero: [0], [0.0], [-0.0] or [False]. *)
Definition numeric_zero (v : value) : bool :=
  match v with
  | VInt n => n =? 0
  | VFloat f => Float.is_zero f
  | VBool b => negb b
  | _ => false
  end.

(** A target field after an update that supplies it or not. *)
Definition supplied_or_kept (supplied : option Z) (kept : option value)
    : option value :=
  match supplied with
  | Some n => Some (VInt n)
  | None => kept
  end.

(** The macro split in exact integer arithmetic: 30% / 4, 40% / 4 and
    30% / 9 of a calorie target, truncated. *)
Definition exact_protein (c : Z) : Z := 3 * c / 40.
Definition exact_carbs (c : Z) : Z := c / 10.
Definition exact_fat (c : Z) : Z := c / 30.

(** The caloric value of a macro split. *)
Definition macro_calories (protein carbs fat : Z) : Z :=
  4 * protein + 4 * carbs + 9 * fat.

(** The float computation of the three macro targets agrees with the exact
    one at [c]. *)
Definition macro_split_exact (c : Z) : bool :=
  match macro_target c (Float.lit 30 100) 4,
        macro_target c (Float.lit 40 100) 4,
        macro_target c (Float.lit 30 100) 9 with
  | Ok p, Ok cb, Ok f =>
      (p =? exact_protein c) && (cb =? exact_carbs c) && (f =? exact_fat c)
  | _, _, _ => false
  end.

(** The same check over the [n] targets from [lo] upward. *)
Definition macro_split_exact_from (lo : Z) (n : nat) : bool :=
  forallb (fun i => macro_split_exact (lo + Z.of_nat i)) (seq 0 n).

(** The user has at least one food log entry on the calendar day [day]. *)
Definition has_entry (db : list food_log) (user_id : value) (day : Z) : Prop :=
  exists f, In f db /\ fl_user_id f = user_id /\
            fl_date f = Date.strftime_ymd day.

(** The four meal types of the dashboard. *)
Definition meal_types : list string := ["breakfast"; "lunch"; "dinner"; "snack"].

(** Ascending order of [logged_at]. *)
Definition logged_at_le (a b : food_log) : Prop := logged_at_asc a b = true.

(** The exact rational value of a finite number. *)
Definition num_Q (x : num) : option Q :=
  match num_xval x with
  | XFin m e => Some (inject_Z m * 2 ^ e)%Q
  | _ => None
  end.

(** [0 < day_cals <= t], the two comparisons of [on_track]. *)
Definition in_target_interval (day_cals : num) (t : Z) : bool :=
  num_gt day_cals (NInt 0) && num_le day_cals (NInt t).

(** The calorie sum the weekly loop computes for the day [d]. *)
Definition day_calories (foods : list food_log) (user_id : value) (d : Z)
    : result num :=
  py_sum ((fun f => NFloat (fl_calories f))
            <$> food_find foods user_id (Date.strftime_ymd d)).

(** The running total of the weekly loop, from [t0] on. *)
Definition sum_from (t0 : num) (xs : list num) : result num :=
  foldl (fun acc x => a ← acc; num_add a x) (Ok t0) xs.

(** The running total of the weekly loop is the int 0 or a float. *)
Definition zero_or_float (x : num) : Prop :=
  x = NInt 0 \/ exists f, x = NFloat f.

(** ** Food log and weight log handlers *)

(** The request model of [POST /food-logs], after the defaults of the model
    have been filled in. *)
Module FoodLogCreate.
Record t := {
  food_name : string;
  calories : spec_float;
  protein : spec_float;
  carbs : spec_float;
  fat : spec_float;
  fiber : spec_float;
  serving : string;
  quantity : spec_float;
  meal_type : string;
  logged_at : option string
}.
End FoodLogCreate.

(** The request model of [POST /weight-logs]. *)
Module WeightLogCreate.
Record t := {
  weight : spec_float;
  note : option string;
  logged_at : option string
}.
End WeightLogCreate.

(** [s or dflt] for an optional string. *)
Definition str_or (s : option string) (dflt : string) : string :=
  match s with
  | Some x => if String.eqb x "" then dflt else x
  | None => dflt
  end.

(** [round(a * b, 1)] on two floats. *)
Definition scaled (a b : spec_float) : spec_float :=
  Float.round1 (Float.mul a b).

(** [POST /food-logs]: the store after [insert_one] and the returned
    document. *)
Definition create_food_log (E : env) (entry : FoodLogCreate.t)
    (user : gmap string value) (db : list food_log)
    : result (list food_log * food_log) :=
  let log_id := uuid4 E 0 in
  let logged_at := str_or (FoodLogCreate.logged_at entry) (now_iso E 0) in
  user_id ← dict_item user "id";
  let quantity := FoodLogCreate.quantity entry in
  let log_doc :=
    {| fl_id := log_id; fl_user_id := user_id;
       fl_food_name := FoodLogCreate.food_name entry;
       fl_calories := scaled (FoodLogCreate.calories entry) quantity;
       fl_protein := scaled (FoodLogCreate.protein entry) quantity;
       fl_carbs := scaled (FoodLogCreate.carbs entry) quantity;
       fl_fat := scaled (FoodLogCreate.fat entry) quantity;
       fl_fiber := scaled (FoodLogCreate.fiber entry) quantity;
       fl_serving := FoodLogCreate.serving entry;
       fl_quantity := quantity;
       fl_meal_type := FoodLogCreate.meal_type entry;
       fl_logged_at := logged_at;
       fl_date := String.substring 0 10 logged_at;
       fl_created_at := now_iso E 1 |} in
  Ok (db ++ [log_doc], log_doc).

(** [GET /food-logs] *)
Definition get_food_logs (E : env) (date : option string)
    (user : gmap string value) (db : list food_log) : result (list food_log) :=
  let date := date_or_today E date in
  user_id ← dict_item user "id";
  Ok (food_find_sorted db user_id date).

(** [collection.delete_one(filter)]: the first matching document is removed;
    the result carries [deleted_count]. *)
Fixpoint delete_one {A} (matches : A -> bool) (db : list A) : list A * Z :=
  match db with
  | [] => ([], 0)
  | x :: rest =>
      if matches x then (rest, 1)
      else let '(rest', n) := delete_one matches rest in (x :: rest', n)
  end.

Definition food_owned_by (log_id : string) (user_id : value) (f : food_log)
    : bool :=
  String.eqb (fl_id f) log_id && bool_decide (fl_user_id f = user_id).

(** [DELETE /food-logs/{log_id}] *)
Definition delete_food_log (log_id : string) (user : gmap string value)
    (db : list food_log) : result (list food_log) :=
  user_id ← dict_item user "id";
  let '(db', deleted_count) := delete_one (food_owned_by log_id user_id) db in
  if deleted_count =? 0 then Err (HTTPException 404 "Food log not found")
  else Ok db'.

(** One document of the [recent-foods] pipeline after [$group] and
    [$project]. *)
Record recent_food := {
  rf_food_name : string;
  rf_calories : spec_float;
  rf_protein : spec_float;
  rf_carbs : spec_float;
  rf_fat : spec_float;
  rf_serving : string;
  rf_quantity : spec_float;
  rf_last_logged : string
}.

Definition created_at_desc (a b : food_log) : bool :=
  String.leb (fl_created_at b) (fl_created_at a).

Definition last_logged_desc (a b : recent_food) : bool :=
  String.leb (rf_last_logged b) (rf_last_logged a).

(** [$group] by [food_name] with [$first] accumulators: of the documents in
    pipeline order, the first of every name. [seen] holds the names already
    grouped. *)
Fixpoint group_first (seen : list string) (docs : list food_log)
    : list food_log :=
  match docs with
  | [] => []
  | f :: rest =>
      if existsb (String.eqb (fl_food_name f)) seen then group_first seen rest
      else f :: group_first (fl_food_name f :: seen) rest
  end.

Definition recent_of (f : food_log) : recent_food :=
  {| rf_food_name := fl_food_name f; rf_calories := fl_calories f;
     rf_protein := fl_protein f; rf_carbs := fl_carbs f; rf_fat := fl_fat f;
     rf_serving := fl_serving f; rf_quantity := fl_quantity f;
     rf_last_logged := fl_logged_at f |}.

(** [GET /food-logs/recent-foods]: [$match], [$sort created_at desc],
    [$group], [$sort last_logged desc], [$limit 20]. *)
Definition get_recent_foods (user : gmap string value) (db : list food_log)
    : result (list recent_food) :=
  user_id ← dict_item user "id";
  let matched := List.filter (fun f => bool_decide (fl_user_id f = user_id)) db in
  let sorted := sort_by created_at_desc matched in
  let grouped := recent_of <$> group_first [] sorted in
  Ok (take 20 (sort_by last_logged_desc grouped)).

(** [POST /weight-logs]: the weight store after [insert_one], the stored user
    document after [$set current_weight], and the returned document. *)
Definition create_weight_log (E : env) (entry : WeightLogCreate.t)
    (user : gmap string value) (db : list weight_log)
    : result (list weight_log * gmap string value * weight_log) :=
  let log_id := uuid4 E 0 in
  let logged_at := str_or (WeightLogCreate.logged_at entry) (now_iso E 0) in
  user_id ← dict_item user "id";
  let log_doc :=
    {| wg_id := log_id; wg_user_id := user_id;
       wg_weight := WeightLogCreate.weight entry;
       wg_note := str_or (WeightLogCreate.note entry) "";
       wg_logged_at := logged_at;
       wg_date := String.substring 0 10 logged_at;
       wg_created_at := now_iso E 1 |} in
  Ok (db ++ [log_doc],
      <["current_weight" := VFloat (WeightLogCreate.weight entry)]> user,
      log_doc).

Definition weight_owned_by (log_id : string) (user_id : value) (w : weight_log)
    : bool :=
  String.eqb (wg_id w) log_id && bool_decide (wg_user_id w = user_id).

(** [DELETE /weight-logs/{log_id}] *)
Definition delete_weight_log (log_id : string) (user : gmap string value)
    (db : list weight_log) : result (list weight_log) :=
  user_id ← dict_item user "id";
  let '(db', deleted_count) := delete_one (weight_owned_by log_id user_id) db in
  if deleted_count =? 0 then Err (HTTPException 404 "Weight log not found")
  else Ok db'.

(** ** Keys of the profile document *)

(** The keys [update_profile] derives, and the keys it reads to derive them. *)
Definition derived_keys : list string :=
  ["calorie_target"; "protein_target"; "carbs_target"; "fat_target";
   "bmr"; "tdee"].

Definition target_keys : list string :=
  ["calorie_target"; "protein_target"; "carbs_target"; "fat_target"].

Definition input_keys : list string :=
  ["age"; "gender"; "height_cm"; "current_weight"; "activity_level";
   "weight_loss_rate"].

(** The field names of the request model. *)
Definition profile_fields : list string :=
  ["name"; "age"; "gender"; "height_cm"; "current_weight"; "goal_weight";
   "activity_level"; "weight_loss_rate"; "units"; "calorie_target";
   "protein_target"; "carbs_target"; "fat_target"; "water_goal";
   "onboarding_completed"].

(** The same request with its four target fields left out. *)
Definition without_targets (u : ProfileUpdate.t) : ProfileUpdate.t :=
  {| ProfileUpdate.name := ProfileUpdate.name u;
     ProfileUpdate.age := ProfileUpdate.age u;
     ProfileUpdate.gender := ProfileUpdate.gender u;
     ProfileUpdate.height_cm := ProfileUpdate.height_cm u;
     ProfileUpdate.current_weight := ProfileUpdate.current_weight u;
     ProfileUpdate.goal_weight := ProfileUpdate.goal_weight u;
     ProfileUpdate.activity_level := ProfileUpdate.activity_level u;
     ProfileUpdate.weight_loss_rate := ProfileUpdate.weight_loss_rate u;
     ProfileUpdate.units := ProfileUpdate.units u;
     ProfileUpdate.calorie_target := None;
     ProfileUpdate.protein_target := None;
     ProfileUpdate.carbs_target := None;
     ProfileUpdate.fat_target := None;
     ProfileUpdate.water_goal := ProfileUpdate.water_goal u;
     ProfileUpdate.onboarding_completed :=
       ProfileUpdate.onboarding_completed u |}.

(** The same request with [current_weight] set to [w]. *)
Definition with_weight (w : spec_float) (u : ProfileUpdate.t) : ProfileUpdate.t :=
  {| ProfileUpdate.name := ProfileUpdate.name u;
     ProfileUpdate.age := ProfileUpdate.age u;
     ProfileUpdate.gender := ProfileUpdate.gender u;
     ProfileUpdate.height_cm := ProfileUpdate.height_cm u;
     ProfileUpdate.current_weight := Some w;
     ProfileUpdate.goal_weight := ProfileUpdate.goal_weight u;
     ProfileUpdate.activity_level := ProfileUpdate.activity_level u;
     ProfileUpdate.weight_loss_rate := ProfileUpdate.weight_loss_rate u;
     ProfileUpdate.units := ProfileUpdate.units u;
     ProfileUpdate.calorie_target := ProfileUpdate.calorie_target u;
     ProfileUpdate.protein_target := ProfileUpdate.protein_target u;
     ProfileUpdate.carbs_target := ProfileUpdate.carbs_target u;
     ProfileUpdate.fat_target := ProfileUpdate.fat_target u;
     ProfileUpdate.water_goal := ProfileUpdate.water_goal u;
     ProfileUpdate.onboarding_completed :=
       ProfileUpdate.onboarding_completed u |}.

(** ** Weekly statistics, day by day *)

(** The water total of a (user, day), 0 without a record. *)
Definition water_total_on (waters : list water_log) (user_id : value)
    (day : string) : Z :=
  match water_find_one waters user_id day with
  | Some w => wl_total_ml w
  | None => 0
  end.

(** [st] is the entry of [daily_stats] for the day [d]. *)
Definition day_stat_of (foods : list food_log) (waters : list water_log)
    (user_id : value) (d : Z) (st : daily_stat) : Prop :=
  ds_date st = Date.strftime_ymd d /\
  ds_day st = Date.strftime_a d /\
  ds_water_ml st = water_total_on waters user_id (Date.strftime_ymd d) /\
  exists c, day_calories foods user_id d = Ok c /\ ds_calories st = num_round1 c.

(** The weight logs of a user, and the order of their timestamps. *)
Definition weights_of (db : list weight_log) (user_id : value)
    : list weight_log :=
  List.filter (fun w => bool_decide (wg_user_id w = user_id)) db.

Definition logged_before (a b : weight_log) : Prop :=
  String.leb (wg_logged_at a) (wg_logged_at b) = true.

(** ** Recent foods *)

(** [f] is a log of the user that no other log of the user with the same
    food name was created after. *)
Definition newest_of_name (db : list food_log) (user_id : value)
    (f : food_log) : Prop :=
  In f db /\ fl_user_id f = user_id /\
  forall g, In g db -> fl_user_id g = user_id ->
            fl_food_name g = fl_food_name f ->
            String.leb (fl_created_at g) (fl_created_at f) = true.

(** ** Accounts *)

(** What the account handlers call outside this file: [str.lower],
    [hash_password] with the salt drawn for the call, [verify_password] on
    whatever is stored under "password", and [create_token] at a given time. *)
Record auth_lib := {
  str_lower : string -> string;
  hash_password : string -> string;
  verify_password : string -> value -> result bool;
  create_token : string -> value -> string
}.

Module RegisterRequest.
Record t := {
  name : string;
  email : string;
  password : string
}.
End RegisterRequest.

Module LoginRequest.
Record t := {
  email : string;
  password : string
}.
End LoginRequest.

Record auth_response := {
  resp_token : string;
  resp_user : gmap string value
}.

(** [db.users.find_one({"email": email})] *)
Definition users_find_by_email (db : list (gmap string value)) (email : string)
    : option (gmap string value) :=
  List.find (fun u => bool_decide (u !! "email" = Some (VStr email))) db.

(** [{k: v for k, v in user.items() if k not in ("password", "_id")}]; the
    documents of the model carry no "_id". *)
Definition user_safe (user : gmap string value) : gmap string value :=
  delete "password" user.

(** [POST /auth/register]: the users after [insert_one] and the response. *)
Definition register (L : auth_lib) (E : env) (req : RegisterRequest.t)
    (db : list (gmap string value))
    : result (list (gmap string value) * auth_response) :=
  match users_find_by_email db (str_lower L (RegisterRequest.email req)) with
  | Some existing => Err (HTTPException 400 "Email already registered")
  | None =>
      let user_id := uuid4 E 0 in
      let user_doc :=
        register_user_doc user_id (RegisterRequest.name req)
          (str_lower L (RegisterRequest.email req))
          (hash_password L (RegisterRequest.password req))
          (now_iso E 0) in
      let token := create_token L (now_iso E 1) (VStr user_id) in
      Ok (db ++ [user_doc],
          {| resp_token := token; resp_user := user_safe user_doc |})
  end.

(** [POST /auth/login] *)
Definition login (L : auth_lib) (E : env) (req : LoginRequest.t)
    (db : list (gmap string value)) : result auth_response :=
  match users_find_by_email db (str_lower L (LoginRequest.email req)) with
  | None => Err (HTTPException 401 "Invalid email or password")
  | Some user =>
      hashed ← dict_item user "password";
      ok ← verify_password L (LoginRequest.password req) hashed;
      if (ok : bool) then
        user_id ← dict_item user "id";
        let token := create_token L (now_iso E 0) user_id in
        Ok {| resp_token := token; resp_user := user_safe user |}
      else Err (HTTPException 401 "Invalid email or password")
  end.

(** The value every document of the users collection has under "email";
    the collection has a unique index on it. *)
Definition emails (db : list (gmap string value)) : list (option value) :=
  (fun u => u !! "email") <$> db.

(** ** Sample requests *)

Module Scenario.

(** Two servings of oatmeal for breakfast, time stamped by the server. *)
Definition oatmeal : FoodLogCreate.t :=
  {| FoodLogCreate.food_name := "Oatmeal with Milk";
     FoodLogCreate.calories := Float.of_Z 150;
     FoodLogCreate.protein := Float.of_Z 9;
     FoodLogCreate.carbs := Float.of_Z 38;
     FoodLogCreate.fat := Float.of_Z 4;
     FoodLogCreate.fiber := Float.of_Z 4;
     FoodLogCreate.serving := "1 cup cooked";
     FoodLogCreate.quantity := Float.of_Z 2;
     FoodLogCreate.meal_type := "breakfast";
     FoodLogCreate.logged_at := None |}.

(** A weigh-in of 78 kg, time stamped by the server. *)
Definition weigh_in : WeightLogCreate.t :=
  {| WeightLogCreate.weight := Float.of_Z 78;
     WeightLogCreate.note := None;
     WeightLogCreate.logged_at := None |}.

(** The document [create_food_log] stores for [oatmeal] at [Sample.clock]. *)
Definition oatmeal_doc : food_log :=
  {| fl_id := "uuid-0"; fl_user_id := Sample.user_id;
     fl_food_name := "Oatmeal with Milk";
     fl_calories := Float.of_Z 300; fl_protein := Float.of_Z 18;
     fl_carbs := Float.of_Z 76; fl_fat := Float.of_Z 8;
     fl_fiber := Float.of_Z 8; fl_serving := "1 cup cooked";
     fl_quantity := Float.of_Z 2; fl_meal_type := "breakfast";
     fl_logged_at := "2026-11-04T08:00:00+00:00"; fl_date := "2026-11-04";
     fl_created_at := "2026-11-04T08:00:00+00:00" |}.

(** A weight log of [Sample.user]. *)
Definition weight (kg : Z) (logged_at : string) : weight_log :=
  {| wg_id := "weight-" +:+ logged_at; wg_user_id := Sample.user_id;
     wg_weight := Float.of_Z kg; wg_note := "";
     wg_logged_at := logged_at; wg_date := String.substring 0 10 logged_at;
     wg_created_at := logged_at |}.

(** Three weigh-ins, stored out of order: 82 kg, then 81 kg, then 80 kg. *)
Definition weigh_ins : list weight_log :=
  [ weight 81 "2026-11-02T07:00:00+00:00";
    weight 80 "2026-11-04T07:00:00+00:00";
    weight 82 "2026-10-20T07:00:00+00:00" ].

(** The weekly statistics of [Sample.user] with these weigh-ins and no food
    or water logged. *)
Definition weekly : weekly_stats :=
  from_Ok {| daily_stats := []; avg_daily_calories := Float.of_Z 0;
             days_on_track := 0; weight_change := NInt 0;
             total_calories := NInt 0 |}
    (get_weekly_stats Sample.clock Sample.user [] [] weigh_ins).

(** Stand-ins for the libraries: lower-casing that leaves a lower-case
    address alone, a hash that tags the password, and its check. *)
Definition lib : auth_lib :=
  {| str_lower := fun s => s;
     hash_password := fun p => "hash:" +:+ p;
     verify_password := fun p h => Ok (bool_decide (h = VStr ("hash:" +:+ p)));
     create_token := fun now uid => "token@" +:+ now |}.

Definition ann : RegisterRequest.t :=
  {| RegisterRequest.name := "Ann"; RegisterRequest.email := "ann@example.org";
     RegisterRequest.password := "s3cret" |}.

Definition ann_login : LoginRequest.t :=
  {| LoginRequest.email := "ann@example.org";
     LoginRequest.password := "s3cret" |}.

(** The document and the answer of registering [ann] at [Sample.clock]. *)
Definition ann_doc : gmap string value :=
  register_user_doc "uuid-0" "Ann" "ann@example.org" "hash:s3cret"
                    "2026-11-04T08:00:00+00:00".

Definition ann_resp : auth_response :=
  {| resp_token := "token@2026-11-04T08:00:00+00:00";
     resp_user := user_safe ann_doc |}.

(** The id of yesterday's entry of [Sample.two_day_log]. *)
Definition yesterday_id : string := "food-2026-11-03T11:00:00+00:00".

End Scenario.
(** ** CORS origins *)

(** A [str] here is a sequence of code points below 256. [str.strip()]
    removes the code points Python counts as whitespace: 9 to 13, 28 to 32,
    133 and 160. *)
Definition is_space (c : ascii) : bool :=
  let n := N_of_ascii c in
  ((9 <=? n) && (n <=? 13) || (28 <=? n) && (n <=? 32)
   || (n =? 133) || (n =? 160))%N.

(** Membership in the argument of [strip(chars)]. *)
Definition one_of (chars : list ascii) (c : ascii) : bool :=
  existsb (Ascii.eqb c) chars.

Fixpoint lstrip_by (p : ascii -> bool) (s : string) : string :=
  match s with
  | EmptyString => EmptyString
  | String c rest => if p c then lstrip_by p rest else s
  end.

Fixpoint rstrip_by (p : ascii -> bool) (s : string) : string :=
  match s with
  | EmptyString => EmptyString
  | String c rest =>
      match rstrip_by p rest with
      | EmptyString => if p c then EmptyString else String c EmptyString
      | r => String c r
      end
  end.

Definition strip_by (p : ascii -> bool) (s : string) : string :=
  rstrip_by p (lstrip_by p s).

(** [s.split(sep)] for a one-character separator. *)
Fixpoint split_on (sep : ascii) (s : string) : list string :=
  match s with
  | EmptyString => [EmptyString]
  | String c rest =>
      if Ascii.eqb c sep then EmptyString :: split_on sep rest
      else match split_on sep rest with
           | [] => [String c EmptyString]
           | piece :: pieces => String c piece :: pieces
           end
  end.

Definition double_quote : ascii := ascii_of_nat 34.
Definition single_quote : ascii := ascii_of_nat 39.

Definition clean_origin (origin : string) : string :=
  rstrip_by (one_of ["/"%char])
    (strip_by (one_of [single_quote])
       (strip_by (one_of [double_quote]) (strip_by is_space origin))).

Definition parse_cors_origins (raw_origins : string) : list string :=
  let cleaned := strip_by is_space raw_origins in
  if String.eqb cleaned "" || String.eqb cleaned "*" then ["*"%string]
  else
    let cleaned := strip_by (one_of ["["%char; "]"%char]) cleaned in
    let origins :=
      clean_origin <$>
      List.filter (fun origin => negb (String.eqb (strip_by is_space origin) ""))
                  (split_on ","%char cleaned) in
    match origins with
    | [] => ["*"%string]
    | _ => origins
    end.

(** The last code point of a string. *)
Fixpoint str_last (s : string) : option ascii :=
  match s with
  | EmptyString => None
  | String c EmptyString => Some c
  | String _ rest => str_last rest
  end.

Definition str_head (s : string) : option ascii :=
  match s with
  | EmptyString => None
  | String c _ => Some c
  end.

Fixpoint str_mem (c : ascii) (s : string) : bool :=
  match s with
  | EmptyString => false
  | String c' rest => Ascii.eqb c' c || str_mem c rest
  end.

(** What the parser strips at the ends of an origin. *)
Definition edge_char (c : ascii) : bool :=
  is_space c || one_of [double_quote; single_quote; "["%char; "]"%char] c.

(** An origin the parser leaves as it is: not empty, no comma, no
    whitespace, quote or bracket at either end, no slash at the end. *)
Definition plain_origin (origin : string) : bool :=
  match str_head origin, str_last origin with
  | Some h, Some l =>
      negb (edge_char h) && negb (edge_char l) && negb (Ascii.eqb l "/")
      && negb (str_mem "," origin)
  | _, _ => false
  end.

(** * Properties *)

(** ** The result monad and the numbers *)

Lemma bind_Ok {A B} (m : result A) (f : A -> result B) (b : B) :
  m ≫= f = Ok b -> exists a, m = Ok a /\ f a = Ok b.
Proof. destruct m as [a|e]; [eauto | discriminate]. Qed.

Lemma is_Ok_from_Ok {A} (dflt : A) (r : result A) :
  is_Ok r = true -> r = Ok (from_Ok dflt r).
Proof. destruct r; [reflexivity | discriminate]. Qed.

Lemma of_int_small (n : Z) :
  In n [4; 5; 7; 9; 10; 161; 500] -> Float.of_int n = Ok (Float.of_Z n).
Proof.
  simpl. intros H.
  repeat (destruct H as [<- | H]; [vm_compute; reflexivity |]).
  destruct H.
Qed.

#[global] Opaque Float.of_Z Float.add Float.sub Float.mul Float.div Float.lit.

Lemma py_mul_int_float (n : Z) (f fn : spec_float) :
  Float.of_int n = Ok fn ->
  py_mul (VInt n) (VFloat f) = Ok (VFloat (Float.mul fn f)).
Proof. intros H. unfold py_mul, py_binop. simpl. rewrite H. reflexivity. Qed.

Lemma py_mul_float_int (n : Z) (f fn : spec_float) :
  Float.of_int n = Ok fn ->
  py_mul (VFloat f) (VInt n) = Ok (VFloat (Float.mul f fn)).
Proof. intros H. unfold py_mul, py_binop. simpl. rewrite H. reflexivity. Qed.

Lemma calculate_bmr_typed (g : string) (w h : spec_float) (a : Z) :
  calculate_bmr (VStr g) (VFloat w) (VFloat h) (VInt a)
  = (fun f => VFloat f) <$> Spec.bmr g w h a.
Proof.
  unfold calculate_bmr, Spec.bmr.
  assert (H10 := of_int_small 10 ltac:(simpl; tauto)).
  assert (H5 := of_int_small 5 ltac:(simpl; tauto)).
  assert (H161 := of_int_small 161 ltac:(simpl; tauto)).
  destruct (String.eqb_spec g "male") as [-> | Hne].
  - rewrite decide_True by reflexivity.
    rewrite (py_mul_int_float _ _ _ H10).
    unfold py_mul, py_add, py_sub, py_binop. simpl.
    destruct (Float.of_int (5 * a)) as [fa|e]; simpl; [| reflexivity].
    rewrite H5. reflexivity.
  - rewrite decide_False by congruence.
    rewrite (py_mul_int_float _ _ _ H10).
    unfold py_mul, py_add, py_sub, py_binop. simpl.
    destruct (Float.of_int (5 * a)) as [fa|e]; simpl; [| reflexivity].
    rewrite H161. reflexivity.
Qed.

(** ** Target calculator *)

Lemma activity_multiplier_table (v : value) :
  activity_multiplier v = Spec.multiplier v.
Proof.
  unfold Spec.multiplier.
  repeat case_decide; subst; try reflexivity.
  destruct v as [| b | x | s]; try reflexivity.
  unfold activity_multiplier, activity_multipliers. simpl.
  rewrite !lookup_insert_ne by congruence.
  rewrite lookup_empty. reflexivity.
Qed.

Lemma lookup_targets_inserted (ud user : gmap string value) (t b f c p k : Z) :
  let d := <["tdee" := VInt t]> (<["bmr" := VInt b]> (<["fat_target" := VInt f]>
           (<["carbs_target" := VInt c]> (<["protein_target" := VInt p]>
           (<["calorie_target" := VInt k]> ud))))) ∪ user in
  d !! "calorie_target" = Some (VInt k) /\
  d !! "protein_target" = Some (VInt p) /\
  d !! "carbs_target" = Some (VInt c) /\
  d !! "fat_target" = Some (VInt f).
Proof.
  intros d. unfold d.
  repeat split; apply lookup_union_Some_l;
    repeat (rewrite lookup_insert_ne by discriminate);
    apply lookup_insert_eq.
Qed.

(** What [recompute_targets] does on typed biometrics, step by step. *)
Lemma recompute_targets_typed (merged ud : gmap string value)
    (g : string) (w h r : spec_float) (a : Z) (ud' : gmap string value) :
  merged !! "gender" = Some (VStr g) ->
  merged !! "current_weight" = Some (VFloat w) ->
  merged !! "height_cm" = Some (VFloat h) ->
  merged !! "age" = Some (VInt a) ->
  dict_get merged "weight_loss_rate" (VFloat (Float.lit 10 10)) = VFloat r ->
  recompute_targets merged ud = Ok ud' ->
  exists b n p c f bi ti,
    Spec.bmr g w h a = Ok b /\
    Float.to_int
      (Float.sub
         (Float.mul b (activity_multiplier
                         (dict_get merged "activity_level" (VStr "moderate"))))
         (Float.mul r (Float.of_Z 500))) = Ok n /\
    macro_target (Z.max 1200 n) (Float.lit 30 100) 4 = Ok p /\
    macro_target (Z.max 1200 n) (Float.lit 40 100) 4 = Ok c /\
    macro_target (Z.max 1200 n) (Float.lit 30 100) 9 = Ok f /\
    ud' = <["tdee" := VInt ti]> (<["bmr" := VInt bi]> (<["fat_target" := VInt f]>
          (<["carbs_target" := VInt c]> (<["protein_target" := VInt p]>
          (<["calorie_target" := VInt (Z.max 1200 n)]> ud))))).
Proof.
  intros Hg Hw Hh Ha Hr H. unfold recompute_targets, dict_item in H.
  rewrite Hg, Hw, Hh, Ha, Hr in H. simpl in H.
  rewrite calculate_bmr_typed in H.
  destruct (Spec.bmr g w h a) as [b|e] eqn:Hb; simpl in H; [| discriminate].
  rewrite (py_mul_float_int 500 r _ (of_int_small 500 ltac:(simpl; tauto))) in H.
  unfold py_mul, py_sub, py_binop in H. simpl in H.
  apply bind_Ok in H as (n & Hn & H).
  apply bind_Ok in H as (p & Hp & H).
  apply bind_Ok in H as (c & Hc & H).
  apply bind_Ok in H as (f & Hf & H).
  apply bind_Ok in H as (bi & Hbi & H).
  apply bind_Ok in H as (ti & Hti & H).
  injection H as <-.
  exists b, n, p, c, f, bi, ti. repeat split; assumption.
Qed.

(** C1, as the code has it: whenever age, gender, height and current weight
    are all known, the stored calorie_target is
    max(1200, trunc(TDEE - weight_loss_rate * 500)), with the conversion to
    an integer truncating toward zero, TDEE = BMR * multiplier from the
    fixed table (1.55 for an unknown or missing activity level) and BMR the
    Mifflin-St Jeor value; it is never below 1200. *)
Theorem calorie_target_truncated (update : ProfileUpdate.t)
    (user d : gmap string value) (g : string) (w h r : spec_float) (a : Z) :
  let merged := update_data_of update ∪ user in
  merged !! "gender" = Some (VStr g) ->
  merged !! "current_weight" = Some (VFloat w) ->
  merged !! "height_cm" = Some (VFloat h) ->
  merged !! "age" = Some (VInt a) ->
  dict_get merged "weight_loss_rate" (VFloat (Float.lit 10 10)) = VFloat r ->
  enough_data merged = true ->
  update_profile update user = Ok d ->
  exists c,
    d !! "calorie_target" = Some (VInt c) /\
    Spec.calorie_target Float.to_int g w h a
      (dict_get merged "activity_level" (VStr "moderate")) r = Ok c /\
    1200 <= c.
Proof.
  intros merged Hg Hw Hh Ha Hr Hgate H.
  unfold update_profile in H. fold merged in H. rewrite Hgate in H.
  apply bind_Ok in H as (ud' & Hrec & H). injection H as <-.
  destruct (recompute_targets_typed _ _ _ _ _ _ _ _ Hg Hw Hh Ha Hr Hrec)
    as (b & n & p & c & f & bi & ti & Hb & Hn & _ & _ & _ & ->).
  exists (Z.max 1200 n). split; [apply lookup_targets_inserted |].
  split; [| lia].
  unfold Spec.calorie_target. rewrite Hb. simpl.
  rewrite <- activity_multiplier_table, Hn. reflexivity.
Qed.


Lemma calorie_target_truncated_witness :
  exists c,
    Sample.updated !! "calorie_target" = Some (VInt c) /\
    Spec.calorie_target Float.to_int "female" (Float.of_Z 80) (Float.of_Z 180) 30
      (dict_get (update_data_of Sample.biometrics ∪ Sample.user)
                "activity_level" (VStr "moderate"))
      (Float.lit 10 10) = Ok c /\
    1200 <= c.
Proof.
  apply (calorie_target_truncated Sample.biometrics Sample.user Sample.updated
           "female" (Float.of_Z 80) (Float.of_Z 180) (Float.lit 10 10) 30).
  1-6: vm_compute; reflexivity.
  apply is_Ok_from_Ok. vm_compute. reflexivity.
Defined.

(** C1 as stated fails: for a 30-year-old woman of 180 cm and 80 kg at the
    default activity level and rate, TDEE - deficit is 2001.7; the stored
    target is 2001, not the rounded 2002. *)
Lemma calorie_target_not_rounded :
  ~ (forall d c,
       update_profile Sample.biometrics Sample.user = Ok d ->
       Spec.calorie_target Spec.round "female" (Float.of_Z 80) (Float.of_Z 180) 30
         (VStr "moderate") (Float.lit 10 10) = Ok c ->
       d !! "calorie_target" = Some (VInt c)).
Proof.
  intros H.
  assert (Hd : update_profile Sample.biometrics Sample.user = Ok Sample.updated)
    by (apply is_Ok_from_Ok; vm_compute; reflexivity).
  assert (Hc : Spec.calorie_target Spec.round "female" (Float.of_Z 80)
                 (Float.of_Z 180) 30 (VStr "moderate") (Float.lit 10 10) = Ok 2002)
    by (vm_compute; reflexivity).
  specialize (H _ _ Hd Hc). clear Hd Hc. vm_compute in H. discriminate H.
Qed.

(** *** The gate on recomputation *)

Lemma lookup_filter_not_None (l : list (string * value)) (k : string) :
  NoDup l.*1 ->
  (list_to_map (filter (fun kv => kv.2 ≠ VNone) l) : gmap string value) !! k
  = match (list_to_map l : gmap string value) !! k with
    | Some v => if decide (v = VNone) then None else Some v
    | None => None
    end.
Proof.
  induction l as [| [k' v] l IH]; intros Hnd.
  - simpl. rewrite lookup_empty. reflexivity.
  - simpl in Hnd. apply NoDup_cons in Hnd as [Hk' Hnd].
    rewrite filter_cons. simpl.
    destruct (decide (v ≠ VNone)) as [Hv | Hv].
    + simpl. rewrite !lookup_insert.
      destruct (decide (k' = k)) as [-> | Hne]; [| apply IH, Hnd].
      rewrite decide_False by assumption. reflexivity.
    + rewrite lookup_insert.
      destruct (decide (k' = k)) as [-> | Hne]; [| apply IH, Hnd].
      rewrite decide_True by (destruct (decide (v = VNone)); [assumption | contradiction]).
      rewrite IH by assumption.
      rewrite (not_elem_of_list_to_map_1 (M := gmap string)) by assumption.
      reflexivity.
Qed.

Lemma model_dump_keys_NoDup (update : ProfileUpdate.t) :
  NoDup (ProfileUpdate.model_dump update).*1.
Proof.
  simpl. apply (bool_decide_unpack _ (dec := NoDup_dec _)).
  vm_compute. exact I.
Qed.

Lemma update_data_target (update : ProfileUpdate.t) :
  update_data_of update !! "calorie_target"
    = (fun n => VInt n) <$> ProfileUpdate.calorie_target update /\
  update_data_of update !! "protein_target"
    = (fun n => VInt n) <$> ProfileUpdate.protein_target update /\
  update_data_of update !! "carbs_target"
    = (fun n => VInt n) <$> ProfileUpdate.carbs_target update /\
  update_data_of update !! "fat_target"
    = (fun n => VInt n) <$> ProfileUpdate.fat_target update /\
  update_data_of update !! "bmr" = None /\
  update_data_of update !! "tdee" = None.
Proof.
  unfold update_data_of.
  repeat split; rewrite lookup_filter_not_None by apply model_dump_keys_NoDup;
    unfold ProfileUpdate.model_dump; simpl list_to_map;
    repeat (rewrite lookup_insert_ne by discriminate);
    rewrite ?lookup_insert_eq, ?lookup_empty; try reflexivity.
  all: match goal with
       | |- context [ProfileUpdate.field _ ?o] => destruct o; reflexivity
       end.
Qed.

Lemma skipped_update (update : ProfileUpdate.t) (user : gmap string value) :
  enough_data (update_data_of update ∪ user) = false ->
  update_profile update user = Ok (update_data_of update ∪ user).
Proof. intros H. unfold update_profile. rewrite H. reflexivity. Qed.

Lemma enough_data_false (merged : gmap string value) (f : string) :
  In f required_fields ->
  truthy (dict_get merged f VNone) = false ->
  enough_data merged = false.
Proof.
  intros Hin Hf. unfold enough_data.
  apply not_true_is_false. intros Hall.
  rewrite forallb_forall in Hall. specialize (Hall f Hin). congruence.
Qed.

Lemma lookup_supplied_or_kept (ud user : gmap string value) (k : string)
    (o : option Z) :
  ud !! k = (fun n => VInt n) <$> o ->
  (ud ∪ user) !! k = supplied_or_kept o (user !! k).
Proof.
  intros H. rewrite lookup_union, H.
  destruct o; simpl; destruct (user !! k); reflexivity.
Qed.

(** C9, as the code has it: when age, gender, height or current weight is
    still missing after the merge, nothing is derived. The update writes
    exactly the fields it supplies; each of the calorie, protein, carbs and
    fat targets keeps its stored value unless the update itself supplies
    that target, and bmr and tdee are untouched. *)
Theorem targets_retained_unless_supplied (update : ProfileUpdate.t)
    (user : gmap string value) (f : string) :
  let merged := update_data_of update ∪ user in
  In f required_fields ->
  dict_get merged f VNone = VNone ->
  exists d,
    update_profile update user = Ok d /\
    d = update_data_of update ∪ user /\
    d !! "calorie_target"
      = supplied_or_kept (ProfileUpdate.calorie_target update)
                         (user !! "calorie_target") /\
    d !! "protein_target"
      = supplied_or_kept (ProfileUpdate.protein_target update)
                         (user !! "protein_target") /\
    d !! "carbs_target"
      = supplied_or_kept (ProfileUpdate.carbs_target update)
                         (user !! "carbs_target") /\
    d !! "fat_target"
      = supplied_or_kept (ProfileUpdate.fat_target update)
                         (user !! "fat_target") /\
    d !! "bmr" = user !! "bmr" /\
    d !! "tdee" = user !! "tdee".
Proof.
  intros merged Hin Hf.
  exists (update_data_of update ∪ user).
  destruct (update_data_target update) as (Hc & Hp & Hcb & Hfat & Hb & Ht).
  split.
  { apply skipped_update, (enough_data_false _ f Hin).
    fold merged. rewrite Hf. reflexivity. }
  split; [reflexivity |].
  repeat split; try (apply lookup_supplied_or_kept; assumption).
  - rewrite lookup_union, Hb. destruct (user !! "bmr"); reflexivity.
  - rewrite lookup_union, Ht. destruct (user !! "tdee"); reflexivity.
Qed.

Lemma targets_retained_unless_supplied_witness :
  exists d,
    update_profile Sample.manual_target Sample.user = Ok d /\
    d = update_data_of Sample.manual_target ∪ Sample.user /\
    d !! "calorie_target"
      = supplied_or_kept (Some 1500) (Sample.user !! "calorie_target") /\
    d !! "protein_target"
      = supplied_or_kept None (Sample.user !! "protein_target") /\
    d !! "carbs_target"
      = supplied_or_kept None (Sample.user !! "carbs_target") /\
    d !! "fat_target"
      = supplied_or_kept None (Sample.user !! "fat_target") /\
    d !! "bmr" = Sample.user !! "bmr" /\
    d !! "tdee" = Sample.user !! "tdee".
Proof.
  apply (targets_retained_unless_supplied Sample.manual_target Sample.user "age").
  - simpl. tauto.
  - vm_compute. reflexivity.
Defined.

(** C9 as stated fails: a freshly registered user has no age, and an update
    that carries only calorie_target = 1500 replaces the stored 2000. *)
Lemma supplied_target_overwrites :
  ~ (dict_get (update_data_of Sample.manual_target ∪ Sample.user) "age" VNone
       = VNone ->
     forall d,
       update_profile Sample.manual_target Sample.user = Ok d ->
       d !! "calorie_target" = Sample.user !! "calorie_target").
Proof.
  intros H.
  assert (Hage : dict_get (update_data_of Sample.manual_target ∪ Sample.user)
                   "age" VNone = VNone) by (vm_compute; reflexivity).
  assert (Hd : update_profile Sample.manual_target Sample.user
               = Ok (from_Ok ∅ (update_profile Sample.manual_target Sample.user)))
    by (apply is_Ok_from_Ok; vm_compute; reflexivity).
  specialize (H Hage _ Hd). clear Hage Hd.
  vm_compute in H. discriminate H.
Qed.

Lemma numeric_zero_falsy (v : value) : numeric_zero v = true -> truthy v = false.
Proof.
  destruct v as [| b | [n | f] | s]; simpl; try discriminate.
  - destruct b; [discriminate | reflexivity].
  - intros ->. reflexivity.
  - intros ->. reflexivity.
Qed.

(** C10: when age, gender, height_cm and current_weight are all present and
    not None after the merge but one of them is a numeric zero, the gate is
    closed exactly as it is when that field is removed: recomputation is
    skipped and the update writes only the fields it supplies. The gate is
    the truth value of the merged fields, not their presence. *)
Theorem zero_biometric_skips_recomputation (update : ProfileUpdate.t)
    (user : gmap string value) (f : string) (v : value) :
  let merged := update_data_of update ∪ user in
  (forall k, In k required_fields ->
             exists x, merged !! k = Some x /\ x <> VNone) ->
  In f required_fields ->
  merged !! f = Some v ->
  numeric_zero v = true ->
  enough_data merged = false /\
  enough_data (delete f merged) = false /\
  enough_data merged
    = forallb (fun k => truthy (dict_get merged k VNone)) required_fields /\
  update_profile update user = Ok (update_data_of update ∪ user).
Proof.
  intros merged _ Hin Hf Hz.
  assert (Hgate : enough_data merged = false).
  { apply (enough_data_false _ f Hin). unfold dict_get. rewrite Hf.
    apply numeric_zero_falsy, Hz. }
  split; [exact Hgate |]. split.
  { apply (enough_data_false _ f Hin). unfold dict_get.
    rewrite lookup_delete_eq. reflexivity. }
  split; [reflexivity |].
  apply skipped_update, Hgate.
Qed.

Lemma zero_biometric_skips_recomputation_witness :
  enough_data (update_data_of Sample.newborn ∪ Sample.user) = false /\
  enough_data (delete "age" (update_data_of Sample.newborn ∪ Sample.user))
    = false /\
  enough_data (update_data_of Sample.newborn ∪ Sample.user)
    = forallb (fun k => truthy (dict_get
                 (update_data_of Sample.newborn ∪ Sample.user) k VNone))
              required_fields /\
  update_profile Sample.newborn Sample.user
    = Ok (update_data_of Sample.newborn ∪ Sample.user).
Proof.
  apply (zero_biometric_skips_recomputation Sample.newborn Sample.user
           "age" (VInt 0)).
  - intros k Hk. simpl in Hk.
    destruct Hk as [<- | [<- | [<- | [<- | []]]]];
      eexists; (split; [vm_compute; reflexivity | discriminate]).
  - simpl. tauto.
  - vm_compute. reflexivity.
  - reflexivity.
Defined.

(** *** Macro targets *)

Lemma recompute_targets_shape (merged ud ud' : gmap string value) :
  recompute_targets merged ud = Ok ud' ->
  exists n p c f bi ti,
    macro_target (Z.max 1200 n) (Float.lit 30 100) 4 = Ok p /\
    macro_target (Z.max 1200 n) (Float.lit 40 100) 4 = Ok c /\
    macro_target (Z.max 1200 n) (Float.lit 30 100) 9 = Ok f /\
    ud' = <["tdee" := VInt ti]> (<["bmr" := VInt bi]> (<["fat_target" := VInt f]>
          (<["carbs_target" := VInt c]> (<["protein_target" := VInt p]>
          (<["calorie_target" := VInt (Z.max 1200 n)]> ud))))).
Proof.
  intros H. unfold recompute_targets in H.
  apply bind_Ok in H as (gender & _ & H).
  apply bind_Ok in H as (weight & _ & H).
  apply bind_Ok in H as (height & _ & H).
  apply bind_Ok in H as (age & _ & H).
  apply bind_Ok in H as (bmr & _ & H).
  apply bind_Ok in H as (tdee & _ & H).
  apply bind_Ok in H as (deficit & _ & H).
  apply bind_Ok in H as (diff & _ & H).
  apply bind_Ok in H as (n & _ & H).
  apply bind_Ok in H as (p & Hp & H).
  apply bind_Ok in H as (c & Hc & H).
  apply bind_Ok in H as (f & Hf & H).
  apply bind_Ok in H as (bi & _ & H).
  apply bind_Ok in H as (ti & _ & H).
  injection H as <-.
  exists n, p, c, f, bi, ti. repeat split; assumption.
Qed.

(** In exact arithmetic the split never exceeds the target and loses at
    most 16 kcal to the three truncations. *)
Lemma exact_split_drift (c : Z) :
  0 <= c ->
  0 <= c - macro_calories (exact_protein c) (exact_carbs c) (exact_fat c) <= 16.
Proof.
  intros Hc. unfold macro_calories, exact_protein, exact_carbs, exact_fat.
  Z.div_mod_to_equations. lia.
Qed.

Lemma macro_split_exact_range :
  macro_split_exact_from 1200 4801 = true.
Proof. vm_compute. reflexivity. Qed.

Lemma macro_split_exact_in_range (c : Z) :
  1200 <= c <= 6000 -> macro_split_exact c = true.
Proof.
  intros Hc. pose proof macro_split_exact_range as H.
  unfold macro_split_exact_from in H. rewrite forallb_forall in H.
  specialize (H (Z.to_nat (c - 1200))).
  replace (1200 + Z.of_nat (Z.to_nat (c - 1200))) with c in H by lia.
  apply H. apply in_seq. lia.
Qed.




(** ** Water ledger *)

Lemma water_matches_set (uid : value) (day : string) (w : water_log)
    (t : Z) (es : list water_entry) :
  water_matches uid day (water_set w t es) = water_matches uid day w.
Proof. reflexivity. Qed.

Lemma water_find_update (db : list water_log) (uid : value) (day : string)
    (w : water_log) (t : Z) (es : list water_entry) :
  water_find_one db uid day = Some w ->
  water_find_one (water_update_one db uid day t es) uid day
  = Some (water_set w t es).
Proof.
  unfold water_find_one. induction db as [| w0 rest IH]; simpl; [discriminate |].
  destruct (water_matches uid day w0) eqn:Hm; intros H.
  - injection H as ->. simpl. rewrite water_matches_set, Hm. reflexivity.
  - simpl. rewrite Hm. apply IH, H.
Qed.

Lemma water_find_app_new (db : list water_log) (uid : value) (day : string)
    (w : water_log) :
  water_find_one db uid day = None ->
  water_matches uid day w = true ->
  water_find_one (db ++ [w]) uid day = Some w.
Proof.
  unfold water_find_one. induction db as [| w0 rest IH]; simpl; intros H Hw.
  - rewrite Hw. reflexivity.
  - destruct (water_matches uid day w0); [discriminate | apply IH; assumption].
Qed.

Lemma water_update_Forall (P : water_log -> Prop) (db : list water_log)
    (uid : value) (day : string) (t : Z) (es : list water_entry) :
  Forall P db ->
  (forall w, water_find_one db uid day = Some w -> P (water_set w t es)) ->
  Forall P (water_update_one db uid day t es).
Proof.
  unfold water_find_one. induction db as [| w0 rest IH]; simpl; intros Hall Hw.
  - constructor.
  - apply Forall_cons in Hall as [H0 Hrest].
    destruct (water_matches uid day w0) eqn:Hm.
    + constructor; [apply Hw; reflexivity | assumption].
    + constructor; [assumption | apply IH; assumption].
Qed.

Lemma foldr_add_app (l1 l2 : list Z) :
  foldr Z.add 0 (l1 ++ l2) = foldr Z.add 0 l1 + foldr Z.add 0 l2.
Proof. induction l1 as [| x l1 IH]; simpl; lia. Qed.

Lemma entries_sum_app (es : list water_entry) (e : water_entry) :
  entries_sum (es ++ [e]) = entries_sum es + we_amount_ml e.
Proof.
  unfold entries_sum. rewrite fmap_app, foldr_add_app. simpl. lia.
Qed.

Lemma py_last_init {A} (l : list A) (x : A) :
  py_last l = Some x -> l = py_init l ++ [x].
Proof.
  unfold py_last, py_init. intros H.
  destruct l as [| y l] using rev_ind; [discriminate |].
  rewrite last_snoc in H. injection H as ->.
  rewrite removelast_last. reflexivity.
Qed.

Lemma water_matches_new (E : env) (uid : value) (day : string) (t : Z)
    (es : list water_entry) (i c : string) :
  water_matches uid day
    {| wl_id := i; wl_user_id := uid; wl_date := day; wl_total_ml := t;
       wl_entries := es; wl_created_at := c |} = true.
Proof.
  unfold water_matches. simpl.
  rewrite bool_decide_eq_true_2 by reflexivity.
  rewrite String.eqb_refl. reflexivity.
Qed.




Lemma remove_last_absent (E : env) (date : option string)
    (user : gmap string value) (uid : value) (db : list water_log) :
  user !! "id" = Some uid ->
  water_find_one db uid (date_or_today E date) = None ->
  remove_last_water_entry E date user db
  = Err (HTTPException 404 "No water entry found to remove").
Proof.
  intros Hid Hfind. unfold remove_last_water_entry, dict_item.
  rewrite Hid. simpl. rewrite Hfind. reflexivity.
Qed.

Lemma remove_last_empty (E : env) (date : option string)
    (user : gmap string value) (uid : value) (db : list water_log)
    (w : water_log) :
  user !! "id" = Some uid ->
  water_find_one db uid (date_or_today E date) = Some w ->
  wl_entries w = [] ->
  remove_last_water_entry E date user db
  = Err (HTTPException 404 "No water entry found to remove").
Proof.
  intros Hid Hfind Hes. unfold remove_last_water_entry, dict_item.
  rewrite Hid. simpl. rewrite Hfind, Hes. reflexivity.
Qed.

Lemma remove_last_present (E : env) (date : option string)
    (user : gmap string value) (uid : value) (db : list water_log)
    (w : water_log) (init : list water_entry) (removed : water_entry) :
  user !! "id" = Some uid ->
  water_find_one db uid (date_or_today E date) = Some w ->
  wl_entries w = init ++ [removed] ->
  let new_total := Z.max 0 (wl_total_ml w - we_amount_ml removed) in
  remove_last_water_entry E date user db
  = Ok (water_update_one db uid (date_or_today E date) new_total init,
        {| wv_date := date_or_today E date; wv_total_ml := new_total;
           wv_goal_ml := dict_get user "water_goal" (VInt 2000);
           wv_removed_entry := Some removed; wv_entries := init |}).
Proof.
  intros Hid Hfind Hes new_total. unfold remove_last_water_entry, dict_item.
  rewrite Hid. simpl. rewrite Hfind, Hes.
  unfold py_last, py_init. rewrite last_snoc, removelast_last. reflexivity.
Qed.

(** C4: undo-last fails with 404 (NotFound) exactly when the day's record is
    absent or its entries list is empty. Otherwise it removes the last
    element of the entries list, whatever the timestamps say, and the new
    total is the old one minus that entry's amount, floored at zero. After
    add(500) and add(300) on an empty day the total is 800 with 2 entries;
    undo-last then gives 500 with 1 entry; undo-last on an absent day and
    on a day emptied by undos fails with 404. *)
Theorem undo_last_water (E : env) (date : option string)
    (user : gmap string value) (uid : value) (db : list water_log) :
  user !! "id" = Some uid ->
  let day := date_or_today E date in
  ((exists detail,
      remove_last_water_entry E date user db = Err (HTTPException 404 detail))
   <-> (water_find_one db uid day = None \/
        exists w, water_find_one db uid day = Some w /\ wl_entries w = [])) /\
  (forall w init removed,
     water_find_one db uid day = Some w ->
     wl_entries w = init ++ [removed] ->
     exists db' v w',
       remove_last_water_entry E date user db = Ok (db', v) /\
       wv_removed_entry v = Some removed /\
       wv_entries v = init /\
       wv_total_ml v = Z.max 0 (wl_total_ml w - we_amount_ml removed) /\
       water_find_one db' uid day = Some w' /\
       wl_entries w' = init /\
       wl_total_ml w' = Z.max 0 (wl_total_ml w - we_amount_ml removed)) /\
  (Sample.log_summary (water_find_one Sample.ledger_800 Sample.user_id "2026-11-04")
     = Some (800, 2%nat) /\
   Sample.view_summary
     (remove_last_water_entry Sample.clock None Sample.user Sample.ledger_800)
     = Ok (500, 1%nat) /\
   Sample.log_summary (water_find_one Sample.ledger_500 Sample.user_id "2026-11-04")
     = Some (500, 1%nat) /\
   Sample.log_summary (water_find_one Sample.ledger_0 Sample.user_id "2026-11-04")
     = Some (0, 0%nat) /\
   remove_last_water_entry Sample.clock None Sample.user Sample.ledger_0
     = Err (HTTPException 404 "No water entry found to remove") /\
   remove_last_water_entry Sample.clock None Sample.user []
     = Err (HTTPException 404 "No water entry found to remove")).
Proof.
  intros Hid day. split; [| split].
  - split.
    + intros [detail Herr].
      destruct (water_find_one db uid day) as [w |] eqn:Hfind; [| left; reflexivity].
      right. exists w. split; [reflexivity |].
      destruct (wl_entries w) as [| e es] eqn:Hes using rev_ind; [reflexivity |].
      rewrite (remove_last_present E date user uid db w es e Hid Hfind Hes) in Herr.
      discriminate Herr.
    + intros [Hnone | (w & Hfind & Hes)]; eexists.
      * apply (remove_last_absent E date user uid db Hid Hnone).
      * apply (remove_last_empty E date user uid db w Hid Hfind Hes).
  - intros w init removed Hfind Hes.
    eexists _, _, _.
    split; [apply (remove_last_present E date user uid db w init removed Hid Hfind Hes) |].
    simpl. repeat split; try reflexivity.
    apply water_find_update, Hfind.
    all: reflexivity.
  - repeat split; vm_compute; reflexivity.
Qed.

Lemma undo_last_water_witness :
  Sample.log_summary (water_find_one Sample.ledger_800 Sample.user_id "2026-11-04")
    = Some (800, 2%nat) /\
  Sample.view_summary
    (remove_last_water_entry Sample.clock None Sample.user Sample.ledger_800)
    = Ok (500, 1%nat).
Proof.
  destruct (undo_last_water Sample.clock None Sample.user Sample.user_id
              Sample.ledger_800 ltac:(vm_compute; reflexivity))
    as (_ & _ & (H800 & H500 & _)).
  split; assumption.
Defined.

Lemma water_find_In (db : list water_log) (uid : value) (day : string)
    (w : water_log) :
  water_find_one db uid day = Some w -> In w db.
Proof. intros H. apply find_some in H. tauto. Qed.

Lemma entries_sum_nonneg (es : list water_entry) :
  Forall (fun e => 0 <= we_amount_ml e) es -> 0 <= entries_sum es.
Proof.
  induction 1 as [| e es He _ IH]; [unfold entries_sum; simpl; lia |].
  change (entries_sum (e :: es)) with (we_amount_ml e + entries_sum es). lia.
Qed.

(** One add keeps [total = sum of entries] on every document. *)
Lemma add_water_total_ok (E : env) (entry : WaterLogAdd.t)
    (user : gmap string value) (db db' : list water_log) (v : water_view) :
  water_inv db ->
  add_water E entry user db = Ok (db', v) ->
  water_inv db' /\ wv_total_ml v = entries_sum (wv_entries v).
Proof.
  intros Hinv H. unfold add_water in H.
  apply bind_Ok in H as (uid & _ & H).
  destruct (water_find_one db uid _) as [w |] eqn:Hfind;
    injection H as <- <-; simpl.
  - assert (Hw : water_total_ok w).
    { unfold water_inv in Hinv. rewrite Forall_forall in Hinv.
      apply Hinv, list_elem_of_In, (water_find_In _ _ _ _ Hfind). }
    unfold water_total_ok in Hw. split.
    + apply water_update_Forall; [exact Hinv |].
      intros w0 Hw0. rewrite Hfind in Hw0. injection Hw0 as <-.
      unfold water_total_ok. simpl. rewrite entries_sum_app. simpl. lia.
    + rewrite entries_sum_app. simpl. lia.
  - split.
    + apply Forall_app. split; [exact Hinv |].
      constructor; [| constructor].
      unfold water_total_ok, entries_sum. simpl. lia.
    + unfold entries_sum. simpl. lia.
Qed.

(** One undo keeps it when what remains sums to a non-negative amount. *)
Lemma remove_last_total_ok (E : env) (date : option string)
    (user : gmap string value) (uid : value) (db db' : list water_log)
    (w : water_log) (v : water_view) (removed : water_entry) :
  water_inv db ->
  user !! "id" = Some uid ->
  water_find_one db uid (date_or_today E date) = Some w ->
  remove_last_water_entry E date user db = Ok (db', v) ->
  wv_removed_entry v = Some removed ->
  0 <= entries_sum (wv_entries v) ->
  water_inv db' /\
  wv_total_ml v = entries_sum (wv_entries v) /\
  wv_total_ml v = wl_total_ml w - we_amount_ml removed /\
  0 <= wv_total_ml v.
Proof.
  intros Hinv Hid Hfind H Hrem Hsum.
  assert (Hw : water_total_ok w).
  { unfold water_inv in Hinv. rewrite Forall_forall in Hinv.
    apply Hinv, list_elem_of_In, (water_find_In _ _ _ _ Hfind). }
  unfold water_total_ok in Hw.
  destruct (wl_entries w) as [| e es _] eqn:Hes using rev_ind.
  { rewrite (remove_last_empty E date user uid db w Hid Hfind Hes) in H.
    discriminate H. }
  rewrite (remove_last_present E date user uid db w es e Hid Hfind Hes) in H.
  injection H as <- <-. simpl in *. injection Hrem as ->.
  rewrite entries_sum_app in Hw.
  assert (Ht : Z.max 0 (wl_total_ml w - we_amount_ml removed) = entries_sum es)
    by lia.
  split; [| lia].
  apply water_update_Forall; [exact Hinv |].
  intros w0 Hw0. rewrite Hfind in Hw0. injection Hw0 as <-.
  unfold water_total_ok. simpl. exact Ht.
Qed.

(** With non-negative amounts only, every step keeps the stronger invariant. *)
Lemma water_step_nonneg (E : env) (date : option string)
    (user : gmap string value) (db : list water_log) (op : water_op) :
  Forall water_nonneg_ok db ->
  water_op_nonneg op ->
  Forall water_nonneg_ok (water_step E date user db op).
Proof.
  intros Hinv Hop. destruct op as [amount |]; simpl in *.
  - destruct (add_water _ _ _ _) as [[db' v] | e] eqn:H; [| exact Hinv].
    unfold add_water in H. apply bind_Ok in H as (uid & _ & H). simpl in H.
    destruct (water_find_one db uid _) as [w |] eqn:Hfind;
      injection H as <- _.
    + assert (Hw : water_nonneg_ok w).
      { rewrite Forall_forall in Hinv.
        apply Hinv, list_elem_of_In, (water_find_In _ _ _ _ Hfind). }
      destruct Hw as [Hw Hpos]. unfold water_total_ok in Hw.
      apply water_update_Forall; [exact Hinv |].
      intros w0 Hw0. rewrite Hfind in Hw0. injection Hw0 as <-.
      split.
      * unfold water_total_ok. simpl. rewrite entries_sum_app. simpl. lia.
      * simpl. apply Forall_app. split; [exact Hpos |].
        constructor; [simpl; lia | constructor].
    + apply Forall_app. split; [exact Hinv |].
      constructor; [| constructor]. split.
      * unfold water_total_ok, entries_sum. simpl. lia.
      * simpl. constructor; [simpl; lia | constructor].
  - destruct (remove_last_water_entry _ _ _ _) as [[db' v] | e] eqn:H;
      [| exact Hinv].
    unfold remove_last_water_entry in H.
    apply bind_Ok in H as (uid & _ & H).
    destruct (water_find_one db uid _) as [w |] eqn:Hfind; [| discriminate H].
    destruct (py_last (wl_entries w)) as [removed |] eqn:Hlast;
      [| discriminate H].
    injection H as <- _.
    assert (Hw : water_nonneg_ok w).
    { rewrite Forall_forall in Hinv.
      apply Hinv, list_elem_of_In, (water_find_In _ _ _ _ Hfind). }
    destruct Hw as [Hw Hpos]. unfold water_total_ok in Hw.
    apply py_last_init in Hlast.
    rewrite Hlast in Hw, Hpos. rewrite entries_sum_app in Hw.
    apply Forall_app in Hpos as [Hinit _].
    pose proof (entries_sum_nonneg _ Hinit) as Hge.
    apply water_update_Forall; [exact Hinv |].
    intros w0 Hw0. rewrite Hfind in Hw0. injection Hw0 as <-.
    split; [| exact Hinit].
    unfold water_total_ok. simpl. lia.
Qed.

Lemma water_run_nonneg (E : env) (date : option string)
    (user : gmap string value) (ops : list water_op) (db : list water_log) :
  Forall water_nonneg_ok db ->
  Forall water_op_nonneg ops ->
  Forall water_nonneg_ok (water_run E date user ops db).
Proof.
  unfold water_run. revert db.
  induction ops as [| op ops IH]; intros db Hinv Hops; simpl; [exact Hinv |].
  apply Forall_cons in Hops as [Hop Hops].
  apply IH; [apply water_step_nonneg; assumption | exact Hops].
Qed.

(** C2, as the code has it: [total_ml = sum of the entries' amount_ml] is
    kept by every add (create: total = amount with one entry; append: total
    plus amount with the entry appended), and by an undo-last whenever the
    entries that remain sum to a non-negative amount; the total then drops
    by exactly the removed entry's amount and is not negative. Every ledger
    built from an empty store by undos and adds of non-negative amounts
    satisfies the invariant. *)
Theorem water_total_invariant (E : env) (date : option string)
    (user : gmap string value) (db : list water_log) :
  water_inv db ->
  (forall entry db' v,
     add_water E entry user db = Ok (db', v) ->
     water_inv db' /\ wv_total_ml v = entries_sum (wv_entries v)) /\
  (forall uid w db' v removed,
     user !! "id" = Some uid ->
     water_find_one db uid (date_or_today E date) = Some w ->
     remove_last_water_entry E date user db = Ok (db', v) ->
     wv_removed_entry v = Some removed ->
     0 <= entries_sum (wv_entries v) ->
     water_inv db' /\
     wv_total_ml v = entries_sum (wv_entries v) /\
     wv_total_ml v = wl_total_ml w - we_amount_ml removed /\
     0 <= wv_total_ml v) /\
  (forall ops,
     Forall water_op_nonneg ops ->
     water_inv (water_run E date user ops [])).
Proof.
  intros Hinv. split; [| split].
  - intros entry db' v. apply add_water_total_ok, Hinv.
  - intros uid w db' v removed. apply remove_last_total_ok, Hinv.
  - intros ops Hops.
    pose proof (water_run_nonneg E date user ops [] (Forall_nil_2 _) Hops) as H.
    unfold water_inv. eapply Forall_impl; [exact H |].
    intros w [Hw _]. exact Hw.
Qed.

Lemma water_total_invariant_witness :
  water_inv (water_run Sample.clock None Sample.user
               [WAdd 500; WAdd 300; WUndo] []).
Proof.
  destruct (water_total_invariant Sample.clock None Sample.user []
              (Forall_nil_2 _)) as (_ & _ & Hrun).
  apply Hrun. repeat constructor; simpl; lia.
Defined.

(** C2 as stated fails: the add operation takes negative amounts, and after
    add(-500) and add(300) (total -200, the sum of the entries) undo-last
    stores total 0 with the single entry -500. *)
Lemma undo_breaks_total_after_negative_add :
  ~ (water_inv Sample.ledger_minus ->
     forall db' v,
       remove_last_water_entry Sample.clock None Sample.user Sample.ledger_minus
         = Ok (db', v) ->
       water_inv db').
Proof.
  intros H.
  assert (Hinv : water_inv Sample.ledger_minus).
  { vm_compute. repeat constructor. }
  specialize (H Hinv). clear Hinv.
  destruct (remove_last_water_entry Sample.clock None Sample.user
              Sample.ledger_minus) as [[db' v] | e] eqn:Hrm.
  - specialize (H db' v eq_refl). vm_compute in Hrm. injection Hrm as <- _.
    apply Forall_cons in H as [H _]. vm_compute in H. discriminate H.
  - vm_compute in Hrm. discriminate Hrm.
Qed.

(** ** Streak *)

Lemma food_matches_spec (uid : value) (day : string) (f : food_log) :
  food_matches uid day f = true <-> fl_user_id f = uid /\ fl_date f = day.
Proof.
  unfold food_matches. rewrite andb_true_iff, bool_decide_eq_true, String.eqb_eq.
  reflexivity.
Qed.

Lemma count_positive_has_entry (db : list food_log) (uid : value) (day : Z) :
  (0 <? food_count_documents db uid (Date.strftime_ymd day)) = true
  <-> has_entry db uid day.
Proof.
  unfold food_count_documents, has_entry. rewrite Z.ltb_lt. split.
  - intros Hpos.
    destruct (List.filter _ db) as [| f rest] eqn:Hf; [simpl in Hpos; lia |].
    assert (Hin : In f (List.filter (food_matches uid (Date.strftime_ymd day)) db))
      by (rewrite Hf; left; reflexivity).
    apply filter_In in Hin as [Hin Hm]. apply food_matches_spec in Hm.
    exists f. tauto.
  - intros (f & Hin & Hu & Hd).
    assert (Hf : In f (List.filter (food_matches uid (Date.strftime_ymd day)) db)).
    { apply filter_In. split; [exact Hin |]. apply food_matches_spec. tauto. }
    destruct (List.filter _ db); [destruct Hf | simpl; lia].
Qed.

Lemma streak_loop_spec (db : list food_log) (uid : value) (n : nat) :
  forall (d s0 : Z),
  exists k,
    streak_loop db uid n d s0 = s0 + k /\
    0 <= k <= Z.of_nat n /\
    (forall i, 0 <= i < k -> has_entry db uid (d - i)) /\
    (k < Z.of_nat n -> ~ has_entry db uid (d - k)).
Proof.
  induction n as [| n IH]; intros d s0.
  - exists 0. simpl. repeat split; lia.
  - simpl streak_loop.
    destruct (0 <? food_count_documents db uid (Date.strftime_ymd d)) eqn:Hc.
    + apply count_positive_has_entry in Hc.
      destruct (IH (d - 1) (s0 + 1)) as (k & Hk & Hrange & Hall & Hstop).
      exists (k + 1). rewrite Hk. split; [lia |]. split; [lia |]. split.
      * intros i Hi. destruct (Z.eq_dec i 0) as [-> | Hne].
        -- rewrite Z.sub_0_r. exact Hc.
        -- replace (d - i) with (d - 1 - (i - 1)) by lia. apply Hall. lia.
      * intros Hlt. replace (d - (k + 1)) with (d - 1 - k) by lia.
        apply Hstop. lia.
    + exists 0. split; [lia |]. split; [lia |]. split; [intros i Hi; lia |].
      intros _ Hhas. rewrite Z.sub_0_r in Hhas.
      apply count_positive_has_entry in Hhas. congruence.
Qed.


(** ** Dashboard *)

Lemma insert_by_perm {A} (le : A -> A -> bool) (x : A) (l : list A) :
  Permutation (insert_by le x l) (x :: l).
Proof.
  induction l as [| y l IH]; simpl; [reflexivity |].
  destruct (le x y); [reflexivity |].
  rewrite IH. apply perm_swap.
Qed.

Lemma sort_by_perm {A} (le : A -> A -> bool) (l : list A) :
  Permutation (sort_by le l) l.
Proof.
  unfold sort_by. induction l as [| x l IH]; simpl; [reflexivity |].
  rewrite insert_by_perm, IH. reflexivity.
Qed.

Lemma insert_by_HdRel {A} (le : A -> A -> bool) (a x : A) (l : list A) :
  le a x = true ->
  HdRel (fun u v => le u v = true) a l ->
  HdRel (fun u v => le u v = true) a (insert_by le x l).
Proof.
  intros Hax Hal. destruct l as [| y l]; simpl; [constructor; exact Hax |].
  destruct (le x y); constructor; [exact Hax |].
  inversion Hal; assumption.
Qed.

Lemma insert_by_sorted {A} (le : A -> A -> bool) (x : A) (l : list A) :
  (forall u v, le u v = true \/ le v u = true) ->
  Sorted (fun u v => le u v = true) l ->
  Sorted (fun u v => le u v = true) (insert_by le x l).
Proof.
  intros Htotal. induction 1 as [| y l Hs IH Hhd]; simpl.
  - repeat constructor.
  - destruct (le x y) eqn:Hxy.
    + constructor; [constructor; assumption | constructor; exact Hxy].
    + constructor; [exact IH |].
      apply insert_by_HdRel; [| exact Hhd].
      destruct (Htotal x y) as [H | H]; [congruence | exact H].
Qed.

Lemma sort_by_sorted {A} (le : A -> A -> bool) (l : list A) :
  (forall u v, le u v = true \/ le v u = true) ->
  Sorted (fun u v => le u v = true) (sort_by le l).
Proof.
  intros Htotal. unfold sort_by.
  induction l as [| x l IH]; simpl; [constructor |].
  apply insert_by_sorted; assumption.
Qed.

Lemma take_sorted {A} (R : A -> A -> Prop) (n : nat) (l : list A) :
  Sorted R l -> Sorted R (take n l).
Proof.
  intros Hs. revert n.
  induction Hs as [| x l Hs IH Hhd]; intros [| n]; simpl; try constructor.
  - apply IH.
  - destruct Hhd; destruct n; simpl; constructor; assumption.
Qed.

Lemma logged_at_asc_total (a b : food_log) :
  logged_at_asc a b = true \/ logged_at_asc b a = true.
Proof. apply String.leb_total. Qed.

(** [sum] over floats never raises and gives the int 0 or a float. *)
Lemma py_sum_from_float (fs : list spec_float) (f0 : spec_float) :
  exists f, foldl (fun acc x => a ← acc; num_add a x) (Ok (NFloat f0))
              ((fun f => NFloat f) <$> fs) = Ok (NFloat f).
Proof.
  revert f0. induction fs as [| f fs IH]; intros f0; simpl; [eauto |].
  apply IH.
Qed.

Lemma py_sum_floats (fs : list spec_float) :
  exists x, py_sum ((fun f => NFloat f) <$> fs) = Ok x /\
            (x = NInt 0 \/ exists f, x = NFloat f).
Proof.
  unfold py_sum. destruct fs as [| f fs]; simpl; [eauto |].
  assert (H0 : Float.of_int 0 = Ok (Float.of_Z 0)) by (vm_compute; reflexivity).
  rewrite H0. simpl.
  destruct (py_sum_from_float fs (Float.add (Float.of_Z 0) f)) as [g Hg].
  exists (NFloat g). split; [exact Hg | eauto].
Qed.

Lemma py_sum_field (field : food_log -> spec_float) (logs : list food_log) :
  exists x, py_sum ((fun f => NFloat (field f)) <$> logs) = Ok x.
Proof.
  destruct (py_sum_floats (field <$> logs)) as (x & Hx & _).
  exists x. rewrite <- Hx. f_equal. rewrite <- list_fmap_compose. reflexivity.
Qed.

Lemma meal_bucket_In (logs : list food_log) (meal_type : string) (f : food_log) :
  In f (meal_bucket logs meal_type) <-> In f logs /\ fl_meal_type f = meal_type.
Proof. unfold meal_bucket. rewrite filter_In, String.eqb_eq. reflexivity. Qed.

Lemma food_find_sorted_spec (foods : list food_log) (uid : value) (day : string) :
  let day_entries := List.filter (food_matches uid day) foods in
  let logs := food_find_sorted foods uid day in
  Sorted logged_at_le logs /\
  length logs = Nat.min 100 (length day_entries) /\
  (forall f, In f logs -> In f foods /\ fl_user_id f = uid /\ fl_date f = day) /\
  ((length day_entries <= 100)%nat -> Permutation logs day_entries).
Proof.
  intros day_entries logs. unfold logs, food_find_sorted. fold day_entries.
  split; [apply take_sorted, sort_by_sorted, logged_at_asc_total |].
  split.
  { rewrite length_take, (Permutation_length (sort_by_perm _ _)). reflexivity. }
  split.
  - intros f Hin. apply list_elem_of_In, elem_of_take in Hin as (i & Hin & _).
    apply list_elem_of_lookup_2, list_elem_of_In in Hin.
    apply (Permutation_in _ (sort_by_perm _ _)) in Hin.
    unfold day_entries in Hin. apply filter_In in Hin as [Hin Hm].
    apply food_matches_spec in Hm. tauto.
  - intros Hle. rewrite take_ge; [apply sort_by_perm |].
    rewrite (Permutation_length (sort_by_perm _ _)). exact Hle.
Qed.

(** What every field of the dashboard is, in terms of the fetched logs. *)
Lemma get_dashboard_fields (E : env) (date : option string)
    (user : gmap string value) (uid : value) (foods : list food_log)
    (waters : list water_log) :
  user !! "id" = Some uid ->
  let day := date_or_today E date in
  let logs := food_find_sorted foods uid day in
  exists d tc tp tcb tf,
    get_dashboard E date user foods waters = Ok d /\
    dash_food_logs d = logs /\
    py_sum ((fun f => NFloat (fl_calories f)) <$> logs) = Ok tc /\
    py_sum ((fun f => NFloat (fl_protein f)) <$> logs) = Ok tp /\
    py_sum ((fun f => NFloat (fl_carbs f)) <$> logs) = Ok tcb /\
    py_sum ((fun f => NFloat (fl_fat f)) <$> logs) = Ok tf /\
    consumed (dash_calories d) = num_round1 tc /\
    consumed (dash_protein d) = num_round1 tp /\
    consumed (dash_carbs d) = num_round1 tcb /\
    consumed (dash_fat d) = num_round1 tf /\
    dash_meals d = {| breakfast := meal_bucket logs "breakfast";
                      lunch := meal_bucket logs "lunch";
                      dinner := meal_bucket logs "dinner";
                      snack := meal_bucket logs "snack" |} /\
    dash_water_consumed_ml d
      = match water_find_one waters uid day with
        | Some w => wl_total_ml w
        | None => 0
        end /\
    dash_streak d = calculate_streak E foods uid.
Proof.
  intros Hid day logs. unfold get_dashboard, dict_item. rewrite Hid. simpl.
  fold day. fold logs.
  destruct (py_sum_field fl_calories logs) as [tc Htc].
  destruct (py_sum_field fl_protein logs) as [tp Htp].
  destruct (py_sum_field fl_carbs logs) as [tcb Htcb].
  destruct (py_sum_field fl_fat logs) as [tf Htf].
  rewrite Htc, Htp, Htcb, Htf. simpl.
  eexists _, tc, tp, tcb, tf. split; [reflexivity |].
  simpl. repeat split; reflexivity.
Qed.

(** C8, as the code has it: for every user and day the dashboard fetches the
    day's food log entries in ascending timestamp order, but at most the
    first 100 of them (all of them when the day has at most 100). Its macro
    totals are the sums of the stored values over the fetched entries,
    rounded to one decimal and not re-scaled; its four meal buckets hold
    the fetched entries whose meal_type is exactly breakfast, lunch, dinner
    or snack, so an entry with another meal_type is in no bucket while it
    stays in the totals and in the raw list; a missing water record gives a
    water total of 0. *)
Theorem dashboard_aggregates (E : env) (date : option string)
    (user : gmap string value) (uid : value) (foods : list food_log)
    (waters : list water_log) :
  user !! "id" = Some uid ->
  let day := date_or_today E date in
  let day_entries := List.filter (food_matches uid day) foods in
  exists d tc tp tcb tf,
    get_dashboard E date user foods waters = Ok d /\
    dash_food_logs d = take 100 (sort_by logged_at_asc day_entries) /\
    Sorted logged_at_le (dash_food_logs d) /\
    length (dash_food_logs d) = Nat.min 100 (length day_entries) /\
    (forall f, In f (dash_food_logs d) ->
               In f foods /\ fl_user_id f = uid /\ fl_date f = day) /\
    ((length day_entries <= 100)%nat ->
     Permutation (dash_food_logs d) day_entries) /\
    py_sum ((fun f => NFloat (fl_calories f)) <$> dash_food_logs d) = Ok tc /\
    py_sum ((fun f => NFloat (fl_protein f)) <$> dash_food_logs d) = Ok tp /\
    py_sum ((fun f => NFloat (fl_carbs f)) <$> dash_food_logs d) = Ok tcb /\
    py_sum ((fun f => NFloat (fl_fat f)) <$> dash_food_logs d) = Ok tf /\
    consumed (dash_calories d) = num_round1 tc /\
    consumed (dash_protein d) = num_round1 tp /\
    consumed (dash_carbs d) = num_round1 tcb /\
    consumed (dash_fat d) = num_round1 tf /\
    (forall f, In f (breakfast (dash_meals d))
               <-> In f (dash_food_logs d) /\ fl_meal_type f = "breakfast") /\
    (forall f, In f (lunch (dash_meals d))
               <-> In f (dash_food_logs d) /\ fl_meal_type f = "lunch") /\
    (forall f, In f (dinner (dash_meals d))
               <-> In f (dash_food_logs d) /\ fl_meal_type f = "dinner") /\
    (forall f, In f (snack (dash_meals d))
               <-> In f (dash_food_logs d) /\ fl_meal_type f = "snack") /\
    (forall f, In f (dash_food_logs d) -> ~ In (fl_meal_type f) meal_types ->
               ~ In f (breakfast (dash_meals d)) /\
               ~ In f (lunch (dash_meals d)) /\
               ~ In f (dinner (dash_meals d)) /\
               ~ In f (snack (dash_meals d))) /\
    (water_find_one waters uid day = None -> dash_water_consumed_ml d = 0) /\
    (forall w, water_find_one waters uid day = Some w ->
               dash_water_consumed_ml d = wl_total_ml w).
Proof.
  intros Hid day day_entries.
  destruct (get_dashboard_fields E date user uid foods waters Hid)
    as (d & tc & tp & tcb & tf & Hd & Hlogs & Htc & Htp & Htcb & Htf
        & Hc & Hp & Hcb & Hf & Hmeals & Hwater & _).
  fold day in Hlogs, Htc, Htp, Htcb, Htf, Hmeals, Hwater.
  destruct (food_find_sorted_spec foods uid day)
    as (Hsorted & Hlen & Hin & Hperm).
  fold day_entries in Hlen, Hperm.
  exists d, tc, tp, tcb, tf. rewrite Hlogs, Hmeals. simpl.
  split; [exact Hd |]. split; [reflexivity |].
  split; [exact Hsorted |]. split; [exact Hlen |].
  split; [exact Hin |]. split; [exact Hperm |].
  split; [exact Htc |]. split; [exact Htp |].
  split; [exact Htcb |]. split; [exact Htf |].
  split; [exact Hc |]. split; [exact Hp |].
  split; [exact Hcb |]. split; [exact Hf |].
  split; [apply meal_bucket_In |]. split; [apply meal_bucket_In |].
  split; [apply meal_bucket_In |]. split; [apply meal_bucket_In |].
  split.
  { intros f _ Hother. unfold meal_types in Hother. simpl in Hother.
    repeat split; intros Hb; apply meal_bucket_In in Hb as [_ Hb];
      apply Hother; rewrite Hb; tauto. }
  rewrite Hwater. split.
  - intros ->. reflexivity.
  - intros w ->. reflexivity.
Qed.

Lemma dashboard_aggregates_witness :
  exists d,
    get_dashboard Sample.clock None Sample.user Sample.two_day_log [] = Ok d /\
    length (dash_food_logs d) = 1%nat /\
    dash_water_consumed_ml d = 0.
Proof.
  destruct (dashboard_aggregates Sample.clock None Sample.user Sample.user_id
              Sample.two_day_log [] ltac:(vm_compute; reflexivity))
    as (d & tc & tp & tcb & tf & Hd & _ & _ & Hlen & _ & _ & _ & _ & _ & _
        & _ & _ & _ & _ & _ & _ & _ & _ & _ & Hwater & _).
  exists d. split; [exact Hd |]. split.
  - rewrite Hlen. vm_compute. reflexivity.
  - apply Hwater. reflexivity.
Defined.

(** C8 as stated fails: on a day with 101 one-calorie entries the dashboard
    lists 100 of them and reports 100.0 calories, not all 101. *)
Lemma dashboard_caps_at_100_entries :
  ~ ((fun d => length (dash_food_logs d))
       <$> get_dashboard Sample.clock None Sample.user Sample.busy_day []
     = Ok (length (List.filter (food_matches Sample.user_id "2026-11-04")
                               Sample.busy_day)) \/
     (fun d => consumed (dash_calories d))
       <$> get_dashboard Sample.clock None Sample.user Sample.busy_day []
     = Ok (NFloat (Float.of_Z 101))).
Proof. vm_compute. intros [H | H]; discriminate H. Qed.

(** ** Weekly statistics *)

Lemma two_power_pos (e : Z) : (0 < 2 ^ e)%Q.
Proof. apply Qpower_0_lt. reflexivity. Qed.

Lemma inject_Z_scaled (m e z : Z) :
  z <= 0 -> z <= e ->
  (inject_Z (m * 2 ^ (e - z)) == inject_Z m * 2 ^ e * 2 ^ (- z))%Q.
Proof.
  intros Hz He.
  rewrite inject_Z_mult, Zpower_Qpower by lia.
  change (inject_Z 2) with 2%Q.
  replace (e - z)%Z with (e + - z)%Z by lia.
  rewrite Qpower_plus by discriminate. ring.
Qed.

(** The comparison of [m * 2^e] with an int is the comparison of the exact
    values. *)
Lemma xfin_compare_int (m e n : Z) :
  xval_compare (XFin m e) (XFin n 0)
  = Some (inject_Z m * 2 ^ e ?= inject_Z n)%Q.
Proof.
  unfold xval_compare. f_equal.
  set (z := Z.min e 0).
  assert (Hz : z <= 0) by (unfold z; lia).
  assert (He : z <= e) by (unfold z; lia).
  pose proof (two_power_pos (- z)) as Hpos.
  pose proof (inject_Z_scaled m e z Hz He) as Hm.
  pose proof (inject_Z_scaled n 0 z Hz Hz) as Hn.
  change (2 ^ 0)%Q with 1%Q in Hn. rewrite Qmult_1_r in Hn.
  destruct (inject_Z m * 2 ^ e ?= inject_Z n)%Q eqn:Hc.
  - apply Qeq_alt in Hc. apply Z.compare_eq_iff.
    apply (proj1 (inject_Z_injective _ _)). rewrite Hm, Hn, Hc. reflexivity.
  - apply Qlt_alt in Hc. apply Z.compare_lt_iff. rewrite Zlt_Qlt.
    rewrite Hm, Hn. apply Qmult_lt_r; assumption.
  - apply Qgt_alt in Hc. apply Z.compare_gt_iff. rewrite Zlt_Qlt.
    rewrite Hm, Hn. apply Qmult_lt_r; assumption.
Qed.

(** A day is in the interval exactly when its exact value is in (0, t]. *)
Lemma in_target_interval_spec (x : num) (t : Z) :
  in_target_interval x t = true
  <-> exists q, num_Q x = Some q /\ (0 < q)%Q /\ (q <= inject_Z t)%Q.
Proof.
  unfold in_target_interval, num_gt, num_le, num_compare, num_Q.
  change (num_xval (NInt 0)) with (XFin 0 0).
  change (num_xval (NInt t)) with (XFin t 0).
  destruct (num_xval x) as [| s | m e].
  - simpl. split; [discriminate | intros (q & H & _); discriminate H].
  - destruct s; simpl; (split; [discriminate | intros (q & H & _); discriminate H]).
  - rewrite !xfin_compare_int. split.
    + intros H. apply andb_prop in H as [Hgt Hle].
      exists (inject_Z m * 2 ^ e)%Q. split; [reflexivity |]. split.
      * destruct (_ ?= inject_Z 0)%Q eqn:Hc; try discriminate Hgt.
        apply Qgt_alt in Hc. exact Hc.
      * destruct (_ ?= inject_Z t)%Q eqn:Hc; try discriminate Hle.
        -- apply Qeq_alt in Hc. rewrite Hc. apply Qle_refl.
        -- apply Qlt_alt in Hc. apply Qlt_le_weak, Hc.
    + intros (q & Hq & Hpos & Hle). injection Hq as <-.
      apply andb_true_intro. split.
      * apply Qgt_alt in Hpos. change (inject_Z 0) with 0%Q. rewrite Hpos.
        reflexivity.
      * destruct (_ ?= inject_Z t)%Q eqn:Hc; try reflexivity.
        apply Qgt_alt in Hc. exfalso. apply (Qlt_not_le _ _ Hc), Hle.
Qed.

Lemma bind_Ok_eq {A B} (a : A) (f : A -> result B) : Ok a ≫= f = f a.
Proof. reflexivity. Qed.

Lemma of_int_0 : Float.of_int 0 = Ok (Float.of_Z 0).
Proof. vm_compute. reflexivity. Qed.

Lemma num_add_zero_or_float (x y : num) :
  zero_or_float x -> zero_or_float y ->
  exists z, num_add x y = Ok z /\ zero_or_float z.
Proof.
  intros [-> | [f ->]] [-> | [g ->]]; unfold num_add, num_binop; simpl;
    rewrite ?of_int_0; simpl; eexists; (split; [reflexivity |]);
    unfold zero_or_float; eauto.
Qed.

Lemma day_calories_Ok (foods : list food_log) (uid : value) (d : Z) :
  exists c, day_calories foods uid d = Ok c /\ zero_or_float c.
Proof.
  unfold day_calories.
  destruct (py_sum_floats (fl_calories <$> food_find foods uid (Date.strftime_ymd d)))
    as (x & Hx & Hshape).
  exists x. split; [| exact Hshape].
  rewrite <- Hx. f_equal. rewrite <- list_fmap_compose. reflexivity.
Qed.

Lemma on_track_int_target (day_cals : num) (user : gmap string value) (t : Z) :
  dict_get user "calorie_target" (VInt 2000) = VInt t ->
  on_track day_cals user = Ok (in_target_interval day_cals t).
Proof.
  intros Ht. unfold on_track, in_target_interval. rewrite Ht. simpl.
  destruct (num_gt day_cals (NInt 0)); reflexivity.
Qed.

Lemma truediv_7_Ok (total : num) :
  zero_or_float total -> exists avg, num_truediv total (NInt 7) = Ok avg.
Proof.
  assert (H7 : Float.of_int 7 = Ok (Float.of_Z 7)) by (vm_compute; reflexivity).
  assert (Hnz : Float.is_zero (Float.of_Z 7) = false) by (vm_compute; reflexivity).
  intros [-> | [f ->]]; simpl; [eauto |].
  rewrite H7. simpl. rewrite Hnz. eauto.
Qed.

(** The loop over the days [ds], from the accumulator [acc]. *)
Lemma weekly_loop_spec (user : gmap string value) (uid : value) (t : Z)
    (foods : list food_log) (waters : list water_log) (ds : list Z) :
  dict_get user "calorie_target" (VInt 2000) = VInt t ->
  forall acc, zero_or_float (acc_total_cals acc) ->
  exists acc' cals,
    foldl (fun acc d => a ← acc; weekly_day user uid foods waters a d)
          (Ok acc) ds = Ok acc' /\
    Forall2 (fun d c => day_calories foods uid d = Ok c) ds cals /\
    sum_from (acc_total_cals acc) cals = Ok (acc_total_cals acc') /\
    zero_or_float (acc_total_cals acc') /\
    acc_days_on_track acc'
      = acc_days_on_track acc
        + Z.of_nat (length (List.filter (fun c => in_target_interval c t) cals)).
Proof.
  intros Ht. induction ds as [| d ds IH]; intros acc Hacc.
  - exists acc, []. simpl. repeat split; [constructor | assumption | lia].
  - destruct (day_calories_Ok foods uid d) as (c & Hc & Hcs).
    destruct (num_add_zero_or_float _ _ Hacc Hcs) as (tot & Htot & Htots).
    simpl foldl. unfold weekly_day at 2. fold (day_calories foods uid d).
    rewrite Hc. simpl. rewrite Htot. simpl.
    rewrite (on_track_int_target c user t Ht). simpl.
    match goal with
    | |- context [foldl _ (Ok ?a) ds] =>
        destruct (IH a Htots) as (acc' & cals & Hfold & Hall & Hsum & Hshape & Hdays)
    end.
    exists acc', (c :: cals). split; [exact Hfold |].
    split; [constructor; assumption |].
    split; [unfold sum_from in *; simpl; rewrite Htot; exact Hsum |].
    split; [exact Hshape |].
    rewrite Hdays. simpl.
    destruct (in_target_interval c t); simpl length; lia.
Qed.




(** ** More on the profile update *)

Lemma bind_ext {A B} (m : result A) (f g : A -> result B) :
  (forall a, f a = g a) -> m ≫= f = m ≫= g.
Proof. intros H. destruct m; simpl; [apply H | reflexivity]. Qed.

Lemma lookup_derived_inserted (ud : gmap string value) (t b f c p k : Z)
    (key : string) :
  ~ In key derived_keys ->
  (<["tdee" := VInt t]> (<["bmr" := VInt b]> (<["fat_target" := VInt f]>
   (<["carbs_target" := VInt c]> (<["protein_target" := VInt p]>
   (<["calorie_target" := VInt k]> ud)))))) !! key = ud !! key.
Proof.
  intros Hk. unfold derived_keys in Hk. simpl in Hk.
  repeat (rewrite lookup_insert_ne by (intros <-; tauto)). reflexivity.
Qed.

Lemma update_data_not_field (update : ProfileUpdate.t) (k : string) :
  ~ In k profile_fields -> update_data_of update !! k = None.
Proof.
  intros Hk. unfold update_data_of.
  rewrite lookup_filter_not_None by apply model_dump_keys_NoDup.
  rewrite (not_elem_of_list_to_map_1 (M := gmap string)); [reflexivity |].
  rewrite list_elem_of_In. exact Hk.
Qed.

(** X1. Recomputation writes the six derived keys and nothing else: any other
    key of the stored document is what the request supplies for it, or else
    what was stored; a key that is not a field of the request model (id,
    email, password, created_at, ...) is never changed. *)
Theorem update_profile_frame (update : ProfileUpdate.t)
    (user d : gmap string value) (k : string) :
  update_profile update user = Ok d ->
  ~ In k derived_keys ->
  d !! k = (update_data_of update ∪ user) !! k /\
  (~ In k profile_fields -> d !! k = user !! k).
Proof.
  intros H Hk.
  assert (Hd : d !! k = (update_data_of update ∪ user) !! k).
  { unfold update_profile in H.
    destruct (enough_data (update_data_of update ∪ user)).
    - apply bind_Ok in H as (ud' & Hrec & H). injection H as <-.
      apply recompute_targets_shape in Hrec
        as (n & p & c & f & bi & ti & _ & _ & _ & ->).
      rewrite !lookup_union, lookup_derived_inserted by exact Hk. reflexivity.
    - simpl in H. injection H as <-. reflexivity. }
  split; [exact Hd |].
  intros Hnf. rewrite Hd, lookup_union, update_data_not_field by exact Hnf.
  destruct (user !! k); reflexivity.
Qed.

Lemma update_profile_frame_witness :
  Sample.updated !! "email" = Sample.user !! "email".
Proof.
  apply (update_profile_frame Sample.biometrics Sample.user Sample.updated "email").
  - apply is_Ok_from_Ok. vm_compute. reflexivity.
  - vm_compute. intuition discriminate.
  - vm_compute. intuition discriminate.
Defined.

Lemma enough_data_ext (m1 m2 : gmap string value) :
  (forall k, In k input_keys -> m1 !! k = m2 !! k) ->
  enough_data m1 = enough_data m2.
Proof.
  intros H. unfold enough_data, required_fields, dict_get. simpl.
  rewrite !(H "age"), !(H "gender"), !(H "height_cm"), !(H "current_weight")
    by (simpl; tauto).
  reflexivity.
Qed.

Lemma derived_insert_ext (ud1 ud2 : gmap string value) (t b f c p k : Z) :
  (forall key, ~ In key target_keys -> ud1 !! key = ud2 !! key) ->
  <["tdee" := VInt t]> (<["bmr" := VInt b]> (<["fat_target" := VInt f]>
  (<["carbs_target" := VInt c]> (<["protein_target" := VInt p]>
  (<["calorie_target" := VInt k]> ud1)))))
  = <["tdee" := VInt t]> (<["bmr" := VInt b]> (<["fat_target" := VInt f]>
    (<["carbs_target" := VInt c]> (<["protein_target" := VInt p]>
    (<["calorie_target" := VInt k]> ud2))))).
Proof.
  intros H. apply map_eq. intros key.
  destruct (decide (key = "tdee")) as [-> | H1];
    [rewrite !lookup_insert_eq; reflexivity |].
  rewrite !(lookup_insert_ne _ "tdee") by congruence.
  destruct (decide (key = "bmr")) as [-> | H2];
    [rewrite !lookup_insert_eq; reflexivity |].
  rewrite !(lookup_insert_ne _ "bmr") by congruence.
  destruct (decide (key = "fat_target")) as [-> | H3];
    [rewrite !lookup_insert_eq; reflexivity |].
  rewrite !(lookup_insert_ne _ "fat_target") by congruence.
  destruct (decide (key = "carbs_target")) as [-> | H4];
    [rewrite !lookup_insert_eq; reflexivity |].
  rewrite !(lookup_insert_ne _ "carbs_target") by congruence.
  destruct (decide (key = "protein_target")) as [-> | H5];
    [rewrite !lookup_insert_eq; reflexivity |].
  rewrite !(lookup_insert_ne _ "protein_target") by congruence.
  destruct (decide (key = "calorie_target")) as [-> | H6];
    [rewrite !lookup_insert_eq; reflexivity |].
  rewrite !(lookup_insert_ne _ "calorie_target") by congruence.
  apply H. unfold target_keys. simpl. intuition congruence.
Qed.

(** The derived values depend on the six input keys only, and the entries
    added to [update_data] hide what it held for the four targets. *)
Lemma recompute_targets_ext (m1 m2 ud1 ud2 : gmap string value) :
  (forall k, In k input_keys -> m1 !! k = m2 !! k) ->
  (forall k, ~ In k target_keys -> ud1 !! k = ud2 !! k) ->
  recompute_targets m1 ud1 = recompute_targets m2 ud2.
Proof.
  intros Hm Hud. unfold recompute_targets, dict_item, dict_get.
  rewrite !(Hm "age"), !(Hm "gender"), !(Hm "height_cm"),
    !(Hm "current_weight"), !(Hm "activity_level"), !(Hm "weight_loss_rate")
    by (simpl; tauto).
  repeat (apply bind_ext; intros ?).
  f_equal. apply derived_insert_ext, Hud.
Qed.

Lemma model_dump_without_targets (u : ProfileUpdate.t) (k : string) :
  ~ In k target_keys ->
  (list_to_map (ProfileUpdate.model_dump (without_targets u))
     : gmap string value) !! k
  = (list_to_map (ProfileUpdate.model_dump u) : gmap string value) !! k.
Proof.
  intros Hk. unfold target_keys in Hk. simpl in Hk.
  unfold ProfileUpdate.model_dump, without_targets.
  cbn [list_to_map foldr uncurry fst snd].
  repeat match goal with
  | |- (<[?key := _]> _) !! k = (<[?key := _]> _) !! k =>
      destruct (decide (key = k)) as [<- | ?];
      [rewrite !lookup_insert_eq; try reflexivity; exfalso; tauto
      | rewrite !(lookup_insert_ne _ key k) by assumption]
  end.
  reflexivity.
Qed.

Lemma update_data_without_targets (u : ProfileUpdate.t) (k : string) :
  ~ In k target_keys ->
  update_data_of (without_targets u) !! k = update_data_of u !! k.
Proof.
  intros Hk. unfold update_data_of.
  rewrite !lookup_filter_not_None by apply model_dump_keys_NoDup.
  rewrite model_dump_without_targets by exact Hk. reflexivity.
Qed.

Lemma target_not_input (k : string) : In k input_keys -> ~ In k target_keys.
Proof.
  unfold input_keys, target_keys. simpl. intuition (subst; discriminate).
Qed.

Lemma lookup_union_ext (a1 a2 b : gmap string value) (k : string) :
  a1 !! k = a2 !! k -> (a1 ∪ b) !! k = (a2 ∪ b) !! k.
Proof. intros H. rewrite !lookup_union, H. reflexivity. Qed.

Lemma merged_without_targets (u : ProfileUpdate.t) (user : gmap string value)
    (k : string) :
  In k input_keys ->
  (update_data_of (without_targets u) ∪ user) !! k
  = (update_data_of u ∪ user) !! k.
Proof.
  intros Hk. apply lookup_union_ext, update_data_without_targets,
    target_not_input, Hk.
Qed.



Lemma union_absorb (a b : gmap string value) : a ∪ (a ∪ b) = a ∪ b.
Proof. rewrite (assoc_L (∪)), (idemp_L (∪)). reflexivity. Qed.

(** X3. Sending the same request again changes nothing: the second call
    succeeds and stores the document the first one stored. *)
Theorem update_profile_idempotent (update : ProfileUpdate.t)
    (user d : gmap string value) :
  update_profile update user = Ok d ->
  update_profile update d = Ok d.
Proof.
  intros H. unfold update_profile in *.
  destruct (enough_data (update_data_of update ∪ user)) eqn:He.
  - apply bind_Ok in H as (ud' & Hrec & H). injection H as <-.
    assert (Hin : forall k, In k input_keys ->
              (update_data_of update ∪ (ud' ∪ user)) !! k
              = (update_data_of update ∪ user) !! k).
    { intros k Hk.
      destruct (recompute_targets_shape _ _ _ Hrec)
        as (n & p & c & f & bi & ti & _ & _ & _ & ->).
      rewrite !lookup_union, lookup_derived_inserted.
      - destruct (update_data_of update !! k), (user !! k); reflexivity.
      - unfold input_keys, derived_keys in *. simpl in *.
        intuition (subst; discriminate). }
    rewrite (enough_data_ext _ _ Hin), He.
    rewrite (recompute_targets_ext _ (update_data_of update ∪ user)
               _ (update_data_of update) Hin (fun k _ => eq_refl)).
    rewrite Hrec. simpl. rewrite union_absorb. reflexivity.
  - simpl in H. injection H as <-.
    rewrite union_absorb, He. simpl. rewrite union_absorb. reflexivity.
Qed.

Lemma update_profile_idempotent_witness :
  update_profile Sample.biometrics Sample.updated = Ok Sample.updated.
Proof.
  apply (update_profile_idempotent Sample.biometrics Sample.user).
  apply is_Ok_from_Ok. vm_compute. reflexivity.
Defined.

(** ** Food log and weight log stores *)

Lemma delete_one_none {A} (m : A -> bool) (db : list A) :
  (forall x, In x db -> m x = false) -> delete_one m db = (db, 0).
Proof.
  induction db as [| x db IH]; intros H; simpl; [reflexivity |].
  rewrite (H x) by (left; reflexivity).
  rewrite IH by (intros y Hy; apply H; right; exact Hy). reflexivity.
Qed.

Lemma delete_one_first {A} (m : A -> bool) (pre post : list A) (x : A) :
  (forall y, In y pre -> m y = false) -> m x = true ->
  delete_one m (pre ++ x :: post) = (pre ++ post, 1).
Proof.
  induction pre as [| y pre IH]; intros Hpre Hx; simpl.
  - rewrite Hx. reflexivity.
  - rewrite (Hpre y) by (left; reflexivity).
    rewrite IH by (try exact Hx; intros z Hz; apply Hpre; right; exact Hz).
    reflexivity.
Qed.

Lemma delete_one_cases {A} (m : A -> bool) (db : list A) :
  (forall x, In x db -> m x = false) \/
  exists pre x post,
    db = pre ++ x :: post /\ (forall y, In y pre -> m y = false) /\ m x = true.
Proof.
  induction db as [| x db IH].
  - left. intros x [].
  - destruct (m x) eqn:Hx.
    + right. exists [], x, db. repeat split; [intros y [] | exact Hx].
    + destruct IH as [Hnone | (pre & y & post & -> & Hpre & Hy)].
      * left. intros y [<- | Hy]; [exact Hx | apply Hnone, Hy].
      * right. exists (x :: pre), y, post.
        repeat split; [| exact Hy].
        intros z [<- | Hz]; [exact Hx | apply Hpre, Hz].
Qed.

Lemma food_owned_by_spec (log_id : string) (uid : value) (f : food_log) :
  food_owned_by log_id uid f = true <-> fl_id f = log_id /\ fl_user_id f = uid.
Proof.
  unfold food_owned_by.
  rewrite andb_true_iff, String.eqb_eq, bool_decide_eq_true. reflexivity.
Qed.

Lemma food_owned_by_false (log_id : string) (uid : value) (f : food_log) :
  food_owned_by log_id uid f = false
  <-> ~ (fl_id f = log_id /\ fl_user_id f = uid).
Proof.
  rewrite <- food_owned_by_spec. destruct (food_owned_by log_id uid f);
    split; congruence.
Qed.

Lemma weight_owned_by_spec (log_id : string) (uid : value) (w : weight_log) :
  weight_owned_by log_id uid w = true <-> wg_id w = log_id /\ wg_user_id w = uid.
Proof.
  unfold weight_owned_by.
  rewrite andb_true_iff, String.eqb_eq, bool_decide_eq_true. reflexivity.
Qed.

Lemma weight_owned_by_false (log_id : string) (uid : value) (w : weight_log) :
  weight_owned_by log_id uid w = false
  <-> ~ (wg_id w = log_id /\ wg_user_id w = uid).
Proof.
  rewrite <- weight_owned_by_spec. destruct (weight_owned_by log_id uid w);
    split; congruence.
Qed.

Lemma dict_item_id (user : gmap string value) (uid : value) :
  user !! "id" = Some uid -> dict_item user "id" = Ok uid.
Proof. intros H. unfold dict_item. rewrite H. reflexivity. Qed.



(** X5. A successful delete removes one document, the first one in the store
    with that id owned by the caller, and keeps every other document in
    place. *)
Theorem delete_food_log_removes_one (log_id : string)
    (user : gmap string value) (uid : value) (db db' : list food_log) :
  user !! "id" = Some uid ->
  delete_food_log log_id user db = Ok db' ->
  exists pre f post,
    db = pre ++ f :: post /\ db' = pre ++ post /\
    fl_id f = log_id /\ fl_user_id f = uid /\
    (forall g, In g pre -> ~ (fl_id g = log_id /\ fl_user_id g = uid)).
Proof.
  intros Hid H. unfold delete_food_log in H.
  rewrite (dict_item_id _ _ Hid) in H. simpl in H.
  destruct (delete_one_cases (food_owned_by log_id uid) db)
    as [Hnone | (pre & x & post & -> & Hpre & Hx)].
  - rewrite (delete_one_none _ _ Hnone) in H. discriminate H.
  - rewrite (delete_one_first _ _ _ _ Hpre Hx) in H. simpl in H.
    injection H as <-. apply food_owned_by_spec in Hx as [Hi Hu].
    exists pre, x, post. repeat split; try assumption.
    intros g Hg. apply food_owned_by_false, Hpre, Hg.
Qed.

(** X6. A freshly created food log is appended under the new uuid, and deleting
    it by the returned id gives back the store as it was, provided the uuid
    is not the id of a stored document. *)
Theorem create_then_delete_food_log (E : env) (entry : FoodLogCreate.t)
    (user : gmap string value) (uid : value) (db : list food_log) :
  user !! "id" = Some uid ->
  (forall f, In f db -> fl_id f <> uuid4 E 0) ->
  exists doc,
    create_food_log E entry user db = Ok (db ++ [doc], doc) /\
    fl_id doc = uuid4 E 0 /\ fl_user_id doc = uid /\
    delete_food_log (fl_id doc) user (db ++ [doc]) = Ok db.
Proof.
  intros Hid Hfresh. unfold create_food_log.
  rewrite (dict_item_id _ _ Hid). simpl.
  eexists. split; [reflexivity |]. split; [reflexivity |].
  split; [reflexivity |].
  unfold delete_food_log. rewrite (dict_item_id _ _ Hid). cbn [mbind result_bind fl_id].
  rewrite delete_one_first.
  - simpl. rewrite app_nil_r. reflexivity.
  - intros y Hy. apply food_owned_by_false. intros [Hi _].
    exact (Hfresh y Hy Hi).
  - apply food_owned_by_spec. split; reflexivity.
Qed.

Lemma delete_food_log_removes_one_witness :
  exists pre f post,
    Sample.two_day_log = pre ++ f :: post /\
    [ Sample.food 300 "lunch" "2026-11-04" "2026-11-04T12:00:00+00:00";
      Sample.food 400 "dinner" "2026-11-01" "2026-11-01T19:00:00+00:00" ]
    = pre ++ post /\
    fl_id f = Scenario.yesterday_id /\ fl_user_id f = Sample.user_id /\
    (forall g, In g pre ->
       ~ (fl_id g = Scenario.yesterday_id /\ fl_user_id g = Sample.user_id)).
Proof.
  apply (delete_food_log_removes_one Scenario.yesterday_id Sample.user
           Sample.user_id Sample.two_day_log).
  - vm_compute. reflexivity.
  - vm_compute. reflexivity.
Defined.

Lemma create_then_delete_food_log_witness :
  exists doc,
    create_food_log Sample.clock Scenario.oatmeal Sample.user Sample.two_day_log
    = Ok (Sample.two_day_log ++ [doc], doc) /\
    fl_id doc = uuid4 Sample.clock 0 /\ fl_user_id doc = Sample.user_id /\
    delete_food_log (fl_id doc) Sample.user (Sample.two_day_log ++ [doc])
    = Ok Sample.two_day_log.
Proof.
  apply (create_then_delete_food_log Sample.clock Scenario.oatmeal Sample.user
           Sample.user_id Sample.two_day_log).
  - vm_compute. reflexivity.
  - simpl. intros f Hf Hid. vm_compute in Hid.
    repeat (destruct Hf as [<- | Hf]; [discriminate Hid |]). exact Hf.
Defined.

(** ** Weigh-ins *)

Lemma model_dump_with_weight (u : ProfileUpdate.t) (w : spec_float)
    (k : string) :
  (list_to_map (ProfileUpdate.model_dump (with_weight w u))
     : gmap string value) !! k
  = if decide (k = "current_weight") then Some (VFloat w)
    else (list_to_map (ProfileUpdate.model_dump u) : gmap string value) !! k.
Proof.
  unfold ProfileUpdate.model_dump, with_weight.
  cbn [list_to_map foldr uncurry fst snd ProfileUpdate.field
       ProfileUpdate.current_weight].
  destruct (decide (k = "current_weight")) as [-> | Hk].
  - repeat (rewrite lookup_insert_ne by discriminate).
    apply lookup_insert_eq.
  - repeat match goal with
    | |- (<[?key := _]> _) !! k = (<[?key := _]> _) !! k =>
        destruct (decide (key = k)) as [<- | ?];
        [rewrite !lookup_insert_eq; try reflexivity; exfalso; apply Hk;
         reflexivity
        | rewrite !(lookup_insert_ne _ key k) by assumption]
    end.
    reflexivity.
Qed.

Lemma update_data_with_weight (u : ProfileUpdate.t) (w : spec_float) :
  update_data_of (with_weight w u)
  = <["current_weight" := VFloat w]> (update_data_of u).
Proof.
  apply map_eq. intros k.
  destruct (decide (k = "current_weight")) as [-> | Hk].
  - rewrite lookup_insert_eq. unfold update_data_of.
    rewrite lookup_filter_not_None by apply model_dump_keys_NoDup.
    rewrite model_dump_with_weight. reflexivity.
  - rewrite lookup_insert_ne by congruence. unfold update_data_of.
    rewrite !lookup_filter_not_None by apply model_dump_keys_NoDup.
    rewrite model_dump_with_weight.
    destruct (decide (k = "current_weight")); [contradiction | reflexivity].
Qed.

Lemma update_data_no_weight (u : ProfileUpdate.t) :
  ProfileUpdate.current_weight u = None ->
  update_data_of u !! "current_weight" = None.
Proof.
  intros H. unfold update_data_of.
  rewrite lookup_filter_not_None by apply model_dump_keys_NoDup.
  unfold ProfileUpdate.model_dump.
  cbn [list_to_map foldr uncurry fst snd].
  repeat (rewrite lookup_insert_ne by discriminate).
  rewrite lookup_insert_eq, H. reflexivity.
Qed.

Lemma bind_assoc {A B C} (m : result A) (f : A -> result B)
    (g : B -> result C) :
  (m ≫= f) ≫= g = m ≫= (fun a => f a ≫= g).
Proof. destruct m; reflexivity. Qed.

(** The entries recomputation adds do not depend on [update_data]. *)
Lemma recompute_targets_union (merged ud : gmap string value) :
  recompute_targets merged ud
  = recompute_targets merged ∅ ≫= (fun derived => Ok (derived ∪ ud)).
Proof.
  unfold recompute_targets.
  repeat (rewrite bind_assoc; apply bind_ext; intros ?).
  simpl. f_equal.
  rewrite <- !insert_union_l, (left_id_L ∅ (∪)). reflexivity.
Qed.

(** X7. A weigh-in writes [current_weight] into the profile and nothing else, so
    the stored targets stay as they were until the next profile update: a
    profile update without a weight of its own then stores what the same
    update carrying the logged weight would have stored without the
    weigh-in. *)
Theorem weigh_in_defers_recomputation (E : env) (entry : WeightLogCreate.t)
    (update : ProfileUpdate.t) (user user' : gmap string value)
    (db db' : list weight_log) (doc : weight_log) :
  create_weight_log E entry user db = Ok (db', user', doc) ->
  ProfileUpdate.current_weight update = None ->
  (forall k, k <> "current_weight" -> user' !! k = user !! k) /\
  user' !! "current_weight" = Some (VFloat (WeightLogCreate.weight entry)) /\
  update_profile update user'
  = update_profile (with_weight (WeightLogCreate.weight entry) update) user.
Proof.
  intros H Hnone. unfold create_weight_log in H.
  apply bind_Ok in H as (uid & _ & H). injection H as _ <- _.
  split; [intros k Hk; apply lookup_insert_ne; congruence |].
  split; [apply lookup_insert_eq |].
  unfold update_profile. rewrite update_data_with_weight.
  set (w := VFloat (WeightLogCreate.weight entry)).
  set (ud := update_data_of update).
  assert (Hm : <["current_weight" := w]> ud ∪ user
               = ud ∪ <["current_weight" := w]> user).
  { rewrite <- insert_union_l.
    apply insert_union_r, update_data_no_weight, Hnone. }
  rewrite Hm.
  destruct (enough_data _).
  - rewrite (recompute_targets_union _ ud),
      (recompute_targets_union _ (<["current_weight" := w]> ud)).
    destruct (recompute_targets _ ∅); simpl; [| reflexivity].
    rewrite <- !(assoc_L (∪)), Hm. reflexivity.
  - simpl. rewrite Hm. reflexivity.
Qed.

Lemma weigh_in_defers_recomputation_witness :
  (forall k, k <> "current_weight"%string ->
     (<["current_weight" := VFloat (Float.of_Z 78)]> Sample.updated) !! k
     = Sample.updated !! k) /\
  (<["current_weight" := VFloat (Float.of_Z 78)]> Sample.updated)
    !! "current_weight"
  = Some (VFloat (WeightLogCreate.weight Scenario.weigh_in)) /\
  update_profile Sample.manual_target
    (<["current_weight" := VFloat (Float.of_Z 78)]> Sample.updated)
  = update_profile
      (with_weight (WeightLogCreate.weight Scenario.weigh_in)
         Sample.manual_target)
      Sample.updated.
Proof.
  apply (weigh_in_defers_recomputation Sample.clock Scenario.weigh_in
           Sample.manual_target Sample.updated
           (<["current_weight" := VFloat (Float.of_Z 78)]> Sample.updated) []
           [ {| wg_id := "uuid-0"; wg_user_id := Sample.user_id;
                wg_weight := Float.of_Z 78; wg_note := "";
                wg_logged_at := "2026-11-04T08:00:00+00:00";
                wg_date := "2026-11-04";
                wg_created_at := "2026-11-04T08:00:00+00:00" |} ]
           {| wg_id := "uuid-0"; wg_user_id := Sample.user_id;
              wg_weight := Float.of_Z 78; wg_note := "";
              wg_logged_at := "2026-11-04T08:00:00+00:00";
              wg_date := "2026-11-04";
              wg_created_at := "2026-11-04T08:00:00+00:00" |}).
  - unfold create_weight_log.
    rewrite (dict_item_id Sample.updated Sample.user_id)
      by (vm_compute; reflexivity).
    reflexivity.
  - reflexivity.
Defined.

Lemma delete_weight_log_cases (log_id : string) (uid : value)
    (db : list weight_log) :
  (delete_one (weight_owned_by log_id uid) db = (db, 0) /\
   forall w, In w db -> wg_id w = log_id -> wg_user_id w <> uid) \/
  exists pre w post,
    db = pre ++ w :: post /\
    delete_one (weight_owned_by log_id uid) db = (pre ++ post, 1) /\
    wg_id w = log_id /\ wg_user_id w = uid /\
    (forall g, In g pre -> ~ (wg_id g = log_id /\ wg_user_id g = uid)).
Proof.
  destruct (delete_one_cases (weight_owned_by log_id uid) db)
    as [Hnone | (pre & x & post & -> & Hpre & Hx)].
  - left. split; [apply delete_one_none, Hnone |].
    intros w Hw Hi Hu. apply Hnone, weight_owned_by_false in Hw. tauto.
  - right. exists pre, x, post. split; [reflexivity |].
    split; [apply delete_one_first; assumption |].
    apply weight_owned_by_spec in Hx as [Hi Hu].
    repeat split; try assumption.
    intros g Hg. apply weight_owned_by_false, Hpre, Hg.
Qed.



(** ** Streak *)

Lemma streak_loop_mono (db db' : list food_log) (uid : value) (n : nat) :
  (forall day, has_entry db uid day -> has_entry db' uid day) ->
  forall d s0, streak_loop db uid n d s0 <= streak_loop db' uid n d s0.
Proof.
  intros Hsub. induction n as [| n IH]; intros d s0; simpl; [lia |].
  destruct (0 <? food_count_documents db uid (Date.strftime_ymd d)) eqn:Hc.
  - apply count_positive_has_entry, Hsub, count_positive_has_entry in Hc.
    rewrite Hc. apply IH.
  - destruct (0 <? food_count_documents db' uid (Date.strftime_ymd d)).
    + destruct (streak_loop_spec db' uid n (d - 1) (s0 + 1)) as (k & -> & Hk & _).
      lia.
    + lia.
Qed.

Lemma streak_loop_S (db : list food_log) (uid : value) (n : nat) (d s : Z) :
  streak_loop db uid (S n) d s
  = if 0 <? food_count_documents db uid (Date.strftime_ymd d)
    then streak_loop db uid n (d - 1) (s + 1) else s.
Proof. reflexivity. Qed.

Lemma has_entry_incl (db db' : list food_log) (uid : value) (day : Z) :
  (forall f, In f db -> fl_user_id f = uid -> In f db') ->
  has_entry db uid day -> has_entry db' uid day.
Proof.
  intros Hsub (f & Hf & Hu & Hd). exists f. repeat split; auto.
Qed.



(** X10. Logging a food without a timestamp of its own, when the first ten
    characters of the server's timestamp are today's date, makes the streak
    at least 1 and no shorter than it was. *)
Theorem streak_after_logging (E : env) (entry : FoodLogCreate.t)
    (user : gmap string value) (uid : value) (db db' : list food_log)
    (doc : food_log) :
  user !! "id" = Some uid ->
  FoodLogCreate.logged_at entry = None ->
  String.substring 0 10 (now_iso E 0) = today_str E ->
  create_food_log E entry user db = Ok (db', doc) ->
  1 <= calculate_streak E db' uid /\
  calculate_streak E db uid <= calculate_streak E db' uid.
Proof.
  intros Hid Hat Hnow H. unfold create_food_log in H.
  rewrite (dict_item_id _ _ Hid), Hat in H. simpl in H.
  injection H as <- <-. split.
  - unfold calculate_streak.
    change 365%nat with (S 364). rewrite streak_loop_S.
    match goal with
    | |- context [0 <? ?c] => assert (Hc : (0 <? c) = true)
    end.
    { apply count_positive_has_entry. eexists. split; [apply in_elt |].
      split; [reflexivity |]. exact Hnow. }
    rewrite Hc.
    match goal with
    | |- 1 <= streak_loop ?a ?b ?c ?d ?e =>
        destruct (streak_loop_spec a b c d e) as (k & Hk & Hr & _)
    end.
    rewrite Hk. lia.
  - apply streak_loop_mono. intros day. apply has_entry_incl.
    intros f Hf _. apply in_or_app. left. exact Hf.
Qed.

Lemma streak_after_logging_witness :
  1 <= calculate_streak Sample.clock
         (Sample.two_day_log ++ [Scenario.oatmeal_doc]) Sample.user_id /\
  calculate_streak Sample.clock Sample.two_day_log Sample.user_id
  <= calculate_streak Sample.clock
       (Sample.two_day_log ++ [Scenario.oatmeal_doc]) Sample.user_id.
Proof.
  apply (streak_after_logging Sample.clock Scenario.oatmeal Sample.user
           Sample.user_id Sample.two_day_log
           (Sample.two_day_log ++ [Scenario.oatmeal_doc]) Scenario.oatmeal_doc).
  - vm_compute. reflexivity.
  - reflexivity.
  - vm_compute. reflexivity.
  - vm_compute. reflexivity.
Defined.

(** ** Reading back what was written *)

Lemma filter_app_one {A} (p : A -> bool) (l : list A) (x : A) :
  p x = true -> List.filter p (l ++ [x]) = List.filter p l ++ [x].
Proof. intros H. rewrite List.filter_app. simpl. rewrite H. reflexivity. Qed.

(** X11. A created food log is listed by [GET /food-logs] for its date, as long
    as the user had fewer than 100 logs on that date: the list then has one
    entry more than before. *)
Theorem created_food_log_listed (E : env) (entry : FoodLogCreate.t)
    (date : option string) (user : gmap string value) (uid : value)
    (db db' : list food_log) (doc : food_log) :
  user !! "id" = Some uid ->
  create_food_log E entry user db = Ok (db', doc) ->
  date_or_today E date = fl_date doc ->
  (length (List.filter (food_matches uid (fl_date doc)) db) < 100)%nat ->
  exists before after,
    get_food_logs E date user db = Ok before /\
    get_food_logs E date user db' = Ok after /\
    In doc after /\ length after = S (length before).
Proof.
  intros Hid H Hdate Hlen.
  assert (Hdoc : db' = db ++ [doc] /\ fl_user_id doc = uid).
  { unfold create_food_log in H. rewrite (dict_item_id _ _ Hid) in H.
    simpl in H. injection H as <- <-. split; reflexivity. }
  destruct Hdoc as [-> Hu].
  unfold get_food_logs. rewrite (dict_item_id _ _ Hid), Hdate. simpl.
  eexists _, _. split; [reflexivity |]. split; [reflexivity |].
  assert (Hm : food_matches uid (fl_date doc) doc = true)
    by (apply food_matches_spec; split; [exact Hu | reflexivity]).
  destruct (food_find_sorted_spec (db ++ [doc]) uid (fl_date doc))
    as (_ & Hl' & _ & Hperm).
  destruct (food_find_sorted_spec db uid (fl_date doc)) as (_ & Hl & _ & _).
  rewrite (filter_app_one _ _ _ Hm), length_app in Hl', Hperm.
  change (length [doc]) with 1%nat in Hl', Hperm.
  split.
  - apply (Permutation_in doc (Permutation_sym (Hperm ltac:(lia)))).
    apply in_or_app. right. left. reflexivity.
  - fold (food_find_sorted (db ++ [doc]) uid (fl_date doc)).
    fold (food_find_sorted db uid (fl_date doc)).
    rewrite Hl', Hl. lia.
Qed.

Lemma created_food_log_listed_witness :
  exists before after,
    get_food_logs Sample.clock None Sample.user Sample.two_day_log = Ok before /\
    get_food_logs Sample.clock None Sample.user
      (Sample.two_day_log ++ [Scenario.oatmeal_doc]) = Ok after /\
    In Scenario.oatmeal_doc after /\ length after = S (length before).
Proof.
  apply (created_food_log_listed Sample.clock Scenario.oatmeal None Sample.user
           Sample.user_id Sample.two_day_log
           (Sample.two_day_log ++ [Scenario.oatmeal_doc]) Scenario.oatmeal_doc).
  - vm_compute. reflexivity.
  - vm_compute. reflexivity.
  - vm_compute. reflexivity.
  - vm_compute. lia.
Defined.

(** X12. The dashboard shows what the two list endpoints return for the same
    date argument: its food list is the answer of [GET /food-logs], its
    water total and goal are those of [GET /water-logs]; none of the three
    fails for a user document with an id. *)
Theorem dashboard_matches_endpoints (E : env) (date : option string)
    (user : gmap string value) (uid : value) (foods : list food_log)
    (waters : list water_log) :
  user !! "id" = Some uid ->
  exists d logs w,
    get_dashboard E date user foods waters = Ok d /\
    get_food_logs E date user foods = Ok logs /\
    get_water_log E date user waters = Ok w /\
    dash_food_logs d = logs /\
    dash_date d = wv_date w /\
    dash_water_consumed_ml d = wv_total_ml w /\
    dash_water_goal_ml d = wv_goal_ml w.
Proof.
  intros Hid. unfold get_dashboard, get_food_logs, get_water_log.
  rewrite (dict_item_id _ _ Hid). simpl.
  set (logs := food_find_sorted foods uid (date_or_today E date)).
  destruct (py_sum_field fl_calories logs) as [tc Htc].
  destruct (py_sum_field fl_protein logs) as [tp Htp].
  destruct (py_sum_field fl_carbs logs) as [tcb Htcb].
  destruct (py_sum_field fl_fat logs) as [tf Htf].
  rewrite Htc, Htp, Htcb, Htf. simpl.
  destruct (water_find_one waters uid (date_or_today E date)) as [w |] eqn:Hw.
  - eexists _, _, _. repeat (split; [reflexivity |]). simpl.
    split; [| split; reflexivity].
    apply find_some in Hw as [_ Hm]. unfold water_matches in Hm.
    apply andb_true_iff in Hm as [_ Hm]. apply String.eqb_eq in Hm.
    symmetry. exact Hm.
  - eexists _, _, _. repeat (split; [reflexivity |]). simpl.
    repeat split; reflexivity.
Qed.

Lemma dashboard_matches_endpoints_witness :
  exists d logs w,
    get_dashboard Sample.clock None Sample.user Sample.two_day_log
      Sample.ledger_800 = Ok d /\
    get_food_logs Sample.clock None Sample.user Sample.two_day_log = Ok logs /\
    get_water_log Sample.clock None Sample.user Sample.ledger_800 = Ok w /\
    dash_food_logs d = logs /\
    dash_date d = wv_date w /\
    dash_water_consumed_ml d = wv_total_ml w /\
    dash_water_goal_ml d = wv_goal_ml w.
Proof.
  apply (dashboard_matches_endpoints Sample.clock None Sample.user
           Sample.user_id Sample.two_day_log Sample.ledger_800).
  vm_compute. reflexivity.
Defined.

(** ** More on the water ledger *)

Lemma water_find_matches (db : list water_log) (uid : value) (day : string)
    (w : water_log) :
  water_find_one db uid day = Some w -> wl_user_id w = uid /\ wl_date w = day.
Proof.
  intros H. apply find_some in H as [_ Hm]. unfold water_matches in Hm.
  apply andb_true_iff in Hm as [Hu Hd].
  apply bool_decide_eq_true in Hu. apply String.eqb_eq in Hd. tauto.
Qed.

(** X13. What [POST /water-logs] answers is what [GET /water-logs] reports for
    the same date right after it. *)
Theorem add_water_read_back (E : env) (entry : WaterLogAdd.t)
    (user : gmap string value) (db db' : list water_log) (v : water_view) :
  add_water E entry user db = Ok (db', v) ->
  get_water_log E (WaterLogAdd.date entry) user db' = Ok v.
Proof.
  intros H. unfold add_water in H. apply bind_Ok in H as (uid & Hid & H).
  unfold get_water_log. rewrite Hid. simpl.
  destruct (water_find_one db uid _) as [w |] eqn:Hw.
  - injection H as <- <-.
    rewrite (water_find_update _ _ _ _ _ _ Hw). simpl.
    apply water_find_matches in Hw as [_ ->]. reflexivity.
  - injection H as <- <-.
    rewrite (water_find_app_new _ _ _ _ Hw) by apply (water_matches_new E).
    reflexivity.
Qed.

Lemma add_water_read_back_witness :
  get_water_log Sample.clock None Sample.user
    (from_Ok ([], Build_water_view "" 0 VNone None [])
       (add_water Sample.clock (WaterLogAdd.Build_t 250 None) Sample.user
          Sample.ledger_800)).1
  = Ok (from_Ok ([], Build_water_view "" 0 VNone None [])
          (add_water Sample.clock (WaterLogAdd.Build_t 250 None) Sample.user
             Sample.ledger_800)).2.
Proof.
  apply (add_water_read_back Sample.clock (WaterLogAdd.Build_t 250 None)
           Sample.user Sample.ledger_800).
  rewrite <- surjective_pairing. apply is_Ok_from_Ok. vm_compute. reflexivity.
Defined.

Lemma water_find_update_other (db : list water_log) (uid uid' : value)
    (day day' : string) (t : Z) (es : list water_entry) :
  (uid', day') <> (uid, day) ->
  water_find_one (water_update_one db uid day t es) uid' day'
  = water_find_one db uid' day'.
Proof.
  intros Hne. unfold water_find_one.
  induction db as [| w db IH]; simpl; [reflexivity |].
  destruct (water_matches uid day w) eqn:Hm; simpl.
  - rewrite water_matches_set.
    destruct (water_matches uid' day' w) eqn:Hm'; [| reflexivity].
    exfalso. apply Hne. unfold water_matches in Hm, Hm'.
    apply andb_true_iff in Hm as [Hu Hd], Hm' as [Hu' Hd'].
    apply bool_decide_eq_true in Hu, Hu'.
    apply String.eqb_eq in Hd, Hd'. congruence.
  - rewrite IH. reflexivity.
Qed.

Lemma water_find_app_other (db : list water_log) (uid' : value) (day' : string)
    (w : water_log) :
  water_matches uid' day' w = false ->
  water_find_one (db ++ [w]) uid' day' = water_find_one db uid' day'.
Proof.
  intros Hm. unfold water_find_one.
  induction db as [| x db IH]; simpl; [rewrite Hm; reflexivity |].
  destruct (water_matches uid' day' x); [reflexivity | exact IH].
Qed.

Lemma water_step_other (E : env) (date : option string)
    (user : gmap string value) (uid uid' : value) (day' : string)
    (db : list water_log) (op : water_op) :
  user !! "id" = Some uid ->
  (uid', day') <> (uid, date_or_today E date) ->
  water_find_one (water_step E date user db op) uid' day'
  = water_find_one db uid' day'.
Proof.
  intros Hid Hne. destruct op as [amount |]; simpl.
  - unfold add_water. rewrite (dict_item_id _ _ Hid). simpl.
    destruct (water_find_one db uid (date_or_today E date)) as [w |] eqn:Hw.
    + apply water_find_update_other, Hne.
    + apply water_find_app_other. unfold water_matches. simpl.
      apply andb_false_iff.
      destruct (decide (uid = uid')) as [<- | Hu].
      * right. apply String.eqb_neq. congruence.
      * left. apply bool_decide_eq_false. exact Hu.
  - unfold remove_last_water_entry. rewrite (dict_item_id _ _ Hid). simpl.
    destruct (water_find_one db uid (date_or_today E date)) as [w |] eqn:Hw;
      [| reflexivity].
    destruct (py_last (wl_entries w)); [| reflexivity].
    apply water_find_update_other, Hne.
Qed.

(** X14. Whatever adds and undos a user runs on one day, the record of any other
    user, and of the same user on any other day, is what it was. *)
Theorem water_ledger_isolated (E : env) (date : option string)
    (user : gmap string value) (uid uid' : value) (day' : string)
    (ops : list water_op) (db : list water_log) :
  user !! "id" = Some uid ->
  (uid', day') <> (uid, date_or_today E date) ->
  water_find_one (water_run E date user ops db) uid' day'
  = water_find_one db uid' day'.
Proof.
  intros Hid Hne. revert db. unfold water_run.
  induction ops as [| op ops IH]; intros db; simpl; [reflexivity |].
  rewrite IH. apply (water_step_other E date user uid); assumption.
Qed.

Lemma water_ledger_isolated_witness :
  water_find_one
    (water_run Sample.clock None Sample.user [WAdd 250; WUndo; WUndo]
       Sample.ledger_800) Sample.user_id "2026-11-03"
  = water_find_one Sample.ledger_800 Sample.user_id "2026-11-03".
Proof.
  apply (water_ledger_isolated Sample.clock None Sample.user Sample.user_id).
  - vm_compute. reflexivity.
  - vm_compute. discriminate.
Defined.

Lemma water_set_id (w : water_log) :
  water_set w (wl_total_ml w) (wl_entries w) = w.
Proof. destruct w; reflexivity. Qed.

Lemma water_update_twice (db : list water_log) (uid : value) (day : string)
    (t t' : Z) (es es' : list water_entry) :
  water_update_one (water_update_one db uid day t es) uid day t' es'
  = water_update_one db uid day t' es'.
Proof.
  induction db as [| w db IH]; simpl; [reflexivity |].
  destruct (water_matches uid day w) eqn:Hm; simpl.
  - rewrite water_matches_set, Hm. reflexivity.
  - rewrite Hm, IH. reflexivity.
Qed.

Lemma water_update_same (db : list water_log) (uid : value) (day : string)
    (w : water_log) :
  water_find_one db uid day = Some w ->
  water_update_one db uid day (wl_total_ml w) (wl_entries w) = db.
Proof.
  unfold water_find_one.
  induction db as [| x db IH]; simpl; [discriminate |].
  destruct (water_matches uid day x); intros H.
  - injection H as <-. rewrite water_set_id. reflexivity.
  - rewrite (IH H). reflexivity.
Qed.

Lemma water_update_app_new (db : list water_log) (uid : value) (day : string)
    (w : water_log) (t : Z) (es : list water_entry) :
  water_find_one db uid day = None ->
  water_matches uid day w = true ->
  water_update_one (db ++ [w]) uid day t es = db ++ [water_set w t es].
Proof.
  unfold water_find_one. intros Hnone Hm.
  induction db as [| x db IH]; simpl in *; [rewrite Hm; reflexivity |].
  destruct (water_matches uid day x); [discriminate |].
  rewrite (IH Hnone). reflexivity.
Qed.



(** ** Weekly statistics *)

Lemma weekly_day_stat (user : gmap string value) (uid : value)
    (foods : list food_log) (waters : list water_log) (acc acc' : weekly_acc)
    (d : Z) :
  weekly_day user uid foods waters acc d = Ok acc' ->
  exists st,
    acc_daily_stats acc' = acc_daily_stats acc ++ [st] /\
    day_stat_of foods waters uid d st /\
    acc_days_on_track acc <= acc_days_on_track acc' <= acc_days_on_track acc + 1.
Proof.
  intros H. unfold weekly_day in H.
  apply bind_Ok in H as (c & Hc & H).
  apply bind_Ok in H as (tot & _ & H).
  apply bind_Ok in H as (ok & _ & H).
  injection H as <-. eexists. split; [reflexivity |]. split.
  - repeat split. exists c. split; [exact Hc | reflexivity].
  - simpl. destruct ok; lia.
Qed.

Lemma weekly_loop_stats (user : gmap string value) (uid : value)
    (foods : list food_log) (waters : list water_log) (ds : list Z) :
  forall acc acc',
  foldl (fun acc d => a ← acc; weekly_day user uid foods waters a d)
        (Ok acc) ds = Ok acc' ->
  exists sts,
    acc_daily_stats acc' = acc_daily_stats acc ++ sts /\
    Forall2 (day_stat_of foods waters uid) ds sts /\
    acc_days_on_track acc <= acc_days_on_track acc'
      <= acc_days_on_track acc + Z.of_nat (length ds).
Proof.
  induction ds as [| d ds IH]; intros acc acc' H.
  - simpl in H. injection H as <-. exists []. rewrite app_nil_r.
    split; [reflexivity |]. split; [constructor | simpl; lia].
  - simpl in H.
    destruct (weekly_day user uid foods waters acc d) as [a1 | e] eqn:H1.
    + destruct (weekly_day_stat _ _ _ _ _ _ _ H1) as (st & Hst & Hday & Hn).
      destruct (IH _ _ H) as (sts & Hsts & Hall & Hn').
      exists (st :: sts). rewrite Hsts, Hst, <- app_assoc.
      split; [reflexivity |]. split; [constructor; assumption |].
      simpl length. lia.
    + exfalso. clear -H. induction ds as [| d' ds IH]; simpl in H;
        [discriminate H | exact (IH H)].
Qed.



(** ** Timestamp order *)

Lemma string_leb_cons (c1 c2 : ascii) (s1 s2 : string) :
  String.leb (String c1 s1) (String c2 s2) = true
  <-> (N_of_ascii c1 < N_of_ascii c2)%N
      \/ (c1 = c2 /\ String.leb s1 s2 = true).
Proof.
  unfold String.leb. simpl. unfold Ascii.compare.
  destruct (N.compare_spec (N_of_ascii c1) (N_of_ascii c2)) as [He | Hl | Hg].
  - assert (Hc : c1 = c2)
      by (rewrite <- (ascii_N_embedding c1), <- (ascii_N_embedding c2), He;
          reflexivity).
    split; [intros H; right; split; assumption |].
    intros [Hlt | [_ H]]; [lia | exact H].
  - split; [intros _; left; exact Hl | reflexivity].
  - split; [discriminate |].
    intros [Hlt | [-> _]]; lia.
Qed.

Lemma string_leb_trans (s1 s2 s3 : string) :
  String.leb s1 s2 = true -> String.leb s2 s3 = true -> String.leb s1 s3 = true.
Proof.
  revert s2 s3. induction s1 as [| c1 s1 IH]; intros s2 s3.
  - destruct s3; reflexivity.
  - destruct s2 as [| c2 s2]; [discriminate |].
    destruct s3 as [| c3 s3]; [intros _ H; discriminate H |].
    rewrite !string_leb_cons.
    intros [H12 | [-> H12]] [H23 | [-> H23]].
    + left. lia.
    + left. exact H12.
    + left. exact H23.
    + right. split; [reflexivity | exact (IH _ _ H12 H23)].
Qed.

Lemma sorted_head_first {A} (R : A -> A -> Prop) (x : A) (l : list A) :
  (forall a b c, R a b -> R b c -> R a c) ->
  Sorted R (x :: l) -> forall y, In y l -> R x y.
Proof.
  intros Htrans Hs.
  assert (Ht : Relations_1.Transitive R) by exact Htrans.
  apply (Sorted_StronglySorted Ht) in Hs.
  apply StronglySorted_inv in Hs as [_ Hall].
  intros y Hy. rewrite List.Forall_forall in Hall. exact (Hall y Hy).
Qed.

Lemma sorted_last_after {A} (R : A -> A -> Prop) (l : list A) (z : A) :
  (forall a b c, R a b -> R b c -> R a c) ->
  Sorted R (l ++ [z]) -> forall y, In y l -> R y z.
Proof.
  intros Htrans Hs.
  assert (Ht : Relations_1.Transitive R) by exact Htrans.
  apply (Sorted_StronglySorted Ht) in Hs.
  induction l as [| x l IH]; intros y Hy; [destruct Hy |].
  simpl in Hs. apply StronglySorted_inv in Hs as [Hs Hall].
  destruct Hy as [<- | Hy]; [| exact (IH Hs y Hy)].
  rewrite List.Forall_forall in Hall. apply Hall, in_or_app.
  right. left. reflexivity.
Qed.

Lemma logged_at_desc_total (a b : weight_log) :
  logged_at_desc a b = true \/ logged_at_desc b a = true.
Proof. apply String.leb_total. Qed.

Lemma string_leb_refl (s : string) : String.leb s s = true.
Proof. destruct (String.leb_total s s); assumption. Qed.

Lemma weight_find_recent_spec (weights : list weight_log) (uid : value) :
  let mine := weights_of weights uid in
  let logs := weight_find_recent weights uid in
  Sorted (fun a b => logged_before b a) logs /\
  length logs = Nat.min 30 (length mine) /\
  (forall w, In w logs -> In w mine) /\
  (forall x rest, logs = x :: rest -> forall w, In w mine -> logged_before w x) /\
  ((length mine <= 30)%nat -> forall w, In w mine -> In w logs).
Proof.
  intros mine logs. unfold logs, weight_find_recent. fold (weights_of weights uid).
  fold mine. rewrite take_take, Nat.min_id.
  pose proof (sort_by_perm logged_at_desc mine) as Hperm.
  pose proof (sort_by_sorted logged_at_desc mine logged_at_desc_total) as Hsorted.
  set (l := sort_by logged_at_desc mine) in *.
  split; [apply take_sorted; exact Hsorted |].
  split; [rewrite length_take, (Permutation_length Hperm); reflexivity |].
  split.
  { intros w Hw. apply (Permutation_in w Hperm).
    apply list_elem_of_In. apply list_elem_of_In in Hw.
    exact (subseteq_take _ _ _ Hw). }
  split.
  { intros x rest Hx w Hw.
    apply (Permutation_in w (Permutation_sym Hperm)) in Hw.
    destruct l as [| y l']; [destruct Hw |].
    change (take 30 (y :: l')) with (y :: take 29 l') in Hx.
    injection Hx as <- _.
    destruct Hw as [<- | Hw]; [apply string_leb_refl |].
    refine (sorted_head_first _ y l' _ Hsorted w Hw).
    intros a b c Hab Hbc. exact (string_leb_trans _ _ _ Hbc Hab). }
  intros Hlen w Hw.
  rewrite take_ge by (rewrite (Permutation_length Hperm); exact Hlen).
  exact (Permutation_in w (Permutation_sym Hperm) Hw).
Qed.



(** ** Recent foods *)

Lemma seen_spec (name : string) (seen : list string) :
  existsb (String.eqb name) seen = true <-> In name seen.
Proof.
  rewrite existsb_exists. split.
  - intros (x & Hx & He). apply String.eqb_eq in He. subst. exact Hx.
  - intros H. exists name. split; [exact H | apply String.eqb_refl].
Qed.

Lemma group_first_In (docs : list food_log) :
  forall seen f, In f (group_first seen docs) ->
                 In f docs /\ ~ In (fl_food_name f) seen.
Proof.
  induction docs as [| x docs IH]; intros seen f Hf; simpl in Hf; [destruct Hf |].
  destruct (existsb _ seen) eqn:Hs.
  - destruct (IH _ _ Hf). split; [right |]; assumption.
  - destruct Hf as [<- | Hf].
    + split; [left; reflexivity |]. rewrite <- seen_spec, Hs. discriminate.
    + destruct (IH _ _ Hf) as [Hin Hn]. split; [right; exact Hin |].
      intros H. apply Hn. right. exact H.
Qed.

Lemma group_first_NoDup (docs : list food_log) :
  forall seen, NoDup (fl_food_name <$> group_first seen docs).
Proof.
  induction docs as [| x docs IH]; intros seen; simpl; [constructor |].
  destruct (existsb _ seen); [apply IH |].
  rewrite fmap_cons. constructor; [| apply IH].
  rewrite list_elem_of_In, in_map_iff. intros (f & Hname & Hf).
  apply group_first_In in Hf as [_ Hn]. apply Hn. left. symmetry. exact Hname.
Qed.

Lemma group_first_covers (docs : list food_log) :
  forall seen g, In g docs -> ~ In (fl_food_name g) seen ->
  exists f, In f (group_first seen docs) /\ fl_food_name f = fl_food_name g.
Proof.
  induction docs as [| x docs IH]; intros seen g Hg Hn; [destruct Hg |].
  simpl. destruct (existsb _ seen) eqn:Hs.
  - destruct Hg as [<- | Hg]; [apply seen_spec in Hs; contradiction |].
    apply IH; assumption.
  - destruct Hg as [<- | Hg]; [exists x; split; [left |]; reflexivity |].
    destruct (String.eqb_spec (fl_food_name g) (fl_food_name x)) as [He | He].
    + exists x. split; [left; reflexivity | symmetry; exact He].
    + destruct (IH (fl_food_name x :: seen) g Hg) as (f & Hf & Hname).
      * intros [H | H]; [apply He; symmetry; exact H | exact (Hn H)].
      * exists f. split; [right; exact Hf | exact Hname].
Qed.

Lemma group_first_newest (docs : list food_log) :
  StronglySorted (fun a b => created_at_desc a b = true) docs ->
  forall seen f g, In f (group_first seen docs) -> In g docs ->
  fl_food_name g = fl_food_name f ->
  String.leb (fl_created_at g) (fl_created_at f) = true.
Proof.
  induction 1 as [| x docs Hs IH Hall]; intros seen f g Hf Hg Hname;
    [destruct Hg |].
  simpl in Hf. destruct (existsb _ seen) eqn:Hseen.
  - destruct Hg as [<- | Hg]; [| exact (IH _ _ _ Hf Hg Hname)].
    apply group_first_In in Hf as [_ Hn]. apply seen_spec in Hseen.
    rewrite Hname in Hseen. contradiction.
  - destruct Hf as [<- | Hf].
    + destruct Hg as [<- | Hg]; [apply string_leb_refl |].
      rewrite List.Forall_forall in Hall. exact (Hall g Hg).
    + destruct Hg as [<- | Hg]; [| exact (IH _ _ _ Hf Hg Hname)].
      apply group_first_In in Hf as [_ Hn]. exfalso. apply Hn. left.
      exact Hname.
Qed.

Lemma created_at_desc_sorted (l : list food_log) :
  StronglySorted (fun a b => created_at_desc a b = true)
    (sort_by created_at_desc l).
Proof.
  apply Sorted_StronglySorted.
  - intros a b c Hab Hbc. exact (string_leb_trans _ _ _ Hbc Hab).
  - apply sort_by_sorted. intros u v. apply String.leb_total.
Qed.

Lemma NoDup_take_fmap {A B} (f : A -> B) (n : nat) (l : list A) :
  NoDup (f <$> l) -> NoDup (f <$> take n l).
Proof.
  intros H. rewrite fmap_take.
  eapply sublist_NoDup; [exact H | apply sublist_take].
Qed.

(** X18. [GET /food-logs/recent-foods] answers with at most 20 foods, no food
    name twice, latest [last_logged] first. Every answer is copied from a
    log of the caller that no other log of the caller with that food name
    was created after, and with fewer than 20 answers every food name the
    caller ever logged is among them. *)
Theorem recent_foods_spec (user : gmap string value) (uid : value)
    (db : list food_log) :
  user !! "id" = Some uid ->
  exists recent,
    get_recent_foods user db = Ok recent /\
    (length recent <= 20)%nat /\
    NoDup (rf_food_name <$> recent) /\
    Sorted (fun a b => last_logged_desc a b = true) recent /\
    (forall r, In r recent ->
       exists f, newest_of_name db uid f /\ r = recent_of f) /\
    ((length recent < 20)%nat ->
     forall g, In g db -> fl_user_id g = uid ->
     In (fl_food_name g) (rf_food_name <$> recent)).
Proof.
  intros Hid. unfold get_recent_foods. rewrite (dict_item_id _ _ Hid). simpl.
  set (mine := List.filter (fun f => bool_decide (fl_user_id f = uid)) db).
  set (sorted := sort_by created_at_desc mine).
  set (grouped := group_first [] sorted).
  set (out := sort_by last_logged_desc (recent_of <$> grouped)).
  assert (Hmine : forall f, In f sorted <-> In f db /\ fl_user_id f = uid).
  { intros f. unfold sorted, mine. split.
    - intros Hf. apply (Permutation_in f (sort_by_perm _ _)) in Hf.
      apply filter_In in Hf as [Hf Hu]. apply bool_decide_eq_true in Hu. tauto.
    - intros [Hf Hu].
      apply (Permutation_in f (Permutation_sym (sort_by_perm _ _))).
      apply filter_In. split; [exact Hf | apply bool_decide_eq_true, Hu]. }
  assert (Hperm : Permutation out (recent_of <$> grouped))
    by apply sort_by_perm.
  assert (Hnames : NoDup (rf_food_name <$> out)).
  { rewrite Hperm, <- list_fmap_compose. apply (group_first_NoDup sorted []). }
  eexists. split; [reflexivity |].
  split; [rewrite length_take; lia |].
  split; [apply NoDup_take_fmap, Hnames |].
  split.
  { apply take_sorted, sort_by_sorted. intros u v. apply String.leb_total. }
  split.
  - intros r Hr. apply list_elem_of_In, subseteq_take, list_elem_of_In in Hr.
    apply (Permutation_in r Hperm), in_map_iff in Hr as (f & <- & Hf).
    exists f. split; [| reflexivity].
    destruct (group_first_In _ _ _ Hf) as [Hin _].
    apply Hmine in Hin as [Hdb Hu]. split; [exact Hdb |]. split; [exact Hu |].
    intros g Hg Hgu Hname.
    apply (group_first_newest sorted (created_at_desc_sorted mine) [] f g Hf);
      [apply Hmine; split; assumption | exact Hname].
  - intros Hlt g Hg Hu.
    assert (Hall : take 20 out = out).
    { apply take_ge. rewrite length_take in Hlt. lia. }
    rewrite Hall, Hperm, <- list_fmap_compose.
    destruct (group_first_covers sorted [] g) as (f & Hf & Hname);
      [apply Hmine; split; assumption | intros [] |].
    rewrite <- Hname. apply in_map_iff. exists f. split; [reflexivity | exact Hf].
Qed.

Lemma recent_foods_spec_witness :
  exists recent,
    get_recent_foods Sample.user Sample.two_day_log = Ok recent /\
    (length recent <= 20)%nat /\
    NoDup (rf_food_name <$> recent) /\
    Sorted (fun a b => last_logged_desc a b = true) recent /\
    (forall r, In r recent ->
       exists f, newest_of_name Sample.two_day_log Sample.user_id f /\
                 r = recent_of f) /\
    ((length recent < 20)%nat ->
     forall g, In g Sample.two_day_log -> fl_user_id g = Sample.user_id ->
     In (fl_food_name g) (rf_food_name <$> recent)).
Proof.
  apply (recent_foods_spec Sample.user Sample.user_id Sample.two_day_log).
  vm_compute. reflexivity.
Defined.

(** ** Accounts *)

Lemma users_find_none (db : list (gmap string value)) (email : string) :
  users_find_by_email db email = None
  <-> ~ In (Some (VStr email)) (emails db).
Proof.
  unfold users_find_by_email, emails. split.
  - intros H Hin. apply in_map_iff in Hin as (u & Hu & Hin).
    apply (find_none _ _ H) in Hin. apply bool_decide_eq_false in Hin.
    contradiction.
  - intros H. destruct (List.find _ db) as [u |] eqn:Hf; [| reflexivity].
    apply find_some in Hf as [Hin Hu]. apply bool_decide_eq_true in Hu.
    exfalso. apply H, in_map_iff. exists u. split; assumption.
Qed.

Lemma users_find_app_new (db : list (gmap string value)) (email : string)
    (u : gmap string value) :
  users_find_by_email db email = None ->
  u !! "email" = Some (VStr email) ->
  users_find_by_email (db ++ [u]) email = Some u.
Proof.
  unfold users_find_by_email. intros Hnone Hu.
  induction db as [| x db IH]; simpl in *.
  - rewrite bool_decide_eq_true_2 by exact Hu. reflexivity.
  - destruct (bool_decide (x !! "email" = Some (VStr email)));
      [discriminate | exact (IH Hnone)].
Qed.

Lemma dict_item_Some (d : gmap string value) (k : string) (v : value) :
  d !! k = Some v -> dict_item d k = Ok v.
Proof. intros H. unfold dict_item. rewrite H. reflexivity. Qed.

Lemma register_user_doc_email (i n e p c : string) :
  register_user_doc i n e p c !! "email" = Some (VStr e).
Proof. reflexivity. Qed.

Lemma register_user_doc_password (i n e p c : string) :
  register_user_doc i n e p c !! "password" = Some (VStr p).
Proof. reflexivity. Qed.

Lemma register_user_doc_id (i n e p c : string) :
  register_user_doc i n e p c !! "id" = Some (VStr i).
Proof. reflexivity. Qed.



(** X20. After a successful registration, a login with the same address and
    password succeeds whenever the password check accepts the hash that was
    stored, and answers with the same user document as the registration
    did: the stored one without its "password". *)
Theorem register_then_login (L : auth_lib) (E E' : env)
    (req : RegisterRequest.t) (db db' : list (gmap string value))
    (resp : auth_response) :
  register L E req db = Ok (db', resp) ->
  verify_password L (RegisterRequest.password req)
    (VStr (hash_password L (RegisterRequest.password req))) = Ok true ->
  exists resp',
    login L E' {| LoginRequest.email := RegisterRequest.email req;
                  LoginRequest.password := RegisterRequest.password req |} db'
    = Ok resp' /\
    resp_user resp' = resp_user resp /\
    resp_user resp !! "password" = None /\
    resp_user resp !! "email"
    = Some (VStr (str_lower L (RegisterRequest.email req))).
Proof.
  intros H Hv. unfold register in H.
  destruct (users_find_by_email db _) eqn:Hf; [discriminate H |].
  set (doc := register_user_doc _ _ _ _ _) in H.
  assert (He : doc !! "email"
               = Some (VStr (str_lower L (RegisterRequest.email req))))
    by apply register_user_doc_email.
  assert (Hp : dict_item doc "password"
               = Ok (VStr (hash_password L (RegisterRequest.password req))))
    by (apply dict_item_Some, register_user_doc_password).
  assert (Hi : dict_item doc "id" = Ok (VStr (uuid4 E 0)))
    by (apply dict_item_Some, register_user_doc_id).
  clearbody doc. injection H as <- <-.
  unfold login. cbn [LoginRequest.email LoginRequest.password].
  rewrite (users_find_app_new _ _ _ Hf He), Hp, bind_Ok_eq, Hv, bind_Ok_eq.
  rewrite Hi, bind_Ok_eq.
  eexists. split; [reflexivity |]. cbn [resp_user].
  split; [reflexivity |]. split; [apply lookup_delete_eq |].
  unfold user_safe. rewrite lookup_delete_ne by discriminate. exact He.
Qed.

Lemma register_then_login_witness :
  exists resp',
    login Scenario.lib Sample.clock
      {| LoginRequest.email := RegisterRequest.email Scenario.ann;
         LoginRequest.password := RegisterRequest.password Scenario.ann |}
      [Scenario.ann_doc]
    = Ok resp' /\
    resp_user resp' = resp_user Scenario.ann_resp /\
    resp_user Scenario.ann_resp !! "password" = None /\
    resp_user Scenario.ann_resp !! "email"
    = Some (VStr (str_lower Scenario.lib (RegisterRequest.email Scenario.ann))).
Proof.
  apply (register_then_login Scenario.lib Sample.clock Sample.clock
           Scenario.ann [] [Scenario.ann_doc] Scenario.ann_resp).
  - reflexivity.
  - reflexivity.
Defined.

(** X21. A login only succeeds for a stored user whose "email" is the lower-cased
    address of the request and whose stored "password" the check accepts;
    the answer is that user's document without "password". *)
Theorem login_sound (L : auth_lib) (E : env) (req : LoginRequest.t)
    (db : list (gmap string value)) (resp : auth_response) :
  login L E req db = Ok resp ->
  exists u h,
    In u db /\
    u !! "email" = Some (VStr (str_lower L (LoginRequest.email req))) /\
    u !! "password" = Some h /\
    verify_password L (LoginRequest.password req) h = Ok true /\
    resp_user resp = user_safe u /\
    resp_user resp !! "password" = None.
Proof.
  intros H. unfold login in H.
  destruct (users_find_by_email db _) as [u |] eqn:Hf; [| discriminate H].
  apply find_some in Hf as [Hin Hu]. apply bool_decide_eq_true in Hu.
  apply bind_Ok in H as (h & Hh & H). apply bind_Ok in H as (ok & Hok & H).
  destruct ok; [| discriminate H].
  apply bind_Ok in H as (uid & _ & H). injection H as <-.
  exists u, h. split; [exact Hin |]. split; [exact Hu |].
  split; [unfold dict_item in Hh; destruct (u !! "password");
          [injection Hh as ->; reflexivity | discriminate Hh] |].
  split; [exact Hok |]. split; [reflexivity | apply lookup_delete_eq].
Qed.

Lemma login_sound_witness :
  exists u h,
    In u [Scenario.ann_doc] /\
    u !! "email"
    = Some (VStr (str_lower Scenario.lib (LoginRequest.email Scenario.ann_login))) /\
    u !! "password" = Some h /\
    verify_password Scenario.lib (LoginRequest.password Scenario.ann_login) h
    = Ok true /\
    resp_user Scenario.ann_resp = user_safe u /\
    resp_user Scenario.ann_resp !! "password" = None.
Proof.
  apply (login_sound Scenario.lib Sample.clock Scenario.ann_login
           [Scenario.ann_doc] Scenario.ann_resp).
  reflexivity.
Defined.

(** ** CORS origins *)

Lemma lstrip_noop (p : ascii -> bool) (s : string) :
  (forall c, str_head s = Some c -> p c = false) -> lstrip_by p s = s.
Proof.
  destruct s as [| c rest]; simpl; [reflexivity |].
  intros H. rewrite (H c eq_refl). reflexivity.
Qed.

Lemma rstrip_noop (p : ascii -> bool) (s : string) :
  (forall c, str_last s = Some c -> p c = false) -> rstrip_by p s = s.
Proof.
  induction s as [| c rest IH]; [reflexivity |].
  intros H. destruct rest as [| c' rest'].
  - simpl. rewrite (H c eq_refl). reflexivity.
  - change (rstrip_by p (String c (String c' rest')))
      with (match rstrip_by p (String c' rest') with
            | EmptyString => if p c then EmptyString else String c EmptyString
            | r => String c r
            end).
    rewrite IH by exact H. reflexivity.
Qed.

Lemma strip_noop (p : ascii -> bool) (s : string) :
  (forall c, str_head s = Some c -> p c = false) ->
  (forall c, str_last s = Some c -> p c = false) ->
  strip_by p s = s.
Proof.
  intros Hh Hl. unfold strip_by. rewrite (lstrip_noop p s Hh).
  apply rstrip_noop, Hl.
Qed.

Lemma rstrip_last (p : ascii -> bool) (s : string) (c : ascii) :
  str_last (rstrip_by p s) = Some c -> p c = false.
Proof.
  induction s as [| a rest IH]; simpl; [discriminate |].
  destruct (rstrip_by p rest) as [| b r'] eqn:Hr.
  - destruct (p a) eqn:Hp; simpl; [discriminate |].
    intros H. injection H as <-. exact Hp.
  - exact IH.
Qed.

Lemma lstrip_mem (p : ascii -> bool) (c : ascii) (s : string) :
  str_mem c s = false -> str_mem c (lstrip_by p s) = false.
Proof.
  induction s as [| a rest IH]; simpl; [reflexivity |].
  intros H. apply orb_false_iff in H as [Ha Hrest].
  destruct (p a); [exact (IH Hrest) |]. simpl. rewrite Ha, Hrest. reflexivity.
Qed.

Lemma rstrip_mem (p : ascii -> bool) (c : ascii) (s : string) :
  str_mem c s = false -> str_mem c (rstrip_by p s) = false.
Proof.
  induction s as [| a rest IH]; simpl; [reflexivity |].
  intros H. apply orb_false_iff in H as [Ha Hrest]. specialize (IH Hrest).
  destruct (rstrip_by p rest) as [| b r'].
  - destruct (p a); simpl; [reflexivity | rewrite Ha; reflexivity].
  - change (str_mem c (String a (String b r')))
      with (Ascii.eqb a c || str_mem c (String b r')).
    rewrite Ha, IH. reflexivity.
Qed.

Lemma clean_origin_mem (c : ascii) (s : string) :
  str_mem c s = false -> str_mem c (clean_origin s) = false.
Proof.
  intros H. unfold clean_origin, strip_by.
  repeat first [apply rstrip_mem | apply lstrip_mem]. exact H.
Qed.

Lemma split_on_no_sep (sep : ascii) (s : string) :
  Forall (fun piece => str_mem sep piece = false) (split_on sep s).
Proof.
  induction s as [| c rest IH]; simpl.
  - constructor; [reflexivity | constructor].
  - destruct (Ascii.eqb c sep) eqn:Hc.
    + constructor; [reflexivity | exact IH].
    + destruct (split_on sep rest) as [| piece pieces].
      * constructor; [simpl; rewrite Hc; reflexivity | constructor].
      * apply Forall_cons in IH as [Hp Hps].
        constructor; [simpl; rewrite Hc, Hp; reflexivity | exact Hps].
Qed.

(** X22. The parsed list of origins is never empty, and none of its origins ends
    with a slash or contains a comma. *)
Theorem parse_cors_origins_shape (raw_origins : string) :
  parse_cors_origins raw_origins <> [] /\
  Forall (fun origin => str_last origin <> Some "/"%char /\
                        str_mem "," origin = false)
         (parse_cors_origins raw_origins).
Proof.
  assert (Hstar : Forall (fun origin => str_last origin <> Some "/"%char /\
                                        str_mem "," origin = false)
                         ["*"%string]).
  { constructor; [split; [discriminate | reflexivity] | constructor]. }
  unfold parse_cors_origins.
  destruct (_ || _); [split; [discriminate | exact Hstar] |].
  match goal with
  | |- context [clean_origin <$> ?l] =>
      assert (Hl : Forall (fun piece => str_mem "," piece = false) l)
  end.
  { apply List.Forall_forall. intros x Hx. apply filter_In in Hx as [Hx _].
    pose proof (split_on_no_sep ","%char
                  (strip_by (one_of ["["%char; "]"%char])
                     (strip_by is_space raw_origins))) as H.
    rewrite List.Forall_forall in H. exact (H x Hx). }
  match goal with
  | |- context [clean_origin <$> ?l] => generalize dependent l
  end.
  intros l Hl. destruct l as [| x l]; [split; [discriminate | exact Hstar] |].
  split; [discriminate |].
  change (Forall (fun origin => str_last origin <> Some "/"%char /\
                                str_mem "," origin = false)
                 (clean_origin <$> x :: l)).
  apply Forall_fmap. apply (Forall_impl _ _ _ Hl). intros piece Hp. simpl.
  split; [| apply clean_origin_mem, Hp].
  intros Hlast. unfold clean_origin in Hlast.
  apply rstrip_last in Hlast. discriminate Hlast.
Qed.

Lemma split_on_plain (sep : ascii) (s : string) :
  str_mem sep s = false -> split_on sep s = [s].
Proof.
  induction s as [| c rest IH]; simpl; [reflexivity |].
  intros H. apply orb_false_iff in H as [Hc Hrest].
  rewrite Hc, (IH Hrest). reflexivity.
Qed.

Lemma split_on_app (sep : ascii) (s rest : string) :
  str_mem sep s = false ->
  split_on sep (s ++ String sep rest) = s :: split_on sep rest.
Proof.
  induction s as [| c s' IH]; simpl.
  - intros _. rewrite Ascii.eqb_refl. reflexivity.
  - intros H. apply orb_false_iff in H as [Hc Hs].
    rewrite Hc, (IH Hs). reflexivity.
Qed.

Lemma str_head_app (s t : string) (c : ascii) :
  str_head s = Some c -> str_head (s ++ t) = Some c.
Proof. destruct s; simpl; [discriminate | exact id]. Qed.

Lemma str_last_app (s t : string) :
  t <> EmptyString -> str_last (s ++ t) = str_last t.
Proof.
  intros Ht. induction s as [| c s' IH]; simpl; [reflexivity |].
  rewrite <- IH. destruct (s' ++ t)%string eqn:He; [| reflexivity].
  destruct s'; simpl in He; [contradiction | discriminate He].
Qed.

Lemma plain_origin_spec (o : string) :
  plain_origin o = true ->
  exists h l,
    str_head o = Some h /\ str_last o = Some l /\
    edge_char h = false /\ edge_char l = false /\ l <> "/"%char /\
    str_mem "," o = false.
Proof.
  unfold plain_origin.
  destruct (str_head o) as [h |]; [| discriminate].
  destruct (str_last o) as [l |]; [| discriminate].
  intros H. repeat (apply andb_true_iff in H as [H ?]).
  exists h, l. repeat split; try reflexivity;
    try (apply negb_true_iff; assumption).
  intros ->. discriminate.
Qed.

Lemma edge_char_false (c : ascii) :
  edge_char c = false ->
  is_space c = false /\ one_of [double_quote] c = false /\
  one_of [single_quote] c = false /\ one_of ["["%char; "]"%char] c = false.
Proof.
  unfold edge_char, one_of. cbn [existsb]. intros H.
  apply orb_false_iff in H as [Hs H].
  apply orb_false_iff in H as [Hd H].
  apply orb_false_iff in H as [Hq H].
  rewrite Hd, Hq, H. repeat split; try reflexivity. exact Hs.
Qed.

Lemma concat_cons2 (sep o o' : string) (os : list string) :
  String.concat sep (o :: o' :: os)
  = (o ++ sep ++ String.concat sep (o' :: os))%string.
Proof. reflexivity. Qed.

Lemma last_cons_default {A} (l : list A) (a d : A) :
  List.last (a :: l) d = List.last l a.
Proof.
  revert a d. induction l as [| b l IH]; intros a d; [reflexivity |].
  change (List.last (a :: b :: l) d) with (List.last (b :: l) d).
  rewrite (IH b d), (IH b a). reflexivity.
Qed.

Lemma last_In_cons {A} (l : list A) (a : A) : In (List.last l a) (a :: l).
Proof.
  revert a. induction l as [| b l IH]; intros a; [left; reflexivity |].
  rewrite last_cons_default. right. apply IH.
Qed.

Lemma concat_plain (os : list string) (o : string) :
  Forall (fun o => plain_origin o = true) (o :: os) ->
  let joined := String.concat "," (o :: os) in
  str_head joined = str_head o /\
  str_last joined = str_last (List.last os o) /\
  joined <> EmptyString /\
  split_on "," joined = o :: os.
Proof.
  revert o. induction os as [| o' os IH]; intros o Hall joined.
  - apply Forall_cons in Hall as [Ho _].
    destruct (plain_origin_spec o Ho) as (h & l & Hh & _ & _ & _ & _ & Hc).
    unfold joined. simpl. repeat split.
    + intros ->. discriminate Hh.
    + apply split_on_plain, Hc.
  - apply Forall_cons in Hall as [Ho Hall].
    destruct (plain_origin_spec o Ho) as (h & l & Hh & _ & _ & _ & _ & Hc).
    destruct (IH o' Hall) as (_ & Hlast & Hne & Hsplit).
    unfold joined. rewrite concat_cons2.
    split; [rewrite (str_head_app _ _ h Hh), Hh; reflexivity |].
    split.
    { rewrite str_last_app by discriminate.
      change (","%string ++ String.concat "," (o' :: os))%string
        with (String "," (String.concat "," (o' :: os))).
      destruct (String.concat "," (o' :: os)) as [| c r] eqn:Hj;
        [contradiction |].
      rewrite last_cons_default, <- Hlast. reflexivity. }
    split; [destruct o; [discriminate Hh | discriminate] |].
    change (","%string ++ String.concat "," (o' :: os))%string
      with (String "," (String.concat "," (o' :: os))).
    rewrite (split_on_app _ _ _ Hc), Hsplit. reflexivity.
Qed.

Lemma clean_origin_plain (o : string) :
  plain_origin o = true ->
  strip_by is_space o = o /\ clean_origin o = o.
Proof.
  intros Ho.
  destruct (plain_origin_spec o Ho) as (h & l & Hh & Hl & Heh & Hel & Hs & _).
  destruct (edge_char_false h Heh) as (Hh1 & Hh2 & Hh3 & _).
  destruct (edge_char_false l Hel) as (Hl1 & Hl2 & Hl3 & _).
  assert (H1 : strip_by is_space o = o).
  { apply strip_noop; intros c Hc; rewrite Hc in *; congruence. }
  split; [exact H1 |]. unfold clean_origin. rewrite H1.
  rewrite (strip_noop (one_of [double_quote]) o)
    by (intros c Hc; rewrite Hc in *; congruence).
  rewrite (strip_noop (one_of [single_quote]) o)
    by (intros c Hc; rewrite Hc in *; congruence).
  apply rstrip_noop. intros c Hc. rewrite Hc in Hl. injection Hl as ->.
  unfold one_of. simpl. rewrite orb_false_r. apply Ascii.eqb_neq. exact Hs.
Qed.

(** X23. Origins that need no cleaning come back as they were written: for a
    non-empty list of origins, each non-empty, without a comma, without
    whitespace, quote or bracket at either end and without a slash at the
    end, parsing their comma-separated list gives the list itself. *)
Theorem parse_cors_origins_round_trip (origins : list string) :
  origins <> [] ->
  Forall (fun origin => plain_origin origin = true) origins ->
  parse_cors_origins (String.concat "," origins) = origins.
Proof.
  intros Hne Hall. destruct origins as [| o os]; [contradiction |].
  destruct (concat_plain os o Hall) as (Hhead & Hlast & Hnonempty & Hsplit).
  set (joined := String.concat "," (o :: os)) in *.
  assert (Hlo : plain_origin (List.last os o) = true).
  { rewrite List.Forall_forall in Hall. apply Hall, last_In_cons. }
  apply Forall_cons in Hall as Hall'. destruct Hall' as [Ho _].
  destruct (plain_origin_spec o Ho) as (h & _ & Hh & _ & Heh & _).
  destruct (plain_origin_spec _ Hlo) as (_ & l & _ & Hl & _ & Hel & _).
  destruct (edge_char_false h Heh) as (Hh1 & _ & _ & Hh4).
  destruct (edge_char_false l Hel) as (Hl1 & _ & _ & Hl4).
  rewrite Hh in Hhead. rewrite Hl in Hlast.
  unfold parse_cors_origins.
  rewrite (strip_noop is_space joined)
    by (intros c Hc; rewrite Hc in *; congruence).
  rewrite (strip_noop (one_of ["["%char; "]"%char]) joined)
    by (intros c Hc; rewrite Hc in *; congruence).
  rewrite Hsplit.
  assert (Hkeep : List.filter
            (fun origin => negb (String.eqb (strip_by is_space origin) ""))
            (o :: os) = o :: os).
  { apply forallb_filter_id, forallb_forall. intros x Hx.
    rewrite List.Forall_forall in Hall.
    destruct (clean_origin_plain x (Hall x Hx)) as [-> _].
    destruct (plain_origin_spec x (Hall x Hx)) as (hx & _ & Hhx & _).
    destruct x; [discriminate Hhx | reflexivity]. }
  rewrite Hkeep.
  assert (Hclean : clean_origin <$> o :: os = o :: os).
  { clear -Hall. induction Hall as [| x l Hx Hl IH]; [reflexivity |].
    rewrite fmap_cons, IH. destruct (clean_origin_plain x Hx) as [_ ->].
    reflexivity. }
  rewrite Hclean.
  destruct (String.eqb joined "" || String.eqb joined "*") eqn:Hstar;
    [| reflexivity].
  apply orb_true_iff in Hstar as [Hs | Hs]; apply String.eqb_eq in Hs.
  - contradiction.
  - rewrite Hs in Hsplit. simpl in Hsplit. exact Hsplit.
Qed.

Lemma parse_cors_origins_round_trip_witness :
  parse_cors_origins
    (String.concat "," ["https://app.example.org"; "http://localhost:3000"])
  = ["https://app.example.org"; "http://localhost:3000"]%string.
Proof.
  apply (parse_cors_origins_round_trip
           ["https://app.example.org"; "http://localhost:3000"]%string).
  - discriminate.
  - repeat constructor.
Defined.
